(** * LLMStack session gateway: [llmstack/server/consumers.py]

    A shallow embedding of the websocket consumers of LLMStack and the
    properties of their event handlers.

    Every handler of the source is an [async def] that reads and writes
    attributes of [self], talks to the transport ([send], [close]) and to
    collaborators (the app runner, the asset storage, the activation
    actor) and uses [try]/[except] and early [return].  A handler is
    embedded as a function in the monad [M S], where [S] is the record of
    the consumer's attributes: it threads the attributes, collects the
    calls to the outside world in order as a list of [effect]s, and ends
    normally, by an exception or by [return].

    What the outside world answers is an argument of the model: the items
    an app runner's response iterator yields, the chunks of an asset
    stream, the outcome of a collaborator call.  [json.loads] is the
    standard parser; handlers are embedded from its result on. *)

From Stdlib Require Import ZArith String List Bool Lia.
From Stdlib Require Import Strings.Byte.
From stdpp Require Import base list strings gmap.
Import ListNotations.
Open Scope string_scope.
Set Warnings "-register-all".

(** ** Python values *)

Module Py.

(** The values [json.loads] returns (numbers restricted to integers). *)
Inductive json : Type :=
| JNull
| JBool (b : bool)
| JNum (n : Z)
| JStr (s : string)
| JArr (xs : list json)
| JObj (items : list (string * json)).

(** An exception: its class and what [str(e)] shows. *)
Record exn : Type := Exception { exn_class : string; str : string }.

Definition AttributeError (msg : string) : exn := Exception "AttributeError" msg.

(** [asyncio.CancelledError()]: what a task finds at the [await] it is
    suspended at once [cancel()] has been called on it. *)
Definition CancelledError : exn := Exception "CancelledError" "".

(** [isinstance(e, Exception)], which is what [except Exception] asks.  Of
    Python's built-in classes, [BaseException] itself, [GeneratorExit],
    [KeyboardInterrupt], [SystemExit] and (since Python 3.8)
    [asyncio.CancelledError] are not subclasses of [Exception]. *)
Definition is_exception (e : exn) : bool :=
  negb (existsb (String.eqb (exn_class e))
          ["BaseException"; "CancelledError"; "GeneratorExit";
           "KeyboardInterrupt"; "SystemExit"]).

(** [type(v).__name__] *)
Definition type_name (v : json) : string :=
  match v with
  | JNull => "NoneType"
  | JBool _ => "bool"
  | JNum _ => "int"
  | JStr _ => "str"
  | JArr _ => "list"
  | JObj _ => "dict"
  end.

(** The [AttributeError] of [v.name] for a value that has no such
    attribute. *)
Definition no_attribute (v : json) (name : string) : exn :=
  AttributeError ("'" ++ type_name v ++ "' object has no attribute '" ++ name ++ "'").

(** [d.get(key)] on the items of a [dict] (keys are unique after
    [json.loads]; the first binding is the one found). *)
Fixpoint lookup_item (key : string) (items : list (string * json)) : option json :=
  match items with
  | [] => None
  | (k, v) :: rest => if String.eqb k key then Some v else lookup_item key rest
  end.

(** The value [v.get(key, default)] gives when [v] is a dict. *)
Definition field (v : json) (key : string) (default : json) : json :=
  match v with
  | JObj items =>
      match lookup_item key items with Some x => x | None => default end
  | _ => default
  end.

(** [key in d] *)
Definition contains (key : string) (items : list (string * json)) : bool :=
  match lookup_item key items with Some _ => true | None => false end.

(** Python truthiness: [None], [False], [0], the empty string, list and
    dict are false. *)
Definition truthy (v : json) : bool :=
  match v with
  | JNull => false
  | JBool b => b
  | JNum n => negb (Z.eqb n 0)
  | JStr s => negb (String.eqb s "")
  | JArr xs => match xs with [] => false | _ => true end
  | JObj items => match items with [] => false | _ => true end
  end.

(** [v == "literal"]: only a string equals a string. *)
Definition eq_str (v : json) (literal : string) : bool :=
  match v with
  | JStr s => String.eqb s literal
  | _ => false
  end.

(** ** Bytes *)

Definition bytes : Type := list byte.

(** A bytes literal without escapes, [b"..."]. *)
Definition b (s : string) : bytes := list_byte_of_string s.

(** The newline byte, [b"\n"]. *)
Definition LF : byte := x0a.

Fixpoint bytes_eqb (x y : bytes) : bool :=
  match x, y with
  | [], [] => true
  | c :: x', d :: y' => Byte.eqb c d && bytes_eqb x' y'
  | _, _ => false
  end.

(** [data.split(b"\n")]: the pieces between newline bytes; one more piece
    than there are newlines, so the result is never empty. [cur] holds the
    bytes of the current piece, last first. *)
Fixpoint split_from (cur : bytes) (data : bytes) : list bytes :=
  match data with
  | [] => [rev cur]
  | c :: rest =>
      if Byte.eqb c LF then rev cur :: split_from [] rest
      else split_from (c :: cur) rest
  end.

Definition split (data : bytes) : list bytes := split_from [] data.

(** [chunks[0]] of a split. *)
Definition first_chunk (chunks : list bytes) : bytes :=
  match chunks with
  | [] => []
  | c :: _ => c
  end.

(** [data[n:]] *)
Definition slice_from (n : nat) (data : bytes) : bytes := skipn n data.

End Py.
Import Py.

(** ** The app runner's vocabulary *)

Module Runner.

Record AppRunnerResponseError : Type := { message : string }.

Inductive AppRunnerStreamingResponseType : Type :=
| OUTPUT_STREAM_CHUNK
| OUTPUT
| ERRORS
| OUTPUT_STREAM_END
| OTHER_TYPE.

(** Modelled from the spec: [AppRunnerResponse] of
    [llmstack.apps.runner.app_runner], which is not among the sources.  A
    response is a tagged variant: a stream chunk with its deltas, a
    complete output with its chunks, an error notice with its errors, the
    end-of-stream marker; any other variant is [other_response]. *)
Inductive AppRunnerResponse : Type :=
| stream_chunk (deltas : list (string * json))
| output (chunks : json)
| errors_response (errors : list AppRunnerResponseError)
| stream_end
| other_response.

(** [response.type] *)
Definition type (response : AppRunnerResponse) : AppRunnerStreamingResponseType :=
  match response with
  | stream_chunk _ => OUTPUT_STREAM_CHUNK
  | output _ => OUTPUT
  | errors_response _ => ERRORS
  | stream_end => OUTPUT_STREAM_END
  | other_response => OTHER_TYPE
  end.

(** [response.data.errors] *)
Definition data_errors (response : AppRunnerResponse) : list AppRunnerResponseError :=
  match response with
  | errors_response errors => errors
  | _ => []
  end.

(** [response.data.chunks] *)
Definition data_chunks (response : AppRunnerResponse) : json :=
  match response with
  | output chunks => chunks
  | _ => JNull
  end.

(** [response.data.deltas] *)
Definition data_deltas (response : AppRunnerResponse) : list (string * json) :=
  match response with
  | stream_chunk deltas => deltas
  | _ => []
  end.

Record AppRunnerRequest : Type := {
  client_request_id : json;
  session_id : string;
  input : json;
}.

(** An app runner object, as [get_app_runner_async] returns it. *)
Definition handle : Type := nat.

(** One [__anext__] of a response iterator: the next response, or an
    exception.  A run's iterator is the list of its items; the end of the
    list is the end of the iteration. *)
Inductive item : Type :=
| yields (response : AppRunnerResponse)
| raises (e : exn).

(** The exceptions an iterator raises are all of class [Exception]. *)
Definition raises_exceptions_only (items : list item) : bool :=
  forallb (fun i => match i with
                    | yields _ => true
                    | raises e => is_exception e
                    end) items.

End Runner.
Import Runner.

(** ** The connection models' vocabulary *)

Module Connections.

(** Modelled from the spec: [ConnectionStatus] and [Connection] of
    [llmstack.connections.models], which are not among the sources.  The
    handlers only ask whether a connection's status is [ACTIVE]. *)
Inductive ConnectionStatus : Type :=
| ACTIVE
| NOT_ACTIVE (name : string).

Record Connection : Type := {
  status : ConnectionStatus;
  fields : json;
}.

Definition is_active (c : Connection) : bool :=
  match status c with ACTIVE => true | NOT_ACTIVE _ => false end.

(** What [activate()]'s sequence yields: a [Connection], a
    [ConnectionActivationOutput], a [dict], or something else. *)
Inductive activation_event : Type :=
| connection_object (c : Connection)
| activation_output (data : json)
| mapping (d : list (string * json))
| other_object.

End Connections.
Import Connections.

(** ** The transport and the handler monad *)

Module Channels.

(** The text of a text frame: pydantic's [model_dump_json()] of a response,
    [json.dumps] of a value, or [json.dumps] with [cls=JSONEncoder].  The
    serializers are kept symbolic: two texts are equal when they serialize
    the same value the same way. *)
Inductive text : Type :=
| model_dump_json (response : AppRunnerResponse)
| json_dumps (value : json)
| json_dumps_cls (value : json).

(** What [self.send] is given. *)
Inductive frame : Type :=
| text_data (t : text)
| bytes_data (data : bytes).

(** A task object, as [run_coro_in_new_loop] or [create_task] returns it. *)
Definition task_id : Type := nat.

(** Calls to the outside world, in the order they are made. *)
Inductive effect : Type :=
| send (f : frame)
| close (code : option Z)
| logger_exception (msg : string)
| logger_info (msg : string)
| runner_run (h : handle) (request : AppRunnerRequest)
| runner_stop (h : handle)
| task_cancel (t : task_id)
| create_task (t : task_id)
| actor_activate
| actor_input (data : json)
| actor_set_connection (connection : Connection + json)
| actor_stop.

(** How a block of statements ends. *)
Inductive outcome (A : Type) : Type :=
| Normal (a : A)
| Raised (e : exn)
| Returned.
Arguments Normal {A} a.
Arguments Raised {A} e.
Arguments Returned {A}.

(** A block of statements over the attributes [S] of [self]. *)
Definition M (S A : Type) : Type := S -> outcome A * S * list effect.

Definition ret {S A} (a : A) : M S A := fun s => (Normal a, s, []).

Definition bind {S A B} (m : M S A) (k : A -> M S B) : M S B :=
  fun s =>
    match m s with
    | (Normal a, s1, w1) =>
        match k a s1 with
        | (r, s2, w2) => (r, s2, (w1 ++ w2)%list)
        end
    | (Raised e, s1, w1) => (Raised e, s1, w1)
    | (Returned, s1, w1) => (Returned, s1, w1)
    end.

(** [raise e] *)
Definition raise {S A} (e : exn) : M S A := fun s => (Raised e, s, []).

(** [return] *)
Definition return_ {S A} : M S A := fun s => (Returned, s, []).

(** One call to the outside world. *)
Definition perform {S} (e : effect) : M S unit := fun s => (Normal tt, s, [e]).

(** Reading and assigning attributes of [self]. *)
Definition get {S} : M S S := fun s => (Normal s, s, []).
Definition modify {S} (f : S -> S) : M S unit := fun s => (Normal tt, f s, []).

(** [try: body  except Exception as e: handler e]: an exception that is
    not an [Exception] (a [CancelledError], say) is not caught and leaves
    the block. *)
Definition try_except {S A} (body : M S A) (handler : exn -> M S A) : M S A :=
  fun s =>
    match body s with
    | (Raised e, s1, w1) =>
        if is_exception e then
          match handler e s1 with
          | (r, s2, w2) => (r, s2, (w1 ++ w2)%list)
          end
        else (Raised e, s1, w1)
    | other => other
    end.

(** [try: body  finally: final]: [final] runs however [body] ends, and the
    block ends as [body] did unless [final] itself raises or returns. *)
Definition try_finally {S A} (body : M S A) (final : M S unit) : M S A :=
  fun s =>
    match body s with
    | (r, s1, w1) =>
        match final s1 with
        | (Normal _, s2, w2) => (r, s2, (w1 ++ w2)%list)
        | (Raised e, s2, w2) => (Raised e, s2, (w1 ++ w2)%list)
        | (Returned, s2, w2) => (Returned, s2, (w1 ++ w2)%list)
        end
    end.

(** The body of a function: a [return] inside ends the call normally. *)
Definition def {S} (body : M S unit) : M S unit :=
  fun s =>
    match body s with
    | (Returned, s1, w1) => (Normal tt, s1, w1)
    | other => other
    end.

(** Calling an [async def] builds a coroutine object; the body runs when
    the object is awaited.  A call that is not awaited (and whose object
    is dropped) runs nothing of the body. *)
Definition not_awaited {S A} (coroutine : M S A) : M S unit := ret tt.

(** The frames among some effects, in order. *)
Fixpoint sent (w : list effect) : list frame :=
  match w with
  | [] => []
  | send f :: rest => f :: sent rest
  | _ :: rest => sent rest
  end.

(** The close calls among some effects, in order. *)
Fixpoint closes (w : list effect) : list (option Z) :=
  match w with
  | [] => []
  | close code :: rest => code :: closes rest
  | _ :: rest => closes rest
  end.

(** The runner handles [stop()] was called on, in order. *)
Fixpoint stopped (w : list effect) : list handle :=
  match w with
  | [] => []
  | runner_stop h :: rest => h :: stopped rest
  | _ :: rest => stopped rest
  end.

Definition outcome_of {S A} (r : outcome A * S * list effect) : outcome A := fst (fst r).
Definition state_of {S A} (r : outcome A * S * list effect) : S := snd (fst r).
Definition effects_of {S A} (r : outcome A * S * list effect) : list effect := snd r.

(** [raised r]: the block ended by an exception. *)
Definition raised {A} (r : outcome A) : bool :=
  match r with Raised _ => true | _ => false end.

End Channels.
Import Channels.

Notation "x <- m ;; k" := (bind m (fun x => k))
  (at level 100, m at next level, right associativity).
Notation "m ;; k" := (bind m (fun _ => k))
  (at level 100, right associativity).

(** The normalized outbound frames, as the interface names them. *)
Module Frames.

(** [{"errors": [message, ...], "request_id": token}] *)
Definition error (messages : list string) (request_id : json) : frame :=
  text_data (json_dumps (JObj [
    ("errors", JArr (map JStr messages));
    ("request_id", request_id)])).

(** [{"event": "done", "request_id": token}] *)
Definition done (request_id : json) : frame :=
  text_data (json_dumps (JObj [
    ("event", JStr "done");
    ("request_id", request_id)])).

(** [{"errors": [message], "reply_to": token, "request_id": token,
      "asset_request_id": token}] *)
Definition asset_failed (msg : string) (request_id : json) : frame :=
  text_data (json_dumps (JObj [
    ("errors", JArr [JStr msg]);
    ("reply_to", request_id);
    ("request_id", request_id);
    ("asset_request_id", request_id)])).

(** The engine's response, serialized as it is. *)
Definition pass_through (response : AppRunnerResponse) : frame :=
  text_data (model_dump_json response).

(** The frame of a terminal response: the error frame with the messages
    of [ERRORS], the done frame for [OUTPUT_STREAM_END]; no other response
    is terminal. *)
Definition terminal (request_id : json) (response : AppRunnerResponse) : option frame :=
  match response with
  | errors_response errors => Some (error (map message errors) request_id)
  | stream_end => Some (done request_id)
  | _ => None
  end.

End Frames.

(** [v.get(key, default)]: an [AttributeError] that names the type of [v]
    unless [v] is a dict. *)
Definition py_get {S} (v : json) (key : string) (default : json) : M S json :=
  match v with
  | JObj _ => ret (field v key default)
  | _ => raise (no_attribute v "get")
  end.

(** The frame [json_data] is a dict whose ["event"] is [name]. *)
Definition event_is (json_data : json) (name : string) : bool :=
  match json_data with
  | JObj _ => eq_str (field json_data "event" JNull) name
  | _ => false
  end.

(** ** Assets and their streams *)

Module Assets.

(** An asset, as [get_asset_by_objref] or [create_asset] gives it. *)
Record Asset : Type := { objref : string }.

(** One step of [read_async]: the next chunk, or an exception. *)
Inductive read_item : Type :=
| next_chunk (chunk : bytes)
| read_raises (e : exn).

(** The interface of [AssetStream(asset)] of [llmstack.assets.stream] that
    the consumers use, over some storage.  A stream is made from what the
    resolution gave, an asset or [None]. *)
Class AssetStream (storage : Type) : Type := {
  read_async : option Asset -> nat -> storage -> list read_item;
  append_chunk : option Asset -> bytes -> storage -> exn + storage;
  finalize : option Asset -> storage -> exn + storage;
}.

(** Modelled from the spec: the asset stream of [llmstack.assets.stream],
    which is not among the sources.  A stream is an ordered, append-only
    sequence of byte chunks, open for write until it is finalized; a read
    gives the chunks appended so far, in append order, from the given
    index; an append to a finalized stream fails with a programming
    error; finalize is idempotent. *)
Record stream_state : Type := {
  chunks : list bytes;
  finalized : bool;
}.

Definition empty_stream : stream_state := {| chunks := []; finalized := false |}.

Definition stream_of (a : Asset) (store : gmap string stream_state) : stream_state :=
  default empty_stream (store !! objref a).

(** The durable content of an asset: its chunks, concatenated. *)
Definition content (a : Asset) (store : gmap string stream_state) : bytes :=
  concat (chunks (stream_of a store)).

Definition no_asset (method : string) : exn :=
  AttributeError ("'NoneType' object has no attribute '" ++ method ++ "'").

Definition spec_read_async (asset : option Asset) (start_index : nat)
    (store : gmap string stream_state) : list read_item :=
  match asset with
  | Some a => map next_chunk (skipn start_index (chunks (stream_of a store)))
  | None => [read_raises (no_asset "read")]
  end.

Definition spec_append_chunk (asset : option Asset) (chunk : bytes)
    (store : gmap string stream_state) : exn + gmap string stream_state :=
  match asset with
  | Some a =>
      let st := stream_of a store in
      if finalized st then inl (Exception "RuntimeError" "stream is finalized")
      else inr (<[objref a := {| chunks := chunks st ++ [chunk]; finalized := false |}]> store)
  | None => inl (no_asset "append_chunk")
  end.

Definition spec_finalize (asset : option Asset)
    (store : gmap string stream_state) : exn + gmap string stream_state :=
  match asset with
  | Some a =>
      let st := stream_of a store in
      inr (<[objref a := {| chunks := chunks st; finalized := true |}]> store)
  | None => inl (no_asset "finalize")
  end.

Definition spec_stream : AssetStream (gmap string stream_state) :=
  {| read_async := spec_read_async;
     append_chunk := spec_append_chunk;
     finalize := spec_finalize |}.

End Assets.
Import Assets.

(** ** [AppConsumer] (and [StoreAppConsumer], which overrides [connect] only) *)

Module AppConsumer.

Record User : Type := {
  username : string;
  email : string;
  is_anonymous : bool;
}.

(** The collaborators of the [create_asset] event:
    [AppSessionFiles.create_asset(metadata, session_id, streaming=...)],
    which gives an asset, [None], or raises, and [str(uuid.uuid4())]. *)
Class AppSessionFiles : Type := {
  create_asset : json -> string -> json -> exn + option Asset;
  uuid4 : string;
}.

(** The attributes of the consumer.  [connect] assigns [_app_uuid],
    [_preview], [_session_id], [_user], [_source], [_app_runner],
    [_event_response_task] and [_connected]; no method of the class
    assigns [app_id] or [_session], which [create_asset] reads: [None]
    below is an attribute that is not there. *)
Record self : Type := {
  _app_uuid : string;
  _session_id : string;
  _user : option User;
  _app_runner : option handle;
  _event_response_task : option task_id;
  _connected : bool;
  app_id : option json;
  _session : option json;
}.

Definition set_connected (v : bool) (s : self) : self :=
  {| _app_uuid := _app_uuid s; _session_id := _session_id s; _user := _user s;
     _app_runner := _app_runner s; _event_response_task := _event_response_task s;
     _connected := v; app_id := app_id s; _session := _session s |}.

(** What happens around one run while its task iterates: the iterator
    gives its next item, the transport calls [disconnect] on the session
    while the task is suspended, or a [cancel()] of the task reaches it: a
    [CancelledError] is thrown at the [await] the task is suspended at.  A
    [cancel()] that has not reached the task yet shows in nothing: the
    iterator goes on giving items. *)
Inductive tick : Type :=
| anext (i : item)
| disconnected (close_code : Z)
| cancelled.

(** The iterator gives a response, with nothing else happening. *)
Definition live (response : AppRunnerResponse) : tick := anext (yields response).

(** [async def disconnect(self, close_code)] *)
Definition disconnect (close_code : Z) : M self unit :=
  def (
    modify (set_connected false) ;;
    s <- get ;;
    match _app_runner s with
    | Some h => perform (runner_stop h)
    | None => ret tt
    end).

(** [async def stop(self)] *)
Definition stop : M self unit :=
  def (
    modify (set_connected false) ;;
    s <- get ;;
    match _event_response_task s with
    | Some t => perform (task_cancel t)
    | None => ret tt
    end ;;
    perform (close None)).

(** [self._app_runner.run(app_runner_request)] *)
Definition run (request : AppRunnerRequest) : M self unit :=
  s <- get ;;
  match _app_runner s with
  | Some h => perform (runner_run h request)
  | None => raise (AttributeError "'NoneType' object has no attribute 'run'")
  end.

(** The frame for one response (lines 166-178). *)
Definition forward (client_request_id : json) (response : AppRunnerResponse) : M self unit :=
  match type response with
  | OUTPUT_STREAM_CHUNK => perform (send (text_data (model_dump_json response)))
  | ERRORS =>
      perform (send (text_data (json_dumps (JObj [
        ("errors", JArr (map (fun error => JStr (message error)) (data_errors response)));
        ("request_id", client_request_id)]))))
  | OUTPUT_STREAM_END =>
      perform (send (text_data (json_dumps (JObj [
        ("event", JStr "done");
        ("request_id", client_request_id)]))))
  | _ => ret tt
  end.

(** [asyncio.current_task().cancelled()] (line 163), asked by the task
    that is running: [Task.cancelled()] is true of a task that has ended by
    a [CancelledError], so for the running task it is [False], also after
    [cancel()] was called on it. *)
Definition current_task_cancelled : bool := false.

(** [async for response in response_iterator: ...] (lines 161-178). *)
Fixpoint dispatch (client_request_id : json) (ticks : list tick) : M self unit :=
  match ticks with
  | [] => ret tt
  | disconnected close_code :: rest =>
      disconnect close_code ;; dispatch client_request_id rest
  | cancelled :: _ => raise CancelledError
  | anext (raises e) :: _ => raise e
  | anext (yields response) :: rest =>
      s <- get ;;
      if current_task_cancelled || negb (_connected s) then ret tt
      else forward client_request_id response ;;
           dispatch client_request_id rest
  end.

(** The error frame of [create_asset]. *)
Definition asset_error (msg : string) (client_request_id : json) : frame :=
  text_data (json_dumps (JObj [
    ("errors", JArr [JStr msg]);
    ("reply_to", client_request_id);
    ("request_id", client_request_id);
    ("asset_request_id", client_request_id)])).

(** [self.app_id] *)
Definition get_app_id : M self json :=
  s <- get ;;
  match app_id s with
  | Some v => ret v
  | None => raise (AttributeError "'AppConsumer' object has no attribute 'app_id'")
  end.

(** [self._user.username if self._user and not self._user.is_anonymous
     else self._session.get("_prid", "")] *)
Definition get_username : M self json :=
  s <- get ;;
  match _user s with
  | Some u =>
      if negb (is_anonymous u) then ret (JStr (username u))
      else match _session s with
           | Some session => py_get session "_prid" (JStr "")
           | None => raise (AttributeError "'AppConsumer' object has no attribute '_session'")
           end
  | None =>
      match _session s with
      | Some session => py_get session "_prid" (JStr "")
      | None => raise (AttributeError "'AppConsumer' object has no attribute '_session'")
      end
  end.

Section RespondToEvent.
Context {files : AppSessionFiles}.

(** The body of the [try] of the [create_asset] event (lines 185-221). *)
Definition create_asset_body (json_data client_request_id : json) : M self unit :=
  asset_data <- py_get json_data "data" (JObj []) ;;
  file_name <- py_get asset_data "file_name" (JStr uuid4) ;;
  mime_type <- py_get asset_data "mime_type" (JStr "application/octet-stream") ;;
  app_uuid <- get_app_id ;;
  user_name <- get_username ;;
  let asset_metadata := JObj [
    ("file_name", file_name);
    ("mime_type", mime_type);
    ("app_uuid", app_uuid);
    ("username", user_name)] in
  streaming <- py_get asset_data "streaming" (JBool false) ;;
  s <- get ;;
  match create_asset asset_metadata (_session_id s) streaming with
  | inl e => raise e
  | inr None =>
      perform (send (asset_error "Failed to create asset" client_request_id)) ;;
      return_
  | inr (Some asset) =>
      perform (send (text_data (json_dumps (JObj [
        ("asset", JStr (objref asset));
        ("reply_to", client_request_id);
        ("request_id", client_request_id);
        ("asset_request_id", client_request_id)]))))
  end.

(** [async def _respond_to_event(self, text_data)], from
    [json_data = json.loads(text_data)] on; [ticks] is what the run's
    iterator and the session's surroundings do while the task runs. *)
Definition _respond_to_event (json_data : json) (ticks : list tick) : M self unit :=
  def (
    client_request_id <- py_get json_data "id" JNull ;;
    event <- py_get json_data "event" JNull ;;
    (if eq_str event "run" then
       input <- py_get json_data "input" (JObj []) ;;
       s <- get ;;
       let app_runner_request :=
         {| client_request_id := client_request_id;
            session_id := _session_id s;
            input := input |} in
       try_except
         (run app_runner_request ;;
          dispatch client_request_id ticks)
         (fun e => perform (logger_exception ("Failed to run app: " ++ str e)))
     else if eq_str event "create_asset" then
       try_except
         (create_asset_body json_data client_request_id)
         (fun e =>
            perform (logger_exception (str e)) ;;
            perform (send (asset_error (str e) client_request_id)))
     else ret tt) ;;
    (if eq_str event "delete_asset" then
       s <- get ;;
       if String.eqb (_session_id s) "" then return_ else ret tt
     else if eq_str event "stop" then stop
     else ret tt)).

End RespondToEvent.

(** The request a [run] event hands to the runner. *)
Definition run_request (json_data : json) (s : self) : AppRunnerRequest :=
  {| client_request_id := field json_data "id" JNull;
     session_id := _session_id s;
     input := field json_data "input" (JObj []) |}.

(** What the [except] of the [run] event logs for the way its [try]
    ended. *)
Definition failed_to_run (o : outcome unit) : list effect :=
  match o with
  | Raised e =>
      if is_exception e then [logger_exception ("Failed to run app: " ++ str e)] else []
  | _ => []
  end.

(** How the handler of a [run] event ends for the way its [try] ended: an
    exception that is not an [Exception] leaves the handler. *)
Definition after_run (o : outcome unit) : outcome unit :=
  match o with
  | Raised e => if is_exception e then Normal tt else Raised e
  | _ => Normal tt
  end.

End AppConsumer.

(** ** [AssetStreamConsumer] *)

Module AssetStreamConsumer.

Section Consumer.
Context {storage : Type} {streams : AssetStream storage}.

(** The consumer's [_asset], as [connect] resolved it, and the storage the
    asset streams live in. *)
Record self : Type := {
  _asset : option Asset;
  assets : storage;
}.

Definition set_assets (store : storage) (s : self) : self :=
  {| _asset := _asset s; assets := store |}.

(** [async for chunk in asset_stream.read_async(start_index=0):
      await self.send(bytes_data=chunk)] *)
Fixpoint forward_chunks (items : list read_item) : M self unit :=
  match items with
  | [] => ret tt
  | next_chunk chunk :: rest =>
      perform (send (bytes_data chunk)) ;; forward_chunks rest
  | read_raises e :: _ => raise e
  end.

(** A storage call that gives the new storage or raises. *)
Definition storage_call (f : storage -> exn + storage) : M self unit :=
  s <- get ;;
  match f (assets s) with
  | inl e => raise e
  | inr store => modify (set_assets store)
  end.

(** [async def _respond_to_event(self, bytes_data)]; the argument is
    [None] for a frame with no binary part, and [received] is its value
    otherwise. *)
Definition _respond_to_event (bytes_data_arg : option bytes) : M self unit :=
  def (
    match bytes_data_arg with
    | None => ret tt
    | Some [] => ret tt
    | Some received =>
        let chunks := split received in
        let event := first_chunk chunks in
        s <- get ;;
        match _asset s with
        | None => perform (close (Some 1008%Z)) ;; return_
        | Some asset =>
            let asset_stream := Some asset in
            try_except
              ((if bytes_eqb event (b "read") then
                  forward_chunks (read_async asset_stream 0 (assets s))
                else ret tt) ;;
               (if bytes_eqb event (b "write") then
                  (if bytes_eqb received (b "write" ++ [LF])%list then
                     storage_call (finalize asset_stream) ;;
                     perform (close None) ;;
                     return_
                   else ret tt) ;;
                  storage_call (append_chunk asset_stream (slice_from 6 received))
                else ret tt))
              (fun e =>
                 perform (logger_exception (str e)) ;;
                 perform (send (bytes_data [])) ;;
                 perform (close None))
        end
    end).

End Consumer.
Arguments self : clear implicits.

(** [async def receive(self, text_data=None, bytes_data=None)] (line 296)
    starts the handler of a frame with [run_coro_in_new_loop] and does not
    wait for it: the handlers of the frames of a connection need not run in
    the order the frames arrived.  [handlers_run order frames] is the
    connection after the handlers have run one after the other in [order],
    a list of positions in [frames]; a handler of a [write] frame makes one
    call on the storage, so for such frames the order of the handlers is
    the order of their calls. *)
Fixpoint handlers_run {storage : Type} {streams : AssetStream storage}
    (order : list nat) (frames : list (option bytes)) (s : self storage)
    : self storage * list effect :=
  match order with
  | [] => (s, [])
  | i :: rest =>
      match frames !! i with
      | Some f =>
          match _respond_to_event f s with
          | (_, s1, w1) =>
              match handlers_run rest frames s1 with
              | (s2, w2) => (s2, (w1 ++ w2)%list)
              end
          end
      | None => handlers_run rest frames s
      end
  end.

End AssetStreamConsumer.

(** ** [ConnectionConsumer] *)

Module ConnectionConsumer.

(** The state of the task object [create_task] returned: not started,
    suspended in the loop of [_activate_connection], done, cancelled. *)
Inductive task_state : Type :=
| created
| pending
| task_done
| task_cancelled.

Record activation_task : Type := {
  task : task_id;
  state : task_state;
}.

(** The attributes of the consumer.  [connect] assigns [user] and
    [_activation_task]; for a user that is not anonymous it also assigns
    [connection_id] and [connection_activation_actor] ([false] below is an
    actor attribute that is not there). *)
Record self : Type := {
  user_is_anonymous : bool;
  _activation_task : option activation_task;
  connection_activation_actor : bool;
}.

Definition set_activation_task (t : option activation_task) (s : self) : self :=
  {| user_is_anonymous := user_is_anonymous s;
     _activation_task := t;
     connection_activation_actor := connection_activation_actor s |}.

(** A method call on [self.connection_activation_actor]. *)
Definition actor_call (e : effect) : M self unit :=
  s <- get ;;
  if connection_activation_actor s then perform e
  else raise (AttributeError
    "'ConnectionConsumer' object has no attribute 'connection_activation_actor'").

(** [async def disconnect(self, close_code)]; its last line,
    [self.close(code=close_code)], is called without [await]. *)
Definition disconnect (close_code : Z) : M self unit :=
  def (
    actor_call actor_stop ;;
    s <- get ;;
    match _activation_task s with
    | Some t =>
        match state t with
        | created | pending =>
            perform (task_cancel (task t)) ;;
            modify (set_activation_task (Some {| task := task t; state := task_cancelled |}))
        | _ => ret tt
        end
    | None => ret tt
    end ;;
    not_awaited (perform (close (Some close_code)) : M self unit)).

(** The body of the loop of [_activate_connection] for one event of the
    actor's sequence (lines 325-349). *)
Definition on_activation_event (c : activation_event) : M self unit :=
  match c with
  | connection_object conn =>
      (if is_active conn then actor_call (actor_set_connection (inl conn)) else ret tt) ;;
      perform (send (text_data (json_dumps (JObj [
        ("event", JStr (if is_active conn then "success" else "error"))])))) ;;
      actor_call actor_stop
  | activation_output data =>
      perform (send (text_data (json_dumps (JObj [
        ("event", JStr "output"); ("output", data)]))))
  | mapping d =>
      let connection := default JNull (lookup_item "connection" d) in
      (if truthy connection then actor_call (actor_set_connection (inr connection))
       else ret tt) ;;
      (if truthy (default JNull (lookup_item "error" d)) then
         perform (send (text_data (json_dumps (JObj [
           ("event", JStr "error");
           ("error", default JNull (lookup_item "error" d))]))))
       else ret tt)
  | other_object => ret tt
  end.

(** One step of the task running [_activate_connection]: the actor's
    sequence gives its next event, raises, or ends.  A task that is done
    or cancelled takes no step. *)
Inductive activation_step : Type :=
| actor_yields (c : activation_event)
| actor_raises (e : exn)
| actor_ends.

Definition set_task_state (st : task_state) : M self unit :=
  s <- get ;;
  match _activation_task s with
  | Some t => modify (set_activation_task (Some {| task := task t; state := st |}))
  | None => ret tt
  end.

(** How an exception that leaves [_activate_connection] ends its task:
    cancelled for a [CancelledError], done otherwise. *)
Definition ended_by (e : exn) : task_state :=
  if String.eqb (exn_class e) "CancelledError" then task_cancelled else task_done.

(** The rest of the loop after [activate()] gave the sequence.  An
    exception of the sequence that [except Exception] (line 351) does not
    catch leaves the coroutine, and the task ends with it. *)
Definition iterate (step : activation_step) : M self unit :=
  match step with
  | actor_yields c => on_activation_event c
  | actor_raises e =>
      (if is_exception e then ret tt else set_task_state (ended_by e)) ;;
      raise e
  | actor_ends => set_task_state task_done
  end.

(** [async def _activate_connection(self)], one step of its task at a
    time: a task not yet started first calls [activate()]. *)
Definition _activate_connection_step (step : activation_step) : M self unit :=
  s <- get ;;
  match _activation_task s with
  | Some t =>
      match state t with
      | created =>
          try_except
            (actor_call actor_activate ;;
             set_task_state pending ;;
             iterate step)
            (fun e =>
               perform (logger_exception (str e)) ;;
               set_task_state task_done ;;
               actor_call actor_stop)
      | pending =>
          try_except
            (iterate step)
            (fun e =>
               perform (logger_exception (str e)) ;;
               set_task_state task_done ;;
               actor_call actor_stop)
      | _ => ret tt
      end
  | None => ret tt
  end.

(** [async def receive(self, text_data=None, bytes_data=None)], from
    [json_data = json.loads(text_data or "{}")] on; [new_task] is the task
    object [create_task] returns.  [self.disconnect(1000)] in the
    [finally] is called without [await]. *)
Definition receive (json_data : json) (new_task : task_id) : M self unit :=
  def (
    input <- py_get json_data "input" (JObj []) ;;
    event <- py_get json_data "event" JNull ;;
    (if eq_str event "activate" then
       perform (create_task new_task) ;;
       modify (set_activation_task (Some {| task := new_task; state := created |}))
     else ret tt) ;;
    (if eq_str event "input" && eq_str input "terminate" then
       try_finally
         (try_except
            (actor_call (actor_input input))
            (fun e => perform (logger_exception (str e))))
         (not_awaited (disconnect 1000))
     else ret tt)).

(** What happens on a session, in order: a frame is received, the
    activation task takes a step, or the transport calls [disconnect]. *)
Inductive event : Type :=
| Receive (json_data : json) (new_task : task_id)
| Activation (step : activation_step)
| Disconnect (close_code : Z).

Definition handle_event (ev : event) : M self unit :=
  match ev with
  | Receive json_data new_task => receive json_data new_task
  | Activation step => _activate_connection_step step
  | Disconnect close_code => disconnect close_code
  end.

(** The session after some events, and the effects so far; an exception
    that leaves a handler ends that handler only. *)
Fixpoint exec (events : list event) (s : self) : self * list effect :=
  match events with
  | [] => (s, [])
  | ev :: rest =>
      match handle_event ev s with
      | (_, s1, w1) =>
          match exec rest s1 with
          | (s2, w2) => (s2, (w1 ++ w2)%list)
          end
      end
  end.

End ConnectionConsumer.

(** ** [PlaygroundConsumer] *)

Module PlaygroundConsumer.

(** The attributes the handlers read and assign after [connect]. *)
Record self : Type := {
  _event_response_task : option task_id;
  _app_runner : option handle;
  _connected : bool;
}.

Definition set_connected (v : bool) (s : self) : self :=
  {| _event_response_task := _event_response_task s;
     _app_runner := _app_runner s; _connected := v |}.

Definition set_app_runner (r : option handle) (s : self) : self :=
  {| _event_response_task := _event_response_task s;
     _app_runner := r; _connected := _connected s |}.

Definition set_event_response_task (t : option task_id) (s : self) : self :=
  {| _event_response_task := t;
     _app_runner := _app_runner s; _connected := _connected s |}.

(** [async def disconnect(self, close_code)] *)
Definition disconnect (close_code : Z) : M self unit :=
  def (
    modify (set_connected false) ;;
    s <- get ;;
    match _event_response_task s with
    | Some t => perform (task_cancel t)
    | None => ret tt
    end ;;
    match _app_runner s with
    | Some h => perform (runner_stop h)
    | None => ret tt
    end).

(** Lines 418-438: the locals of one run, up to the request; [uuid] is
    [str(uuid.uuid4())]. *)
Definition prepare (json_data : json) (uuid : string) : M self AppRunnerRequest :=
  event_input <- py_get json_data "input" (JObj []) ;;
  processor_slug <- py_get event_input "api_backend_slug" JNull ;;
  provider_slug <- py_get event_input "api_provider_slug" JNull ;;
  input_data <- py_get event_input "input" (JObj []) ;;
  config_data <- py_get event_input "config" (JObj []) ;;
  let session_id := uuid in
  client_request_id <- py_get json_data "id" JNull ;;
  ret {| client_request_id := client_request_id;
         session_id := session_id;
         input := input_data |}.

(** [self._app_runner = await PlaygroundViewSet().get_app_runner_async(...)],
    given what the call answers: an exception, or a runner (or [None]). *)
Definition await_app_runner (answer : exn + option handle) : M self unit :=
  match answer with
  | inl e => raise e
  | inr r => modify (set_app_runner r)
  end.

(** [self._app_runner.run(app_runner_request)] *)
Definition run (request : AppRunnerRequest) : M self unit :=
  s <- get ;;
  match _app_runner s with
  | Some h => perform (runner_run h request)
  | None => raise (AttributeError "'NoneType' object has no attribute 'run'")
  end.

(** [await self._app_runner.stop()] (line 460) *)
Definition stop_app_runner : M self unit :=
  s <- get ;;
  match _app_runner s with
  | Some h => perform (runner_stop h)
  | None => raise (AttributeError "'NoneType' object has no attribute 'stop'")
  end.

(** The frame for one response (lines 449-457). *)
Definition forward (client_request_id : json) (response : AppRunnerResponse) : M self unit :=
  match type response with
  | OUTPUT_STREAM_CHUNK => perform (send (text_data (model_dump_json response)))
  | OUTPUT =>
      perform (send (text_data (json_dumps_cls (JObj [
        ("event", JStr "done");
        ("request_id", client_request_id);
        ("data", data_chunks response)]))))
  | _ => ret tt
  end.

(** [async for response in response_iterator: ...] (lines 445-457), when
    nothing else touches the session meanwhile. *)
Fixpoint dispatch (client_request_id : json) (items : list item) : M self unit :=
  match items with
  | [] => ret tt
  | raises e :: _ => raise e
  | yields response :: rest =>
      s <- get ;;
      if negb (_connected s) then ret tt
      else forward client_request_id response ;; dispatch client_request_id rest
  end.

(** [async def _respond_to_event(self, text_data)], from
    [json_data = json.loads(text_data)] on, run from its first line to its
    last with nothing else touching the session meanwhile. *)
Definition _respond_to_event (json_data : json) (uuid : string)
    (answer : exn + option handle) (items : list item) : M self unit :=
  def (
    app_runner_request <- prepare json_data uuid ;;
    await_app_runner answer ;;
    try_except
      (run app_runner_request ;;
       dispatch (client_request_id app_runner_request) items)
      (fun e => perform (logger_exception ("Failed to run app: " ++ str e))) ;;
    stop_app_runner).

(** *** Runs that overlap

    [receive] starts every handler as a task of its own and does not wait
    for it, so the handlers of two frames of a session take turns at
    their [await]s.  A task is where its handler is suspended. *)
Inductive stage : Type :=
| awaiting_app_runner (app_runner_request : AppRunnerRequest)
| iterating (client_request_id : json) (remaining : list item)
| finished.

(** A task: what [get_app_runner_async] will answer it, what its run's
    iterator will give, where it is, and whether [cancel()] was called on
    it. *)
Record run_task : Type := {
  app_runner_answer : exn + option handle;
  response_iterator : list item;
  at_stage : stage;
  cancel_requested : bool;
}.

Definition move (t : run_task) (st : stage) : run_task :=
  {| app_runner_answer := app_runner_answer t;
     response_iterator := response_iterator t;
     at_stage := st;
     cancel_requested := cancel_requested t |}.

(** [task.cancel()] *)
Definition request_cancel (t : run_task) : run_task :=
  {| app_runner_answer := app_runner_answer t;
     response_iterator := response_iterator t;
     at_stage := at_stage t;
     cancel_requested := true |}.

(** A task resumes and runs up to its next [await] on the runner factory
    or on the iterator (or to its end).  A task [cancel()] was called on
    finds a [CancelledError] at the [await] it is suspended at; an
    exception of the iterator that [except Exception] does not catch
    leaves the handler, past the [stop()] of line 460. *)
Definition resume (t : run_task) : M self stage :=
  match at_stage t with
  | awaiting_app_runner app_runner_request =>
      if cancel_requested t then raise CancelledError
      else
        await_app_runner (app_runner_answer t) ;;
        started <- try_except
                     (run app_runner_request ;; ret true)
                     (fun e =>
                        perform (logger_exception ("Failed to run app: " ++ str e)) ;;
                        ret false) ;;
        if (started : bool)
        then ret (iterating (client_request_id app_runner_request) (response_iterator t))
        else stop_app_runner ;; ret finished
  | iterating client_request_id items =>
      if cancel_requested t then raise CancelledError
      else
        match items with
        | [] => stop_app_runner ;; ret finished
        | raises e :: _ =>
            try_except (raise e)
              (fun e => perform (logger_exception ("Failed to run app: " ++ str e))) ;;
            stop_app_runner ;;
            ret finished
        | yields response :: rest =>
            s <- get ;;
            if negb (_connected s) then stop_app_runner ;; ret finished
            else forward client_request_id response ;;
                 ret (iterating client_request_id rest)
        end
  | finished => ret finished
  end.

(** A session, the tasks [receive] started on it (the oldest first) and
    the effects so far. *)
Record system : Type := {
  session : self;
  tasks : list run_task;
  trace : list effect;
}.

(** What happens on a session, in order: [receive] starts the handler of a
    frame, task [i] resumes, or the transport calls [disconnect]. *)
Inductive event : Type :=
| Receive (json_data : json) (uuid : string)
    (answer : exn + option handle) (items : list item)
| Step (i : nat)
| Disconnect (close_code : Z).

(** [async def receive(self, text_data)]: the new task is assigned to
    [_event_response_task]; its handler runs to the [await] on the runner
    factory. *)
Definition receive (json_data : json) (uuid : string)
    (answer : exn + option handle) (items : list item) (sys : system) : system :=
  let new_task := length (tasks sys) in
  match prepare json_data uuid (session sys) with
  | (r, s1, w1) =>
      let st := match r with
                | Normal app_runner_request => awaiting_app_runner app_runner_request
                | _ => finished
                end in
      {| session := set_event_response_task (Some new_task) s1;
         tasks := tasks sys ++ [{| app_runner_answer := answer;
                                   response_iterator := items;
                                   at_stage := st;
                                   cancel_requested := false |}];
         trace := trace sys ++ w1 ++ [create_task new_task] |}
  end.

(** [disconnect] calls [cancel()] on the task the session holds. *)
Definition cancel_held (s : self) (ts : list run_task) : list run_task :=
  match _event_response_task s with
  | Some t => alter request_cancel t ts
  | None => ts
  end.

(** An exception that leaves a handler ends its task. *)
Definition step (i : nat) (sys : system) : system :=
  match tasks sys !! i with
  | Some t =>
      match resume t (session sys) with
      | (r, s1, w1) =>
          let st := match r with Normal st => st | _ => finished end in
          {| session := s1;
             tasks := <[i := move t st]> (tasks sys);
             trace := trace sys ++ w1 |}
      end
  | None => sys
  end.

Definition handle_event (ev : event) (sys : system) : system :=
  match ev with
  | Receive json_data uuid answer items => receive json_data uuid answer items sys
  | Step i => step i sys
  | Disconnect close_code =>
      match disconnect close_code (session sys) with
      | (_, s1, w1) =>
          {| session := s1;
             tasks := cancel_held (session sys) (tasks sys);
             trace := trace sys ++ w1 |}
      end
  end.

Definition exec (events : list event) (sys : system) : system :=
  fold_left (fun sys ev => handle_event ev sys) events sys.

(** What is left of a run once its iterator exists: the loop, the
    [except] and the [stop()] of line 460. *)
Definition rest_of_run (client_request_id : json) (items : list item) : M self unit :=
  try_except (dispatch client_request_id items)
    (fun e => perform (logger_exception ("Failed to run app: " ++ str e))) ;;
  stop_app_runner.

(** The system once task [i] has run to its end with the result [r]. *)
Definition ended (r : outcome unit * self * list effect) (i : nat) (t : run_task)
    (sys : system) : system :=
  {| session := state_of r;
     tasks := <[i := move t finished]> (tasks sys);
     trace := trace sys ++ effects_of r |}.

End PlaygroundConsumer.

(** ** [TwilioVoiceConsumer] *)

Module TwilioVoiceConsumer.

(** [base64] and [audioop], as the handlers call them: each gives its
    result or raises. *)
Class Audio : Type := {
  b64decode : json -> exn + bytes;
  b64encode : bytes -> string;
  ulaw2lin : bytes -> Z -> exn + bytes;
  ratecv_state : Type;
  ratecv : bytes -> Z -> Z -> Z -> Z -> option ratecv_state -> exn + (bytes * ratecv_state);
}.

(** [get_asset_by_objref(objref, user, session)] *)
Class Resolver : Type := {
  get_asset_by_objref : json -> string -> exn + option Asset;
}.

Section Consumer.
Context {storage : Type} {streams : AssetStream storage} {audio : Audio} {resolver : Resolver}.

(** The attributes of the consumer.  [connect] assigns
    [_input_audio_stream = None]; [_stream_sid] is assigned by the
    [start] event ([None] below is an attribute that is not there).  An
    [_input_audio_stream] that is attached holds the stream made from
    what the resolution gave. *)
Record self : Type := {
  _session_id : string;
  _stream_sid : option json;
  _input_audio_stream : option (option Asset);
  _output_audio_task : option task_id;
  _app_runner : option handle;
  _connected : bool;
  assets : storage;
}.

Definition set_stream_sid (v : option json) (s : self) : self :=
  {| _session_id := _session_id s; _stream_sid := v;
     _input_audio_stream := _input_audio_stream s;
     _output_audio_task := _output_audio_task s;
     _app_runner := _app_runner s; _connected := _connected s; assets := assets s |}.

Definition set_input_audio_stream (v : option (option Asset)) (s : self) : self :=
  {| _session_id := _session_id s; _stream_sid := _stream_sid s;
     _input_audio_stream := v;
     _output_audio_task := _output_audio_task s;
     _app_runner := _app_runner s; _connected := _connected s; assets := assets s |}.

Definition set_output_audio_task (v : option task_id) (s : self) : self :=
  {| _session_id := _session_id s; _stream_sid := _stream_sid s;
     _input_audio_stream := _input_audio_stream s;
     _output_audio_task := v;
     _app_runner := _app_runner s; _connected := _connected s; assets := assets s |}.

Definition set_app_runner (v : option handle) (s : self) : self :=
  {| _session_id := _session_id s; _stream_sid := _stream_sid s;
     _input_audio_stream := _input_audio_stream s;
     _output_audio_task := _output_audio_task s;
     _app_runner := v; _connected := _connected s; assets := assets s |}.

Definition set_assets (v : storage) (s : self) : self :=
  {| _session_id := _session_id s; _stream_sid := _stream_sid s;
     _input_audio_stream := _input_audio_stream s;
     _output_audio_task := _output_audio_task s;
     _app_runner := _app_runner s; _connected := _connected s; assets := v |}.

Definition set_connected (v : bool) (s : self) : self :=
  {| _session_id := _session_id s; _stream_sid := _stream_sid s;
     _input_audio_stream := _input_audio_stream s;
     _output_audio_task := _output_audio_task s;
     _app_runner := _app_runner s; _connected := v; assets := assets s |}.

(** [async def disconnect(self, close_code)] *)
Definition disconnect (close_code : Z) : M self unit :=
  def (
    modify (set_connected false) ;;
    s <- get ;;
    match _app_runner s with
    | Some h => perform (runner_stop h)
    | None => ret tt
    end ;;
    perform (close (Some close_code))).

(** The result of a library call, or its exception. *)
Definition call {A} (r : exn + A) : M self A :=
  match r with
  | inl e => raise e
  | inr a => ret a
  end.

(** [value[1:]]; the [TypeError] names the type of a value that cannot
    be subscripted, and a dict refuses a slice as a key (an unhashable
    type before Python 3.12). *)
Definition slice1 (value : json) : M self json :=
  match value with
  | JStr s => ret (JStr (match s with String _ rest => rest | EmptyString => EmptyString end))
  | JArr xs => ret (JArr (tail xs))
  | JObj _ => raise (Exception "TypeError" "unhashable type: 'slice'")
  | _ => raise (Exception "TypeError"
                  ("'" ++ type_name value ++ "' object is not subscriptable"))
  end.

(** The body of the loop of the [start] event for one response (lines
    562-578); [new_task] is the task [run_coro_in_new_loop] returns. *)
Definition on_response (response : AppRunnerResponse) (new_task : task_id) : M self unit :=
  match type response with
  | OUTPUT_STREAM_CHUNK =>
      let deltas := data_deltas response in
      if contains "agent_input_audio_stream" deltas then
        input_audio_stream_objref <-
          slice1 (default JNull (lookup_item "agent_input_audio_stream" deltas)) ;;
        s <- get ;;
        input_audio_stream <-
          call (get_asset_by_objref input_audio_stream_objref (_session_id s)) ;;
        modify (set_input_audio_stream (Some input_audio_stream))
      else if contains "agent_output_audio_stream__0" deltas then
        _ <- slice1 (default JNull (lookup_item "agent_output_audio_stream__0" deltas)) ;;
        perform (create_task new_task) ;;
        modify (set_output_audio_task (Some new_task))
      else if contains "agent_input_audio_stream_started_at" deltas then
        s <- get ;;
        perform (send (text_data (json_dumps (JObj [
          ("event", JStr "clear");
          ("streamSid", default JNull (_stream_sid s))]))))
      else ret tt
  | _ => ret tt
  end.

Fixpoint iterate (items : list item) (new_task : task_id) : M self unit :=
  match items with
  | [] => ret tt
  | raises e :: _ => raise e
  | yields response :: rest =>
      s <- get ;;
      if negb (_connected s) then ret tt
      else on_response response new_task ;; iterate rest (S new_task)
  end.

(** The loop of [_process_output_audio_stream] (lines 613-623). *)
Fixpoint relay (items : list read_item) : M self unit :=
  match items with
  | [] => ret tt
  | read_raises e :: _ => raise e
  | next_chunk chunk :: rest =>
      match chunk with
      | [] => ret tt
      | _ :: _ =>
          s <- get ;;
          perform (send (text_data (json_dumps (JObj [
            ("event", JStr "media");
            ("streamSid", default JNull (_stream_sid s));
            ("media", JObj [("payload", JStr (b64encode chunk))])])))) ;;
          relay rest
      end
  end.

(** [async def _process_output_audio_stream(self, audio_stream)] *)
Definition _process_output_audio_stream (audio_stream : json) : M self unit :=
  def (
    s <- get ;;
    output_audio_asset <- call (get_asset_by_objref audio_stream (_session_id s)) ;;
    relay (read_async output_audio_asset 0 (assets s))).

(** [pcm_upsampled] of lines 589-595 for an encoded chunk: the payload
    decoded from base64, converted from u-law to 16-bit linear PCM and
    resampled from 8000 Hz to 24000 Hz; or the exception of the first of
    the three calls that raises. *)
Definition upsampled (encoded_audio_chunk : json) : exn + bytes :=
  match b64decode encoded_audio_chunk with
  | inl e => inl e
  | inr ulaw_data =>
      match ulaw2lin ulaw_data 2 with
      | inl e => inl e
      | inr pcm_data =>
          match ratecv pcm_data 2 1 8000 24000 None with
          | inl e => inl e
          | inr resampled => inr (fst resampled)
          end
      end
  end.

(** The [media] event (lines 583-601). *)
Definition media (json_data : json) : M self unit :=
  media_value <- py_get json_data "media" (JObj []) ;;
  encoded_audio_chunk <- py_get media_value "payload" (JStr "") ;;
  s <- get ;;
  match negb (truthy encoded_audio_chunk), _input_audio_stream s with
  | true, _ => return_
  | false, None => return_
  | false, Some input_audio_stream =>
      try_except
        (ulaw_data <- call (b64decode encoded_audio_chunk) ;;
         pcm_data <- call (ulaw2lin ulaw_data 2) ;;
         resampled <- call (ratecv pcm_data 2 1 8000 24000 None) ;;
         let pcm_upsampled := fst resampled in
         s <- get ;;
         store <- call (append_chunk input_audio_stream pcm_upsampled (assets s)) ;;
         modify (set_assets store))
        (fun e => perform (logger_exception ("Error converting audio format: " ++ str e)))
  end.

(** [async def _respond_to_event(self, text_data)], from
    [json_data = json.loads(text_data)] on; [items] is what the run's
    iterator gives in the [start] event. *)
Definition _respond_to_event (json_data : json) (items : list item)
    (new_task : task_id) : M self unit :=
  def (
    event <- py_get json_data "event" JNull ;;
    if eq_str event "start" then
      start <- py_get json_data "start" (JObj []) ;;
      stream_sid <- py_get start "streamSid" (JStr "") ;;
      modify (set_stream_sid (Some stream_sid)) ;;
      s <- get ;;
      match _app_runner s with
      | Some h =>
          perform (runner_run h {| client_request_id := stream_sid;
                                   session_id := _session_id s;
                                   input := JObj [] |})
      | None => raise (AttributeError "'NoneType' object has no attribute 'run'")
      end ;;
      iterate items new_task
    else if eq_str event "stop" then
      s <- get ;;
      match _app_runner s with
      | Some h => perform (runner_stop h)
      | None => raise (AttributeError "'NoneType' object has no attribute 'stop'")
      end ;;
      modify (set_app_runner None)
    else if eq_str event "media" then media json_data
    else if eq_str event "mark" then
      perform (logger_info "Received mark event from twilio")
    else ret tt).

End Consumer.
Arguments self : clear implicits.

End TwilioVoiceConsumer.

(** ** Sample collaborators and sessions *)

Module Samples.

(** A file store that always creates the asset [objref://sessionfiles/1]. *)
Definition files : AppConsumer.AppSessionFiles :=
  {| AppConsumer.create_asset := fun _ _ _ => inr (Some {| objref := "objref://sessionfiles/1" |});
     AppConsumer.uuid4 := "0f8fad5b-d9cb-469f-a165-70867728950e" |}.

(** A web session after [connect]: accepted, with runner 1. *)
Definition web_session : AppConsumer.self :=
  {| AppConsumer._app_uuid := "app";
     AppConsumer._session_id := "session";
     AppConsumer._user := None;
     AppConsumer._app_runner := Some 1;
     AppConsumer._event_response_task := None;
     AppConsumer._connected := true;
     AppConsumer.app_id := None;
     AppConsumer._session := None |}.

(** An asset stream whose every operation raises. *)
Definition broken_stream : AssetStream unit :=
  {| read_async := fun _ _ _ => [next_chunk (b "x"); read_raises (Exception "OSError" "read failed")];
     append_chunk := fun _ _ _ => inl (Exception "OSError" "append failed");
     finalize := fun _ _ => inl (Exception "OSError" "finalize failed") |}.

(** An asset stream whose read is interrupted after one chunk. *)
Definition interrupted_stream : AssetStream unit :=
  {| read_async := fun _ _ _ =>
       [next_chunk (b "x"); read_raises (Exception "KeyboardInterrupt" "")];
     append_chunk := fun _ _ _ => inl CancelledError;
     finalize := fun _ _ => inl CancelledError |}.

Definition the_asset : Asset := {| objref := "objref://sessionfiles/1" |}.

(** A playground session after [connect]. *)
Definition playground : PlaygroundConsumer.system :=
  {| PlaygroundConsumer.session :=
       {| PlaygroundConsumer._event_response_task := None;
          PlaygroundConsumer._app_runner := None;
          PlaygroundConsumer._connected := true |};
     PlaygroundConsumer.tasks := [];
     PlaygroundConsumer.trace := [] |}.

(** An activation session after [connect], for a user that is not
    anonymous. *)
Definition activation_session : ConnectionConsumer.self :=
  {| ConnectionConsumer.user_is_anonymous := false;
     ConnectionConsumer._activation_task := None;
     ConnectionConsumer.connection_activation_actor := true |}.

(** Audio functions that pass the bytes through: enough to run the
    [media] event. *)
Definition audio : TwilioVoiceConsumer.Audio :=
  {| TwilioVoiceConsumer.b64decode := fun v =>
       match v with
       | JStr s => inr (b s)
       | _ => inl (Exception "TypeError" "argument should be a bytes-like object or ASCII string")
       end;
     TwilioVoiceConsumer.b64encode := fun _ => "";
     TwilioVoiceConsumer.ulaw2lin := fun data _ => inr data;
     TwilioVoiceConsumer.ratecv_state := unit;
     TwilioVoiceConsumer.ratecv := fun data _ _ _ _ _ => inr (data, tt) |}.

Definition resolver : TwilioVoiceConsumer.Resolver :=
  {| TwilioVoiceConsumer.get_asset_by_objref := fun _ _ => inr (Some the_asset) |}.

(** A telephony session the input audio stream of [the_asset] is
    attached to. *)
Definition call_session : TwilioVoiceConsumer.self (gmap string stream_state) :=
  {| TwilioVoiceConsumer._session_id := "session";
     TwilioVoiceConsumer._stream_sid := Some (JStr "MZ1");
     TwilioVoiceConsumer._input_audio_stream := Some (Some the_asset);
     TwilioVoiceConsumer._output_audio_task := None;
     TwilioVoiceConsumer._app_runner := Some 1;
     TwilioVoiceConsumer._connected := true;
     TwilioVoiceConsumer.assets := ∅ |}.

(** [{"event": "start", "start": {"streamSid": "MZ1"}}], a chunk whose
    deltas announce the output audio stream of the run, and the telephony
    session when that stream holds the chunk [b"ab"]. *)
Definition start_frame : json :=
  JObj [("event", JStr "start"); ("start", JObj [("streamSid", JStr "MZ1")])].
Definition output_stream_chunk : AppRunnerResponse :=
  stream_chunk [("agent_output_audio_stream__0", JStr "+objref://sessionfiles/1")].
Definition call_with_audio : TwilioVoiceConsumer.self (gmap string stream_state) :=
  {| TwilioVoiceConsumer._session_id := "session";
     TwilioVoiceConsumer._stream_sid := None;
     TwilioVoiceConsumer._input_audio_stream := None;
     TwilioVoiceConsumer._output_audio_task := None;
     TwilioVoiceConsumer._app_runner := Some 1;
     TwilioVoiceConsumer._connected := true;
     TwilioVoiceConsumer.assets :=
       <[objref the_asset := {| chunks := [b "ab"]; finalized := false |}]> ∅ |}.

(** [{"event": "media", "media": {"payload": "/v8="}}] *)
Definition media_frame : json :=
  JObj [("event", JStr "media"); ("media", JObj [("payload", JStr "/v8=")])].

(** [{"event": "run", "id": "r1", "input": {"q": "hi"}}] and the responses
    of scenario 1. *)
Definition run_r1 : json :=
  JObj [("event", JStr "run"); ("id", JStr "r1"); ("input", JObj [("q", JStr "hi")])].
Definition chunk_h : AppRunnerResponse := stream_chunk [("a", JStr "h")].
Definition chunk_hi : AppRunnerResponse := stream_chunk [("a", JStr "hi")].

(** [{"event": "run", "id": "r2"}] and the error of scenario 2. *)
Definition run_r2 : json := JObj [("event", JStr "run"); ("id", JStr "r2")].
Definition boom : AppRunnerResponse := errors_response [{| message := "boom" |}].

(** [{"event": "create_asset", "id": "a1", "data": {"file_name": "notes.txt"}}] *)
Definition create_asset_a1 : json :=
  JObj [("event", JStr "create_asset"); ("id", JStr "a1");
        ("data", JObj [("file_name", JStr "notes.txt")])].

(** The binary frames of scenario 3. *)
Definition write_AAAA : bytes := (b "write" ++ LF :: b "AAAA")%list.
Definition write_BB : bytes := (b "write" ++ LF :: b "BB")%list.
Definition write_end : bytes := (b "write" ++ [LF])%list.

(** A connection on the fresh asset [the_asset], over the modelled
    storage. *)
Definition asset_connection : AssetStreamConsumer.self (gmap string stream_state) :=
  {| AssetStreamConsumer._asset := Some the_asset;
     AssetStreamConsumer.assets := ∅ |}.

(** A connection whose asset did not resolve, and one on a storage that
    fails. *)
Definition unresolved_connection : AssetStreamConsumer.self (gmap string stream_state) :=
  {| AssetStreamConsumer._asset := None;
     AssetStreamConsumer.assets := ∅ |}.
Definition broken_connection : AssetStreamConsumer.self unit :=
  {| AssetStreamConsumer._asset := Some the_asset;
     AssetStreamConsumer.assets := tt |}.

(** [{"event": "activate"}] and [{"event": "input", "input": "terminate"}] *)
Definition activate_frame : json := JObj [("event", JStr "activate")].
Definition terminate_frame : json :=
  JObj [("event", JStr "input"); ("input", JStr "terminate")].

(** Two playground runs, [a] and [b]. *)
Definition run_a : json :=
  JObj [("event", JStr "run"); ("id", JStr "a"); ("input", JObj [])].
Definition run_b : json :=
  JObj [("event", JStr "run"); ("id", JStr "b"); ("input", JObj [])].

End Samples.

(** ** Python strings and the request metadata *)

Module Str.

(** A Python [str]: its code points. *)
Definition str : Type := list N.

(** The code points of a literal of ASCII characters. *)
Definition lit (s : string) : str :=
  map (fun c => Ascii.N_of_ascii c) (String.list_ascii_of_string s).

(** [c.isspace()] for one code point: the characters [str.strip()]
    removes. *)
Definition isspace (c : N) : bool :=
  ((9 <=? c) && (c <=? 13) || (28 <=? c) && (c <=? 32)
   || (c =? 133) || (c =? 160) || (c =? 5760)
   || (8192 <=? c) && (c <=? 8202)
   || (c =? 8232) || (c =? 8233) || (c =? 8239) || (c =? 8287) || (c =? 12288))%N.

(** [s.lstrip()], [s.rstrip()], [s.strip()] *)
Fixpoint lstrip (s : str) : str :=
  match s with
  | [] => []
  | c :: rest => if isspace c then lstrip rest else s
  end.

Definition rstrip (s : str) : str := rev (lstrip (rev s)).

Definition strip (s : str) : str := rstrip (lstrip s).

(** The comma, [","]. *)
Definition comma : N := 44%N.

(** [s.split(sep)] for a separator of one character; [cur] holds the
    current piece, last character first. *)
Fixpoint split_from (sep : N) (cur : str) (s : str) : list str :=
  match s with
  | [] => [rev cur]
  | c :: rest =>
      if N.eqb c sep then rev cur :: split_from sep [] rest
      else split_from sep (c :: cur) rest
  end.

Definition split (sep : N) (s : str) : list str := split_from sep [] s.

(** [pieces[0]] of a split. *)
Definition first (pieces : list str) : str :=
  match pieces with
  | [] => []
  | p :: _ => p
  end.

(** [x or y] on strings. *)
Definition or_else (x y : str) : str :=
  match x with
  | [] => y
  | _ :: _ => x
  end.

(** [value.split(",")[0].strip()] *)
Definition first_entry (value : str) : str := strip (first (split comma value)).

End Str.

Module Connect.
Import Str.

(** What [self.scope.get("client", [""])] finds: no such key, [None], or a
    pair whose host is a string or [None]. *)
Inductive client : Type :=
| no_client
| null_client
| client_of (host : option str).

(** [self.scope.get("client", [""])[0] or ""] *)
Definition client_host (c : client) : exn + str :=
  match c with
  | no_client => inr []
  | null_client => inl (Exception "TypeError" "'NoneType' object is not subscriptable")
  | client_of host => inr (default [] host)
  end.

(** The [request_ip] of [AppConsumer.connect], [PlaygroundConsumer.connect]
    and [StoreAppConsumer.connect] (lines 107-112, 387-389, 474-476), given
    what [headers.get] finds for [X-Forwarded-For] and [X-Real-IP]:
    [headers.get("X-Forwarded-For", client[0] or "").split(",")[0].strip()
     or headers.get("X-Real-IP", "")].  The default of the first [get] is
    evaluated also when the header is there. *)
Definition request_ip (forwarded_for : option str) (c : client)
    (real_ip : option str) : exn + str :=
  match client_host c with
  | inl e => inl e
  | inr host =>
      inr (or_else (first_entry (default host forwarded_for)) (default [] real_ip))
  end.

End Connect.

Module Requests.
Import Str.

(** [bytes.decode("utf-8")]: the string, or a [UnicodeDecodeError]. *)
Class Codec : Type := {
  decode : bytes -> exn + str;
}.

(** The keys of an ASGI scope that [_build_request_from_input] reads;
    [None] is a key that is not there. *)
Record Scope : Type := {
  scope_session : list (string * json);
  scope_headers : list (bytes * bytes);
  scope_path : option str;
  scope_method : option str;
  scope_query_string : option bytes;
  scope_user : option json;
}.

(** The request that is built: [META], and the attributes assigned after
    it.  [QueryDict(query_string)] is kept as the string it is made from,
    [json.dumps(post_data)] as the value it serializes. *)
Record HttpRequest : Type := {
  CONTENT_TYPE : str;
  PATH_INFO : str;
  QUERY_STRING : str;
  HTTP_USER_AGENT : str;
  REMOTE_ADDR : str;
  _prid : json;
  session : list (string * json);
  method : str;
  GET : str;
  query_params : str;
  stream : text;
  user : option json;
  data : json;
}.

(** [dict(pairs).get(key, default)]: of two pairs with the same key the
    later one is the one the dict keeps. *)
Fixpoint get_last (key : bytes) (pairs : list (bytes * bytes)) (default : bytes) : bytes :=
  match pairs with
  | [] => default
  | (k, v) :: rest =>
      get_last key rest (if bytes_eqb k key then v else default)
  end.

Section BuildRequest.
Context {codec : Codec}.

(** [def _build_request_from_input(post_data, scope)] (lines 61-94) *)
Definition _build_request_from_input (post_data : json) (scope : Scope)
    : exn + HttpRequest :=
  let session := scope_session scope in
  let headers := scope_headers scope in
  match decode (get_last (b "content-type") headers (b "application/json")) with
  | inl e => inl e
  | inr content_type =>
      let path_info := default [] (scope_path scope) in
      let method := default [] (scope_method scope) in
      match decode (default [] (scope_query_string scope)) with
      | inl e => inl e
      | inr query_string =>
          let query_params := query_string in
          let user := scope_user scope in
          match decode (get_last (b "user-agent") headers []) with
          | inl e => inl e
          | inr user_agent =>
              match decode (get_last (b "x-forwarded-for") headers []) with
              | inl e => inl e
              | inr forwarded_for =>
                  inr {| CONTENT_TYPE := content_type;
                         PATH_INFO := path_info;
                         QUERY_STRING := query_string;
                         HTTP_USER_AGENT := user_agent;
                         REMOTE_ADDR := first_entry forwarded_for;
                         _prid := match lookup_item "_prid" session with
                                  | Some v => v
                                  | None => JStr ""
                                  end;
                         session := session;
                         method := method;
                         GET := query_params;
                         query_params := query_params;
                         stream := json_dumps post_data;
                         user := user;
                         data := post_data |}
              end
          end
      end
  end.

End BuildRequest.

(** A codec for ASCII: each byte below 128 is its code point; any other
    byte is refused. *)
Fixpoint decode_ascii (data : bytes) : exn + str :=
  match data with
  | [] => inr []
  | c :: rest =>
      if (Byte.to_N c <? 128)%N then
        match decode_ascii rest with
        | inl e => inl e
        | inr s => inr (Byte.to_N c :: s)
        end
      else inl (Exception "UnicodeDecodeError" "invalid start byte")
  end.

Definition ascii_codec : Codec := {| decode := decode_ascii |}.

(** A scope whose headers repeat [x-forwarded-for]. *)
Definition forwarded_twice : Scope :=
  {| scope_session := [];
     scope_headers := [(b "x-forwarded-for", b "192.0.2.1");
                       (b "user-agent", b "curl");
                       (b "x-forwarded-for", b " 203.0.113.7 , 10.0.0.1")];
     scope_path := None; scope_method := None;
     scope_query_string := None; scope_user := None |}.

End Requests.

(** ** The rest of [ConnectionConsumer]: [connect] *)

Module ConnectionLifecycle.

(** [async def connect(self)] (lines 300-313), for a user that is or is not
    anonymous: the attributes it leaves, its effects, and whether
    [accept()] was called.  For an anonymous user the connection is closed
    and no actor is started. *)
Definition connect (is_anonymous : bool)
    : ConnectionConsumer.self * list effect * bool :=
  if is_anonymous then
    ({| ConnectionConsumer.user_is_anonymous := true;
        ConnectionConsumer._activation_task := None;
        ConnectionConsumer.connection_activation_actor := false |},
     [close None], false)
  else
    ({| ConnectionConsumer.user_is_anonymous := false;
        ConnectionConsumer._activation_task := None;
        ConnectionConsumer.connection_activation_actor := true |},
     [], true).

(** The calls on the actor among some effects. *)
Fixpoint actor_calls (w : list effect) : list effect :=
  match w with
  | [] => []
  | actor_activate :: rest => actor_activate :: actor_calls rest
  | actor_input d :: rest => actor_input d :: actor_calls rest
  | actor_set_connection c :: rest => actor_set_connection c :: actor_calls rest
  | actor_stop :: rest => actor_stop :: actor_calls rest
  | _ :: rest => actor_calls rest
  end.

(** The frame of an activation output, [{"event": "output", "output": data}]. *)
Definition output_frame (data : json) : frame :=
  text_data (json_dumps (JObj [("event", JStr "output"); ("output", data)])).

(** A session without an actor whose task, if any, never got past the
    call of [activate()]. *)
Definition no_actor (s : ConnectionConsumer.self) : Prop :=
  ConnectionConsumer.connection_activation_actor s = false /\
  (forall t, ConnectionConsumer._activation_task s <>
             Some {| ConnectionConsumer.task := t;
                     ConnectionConsumer.state := ConnectionConsumer.pending |}).

(** A task that is not there, done or cancelled takes no step. *)
Definition quiet (s : ConnectionConsumer.self) : Prop :=
  forall t,
    ConnectionConsumer._activation_task s <>
      Some {| ConnectionConsumer.task := t;
              ConnectionConsumer.state := ConnectionConsumer.created |} /\
    ConnectionConsumer._activation_task s <>
      Some {| ConnectionConsumer.task := t;
              ConnectionConsumer.state := ConnectionConsumer.pending |}.

End ConnectionLifecycle.

(** ** The frames of the two run loops *)

Module RunFrames.

(** What [AppConsumer] sends for one response: a chunk as it is, the error
    frame, the done frame; nothing for a complete [OUTPUT] or another
    variant. *)
Definition web (request_id : json) (response : AppRunnerResponse) : list frame :=
  match response with
  | stream_chunk _ => [Frames.pass_through response]
  | errors_response errors => [Frames.error (map message errors) request_id]
  | stream_end => [Frames.done request_id]
  | output _ => []
  | other_response => []
  end.

(** What [PlaygroundConsumer] sends for one response: a chunk as it is,
    the done frame with the chunks of a complete [OUTPUT]; nothing for
    [ERRORS], [OUTPUT_STREAM_END] or another variant. *)
Definition playground (request_id : json) (response : AppRunnerResponse) : list frame :=
  match response with
  | stream_chunk _ => [Frames.pass_through response]
  | output chunks =>
      [text_data (json_dumps_cls (JObj [
         ("event", JStr "done"); ("request_id", request_id); ("data", chunks)]))]
  | errors_response _ => []
  | stream_end => []
  | other_response => []
  end.


(** The media frame of the telephony relay for one chunk. *)
Definition media {audio : TwilioVoiceConsumer.Audio} (stream_sid : json) (chunk : bytes)
    : frame :=
  text_data (json_dumps (JObj [
    ("event", JStr "media");
    ("streamSid", stream_sid);
    ("media", JObj [("payload", JStr (TwilioVoiceConsumer.b64encode chunk))])])).

End RunFrames.

(** * Properties *)

Open Scope list_scope.

(** Unfolds the monad's operations, leaving loops and collaborators as
    they are. *)
Ltac mcbv :=
  cbv [bind get ret perform raise modify return_ try_except try_finally def
       not_awaited py_get effects_of state_of outcome_of negb orb andb].

Module MonadFacts.

Lemma sent_app (w1 w2 : list effect) : sent (w1 ++ w2) = sent w1 ++ sent w2.
Proof.
  induction w1 as [|e w1 IH]; simpl; [reflexivity|].
  destruct e; simpl; rewrite ?IH; reflexivity.
Qed.

Lemma stopped_app (w1 w2 : list effect) : stopped (w1 ++ w2) = stopped w1 ++ stopped w2.
Proof.
  induction w1 as [|e w1 IH]; simpl; [reflexivity|].
  destruct e; simpl; rewrite ?IH; reflexivity.
Qed.

Lemma event_is_dict json_data name :
  event_is json_data name = true ->
  (exists items, json_data = JObj items) /\
  eq_str (field json_data "event" JNull) name = true.
Proof. destruct json_data; simpl; try discriminate. intros H; split; eauto. Qed.

Lemma is_exception_AttributeError msg : is_exception (AttributeError msg) = true.
Proof. reflexivity. Qed.

Lemma eq_str_true v name : eq_str v name = true -> v = JStr name.
Proof.
  destruct v; simpl; try discriminate. intros H. apply String.eqb_eq in H. congruence.
Qed.

End MonadFacts.

(** ** The dispatch loop of [AppConsumer] *)

Module AppConsumerFacts.
Import AppConsumer MonadFacts.

Lemma app_disconnect_eq close_code s :
  disconnect close_code s =
    (Normal tt, set_connected false s,
     match _app_runner s with Some h => [runner_stop h] | None => [] end).
Proof.
  unfold disconnect. mcbv. simpl. destruct (_app_runner s); reflexivity.
Qed.

(** Forwarding a response changes no attribute and raises nothing. *)
Lemma app_forward_eq rid response s :
  forward rid response s = (Normal tt, s, effects_of (forward rid response s)).
Proof. unfold forward. destruct (type response); reflexivity. Qed.

(** Once the flag is false the loop sends nothing, whatever is left of
    the iterator, and the flag stays false. *)
Lemma dispatch_not_connected rid ticks : forall s,
  _connected s = false ->
  sent (effects_of (dispatch rid ticks s)) = [] /\
  _connected (state_of (dispatch rid ticks s)) = false.
Proof.
  induction ticks as [|t ticks IH]; intros s Hs; simpl.
  - split; [reflexivity | exact Hs].
  - destruct t as [[response|e]|close_code|].
    + unfold bind, get. rewrite Hs. simpl. split; [reflexivity | exact Hs].
    + split; [reflexivity | exact Hs].
    + unfold bind. rewrite app_disconnect_eq.
      destruct (IH (set_connected false s) eq_refl) as [H1 H2].
      destruct (dispatch rid ticks (set_connected false s)) as [[o s2] w2]; simpl in *.
      unfold effects_of, state_of in *; simpl in *.
      rewrite sent_app, H1. destruct (_app_runner s); split; auto.
    + split; [reflexivity | exact Hs].
Qed.

(** What follows a [disconnect] adds no frame to a run. *)
Lemma dispatch_cut rid before : forall s close_code after,
  sent (effects_of (dispatch rid (before ++ disconnected close_code :: after) s)) =
  sent (effects_of (dispatch rid before s)).
Proof.
  induction before as [|t before IH]; intros s close_code after; simpl.
  - unfold bind. rewrite app_disconnect_eq.
    destruct (dispatch_not_connected rid after (set_connected false s) eq_refl) as [H1 _].
    destruct (dispatch rid after (set_connected false s)) as [[o s2] w2].
    unfold effects_of in *; simpl in *. rewrite sent_app, H1.
    destruct (_app_runner s); reflexivity.
  - destruct t as [[response|e]|code|].
    + unfold bind at 1 3. unfold get.
      destruct (negb (_connected s)); [reflexivity|].
      unfold bind. rewrite app_forward_eq.
      specialize (IH s close_code after).
      destruct (dispatch rid (before ++ disconnected close_code :: after) s) as [[o1 s1] w1].
      destruct (dispatch rid before s) as [[o2 s2] w2].
      unfold effects_of in *; simpl in *. rewrite !sent_app, IH. reflexivity.
    + reflexivity.
    + unfold bind. rewrite app_disconnect_eq.
      specialize (IH (set_connected false s) close_code after).
      destruct (dispatch rid (before ++ disconnected close_code :: after)
                  (set_connected false s)) as [[o1 s1] w1].
      destruct (dispatch rid before (set_connected false s)) as [[o2 s2] w2].
      unfold effects_of in *; simpl in *. rewrite !sent_app, IH. reflexivity.
    + reflexivity.
Qed.

(** On a live session a sequence of responses is dispatched to its end,
    one response after the other. *)
Lemma dispatch_live rid rs : forall s,
  _connected s = true ->
  dispatch rid (map live rs) s =
    (Normal tt, s, flat_map (fun r => effects_of (forward rid r s)) rs).
Proof.
  induction rs as [|r rs IH]; intros s Hs; simpl; [reflexivity|].
  unfold bind at 1. unfold get. rewrite Hs. simpl.
  unfold bind. rewrite app_forward_eq, (IH s Hs). reflexivity.
Qed.

(** An exception, of the iterator or of a cancellation, ends the loop
    after the frames of the responses before it. *)
Lemma dispatch_live_raises rid rs e rest : forall s,
  _connected s = true ->
  dispatch rid (map live rs ++ anext (raises e) :: rest) s =
    (Raised e, s, flat_map (fun r => effects_of (forward rid r s)) rs).
Proof.
  induction rs as [|r rs IH]; intros s Hs; simpl; [reflexivity|].
  unfold bind at 1. unfold get. rewrite Hs. simpl.
  unfold bind. rewrite app_forward_eq, (IH s Hs). reflexivity.
Qed.

Lemma dispatch_live_cancelled rid rs rest : forall s,
  _connected s = true ->
  dispatch rid (map live rs ++ cancelled :: rest) s =
    (Raised CancelledError, s, flat_map (fun r => effects_of (forward rid r s)) rs).
Proof.
  induction rs as [|r rs IH]; intros s Hs; simpl; [reflexivity|].
  unfold bind at 1. unfold get. rewrite Hs. simpl.
  unfold bind. rewrite app_forward_eq, (IH s Hs). reflexivity.
Qed.

Lemma sent_failed_to_run o : sent (failed_to_run o) = [].
Proof. destruct o as [a|e|]; simpl; try destruct (is_exception e); reflexivity. Qed.

End AppConsumerFacts.

(** ** The handler of [AppConsumer] *)

Module AppConsumerHandler.
Import AppConsumer MonadFacts AppConsumerFacts.

Section Handler.
Context {files : AppSessionFiles}.

(** What the handler does on a [run] event. *)
Lemma respond_run json_data ticks s :
  event_is json_data "run" = true ->
  _respond_to_event json_data ticks s =
    match _app_runner s with
    | Some h =>
        let r := dispatch (field json_data "id" JNull) ticks s in
        (after_run (outcome_of r), state_of r,
         runner_run h (run_request json_data s)
           :: effects_of r ++ failed_to_run (outcome_of r))
    | None =>
        (Normal tt, s,
         [logger_exception
            ("Failed to run app: " ++ "'NoneType' object has no attribute 'run'")])
    end.
Proof.
  intros Hev. apply event_is_dict in Hev as [[items ->] Hev].
  apply eq_str_true in Hev.
  unfold _respond_to_event, run_request, run.
  mcbv. rewrite Hev.
  change (eq_str (JStr "run") "run") with true.
  change (eq_str (JStr "run") "delete_asset") with false.
  change (eq_str (JStr "run") "stop") with false.
  cbv iota beta.
  destruct (_app_runner s) as [h|]; [|reflexivity].
  destruct (dispatch (field (JObj items) "id" JNull) ticks s) as [[o s1] w].
  destruct o as [[]|e|]; simpl; try destruct (is_exception e); simpl;
    rewrite ?app_nil_r; reflexivity.
Qed.

(** Only a [run] event looks at the iterator. *)
Lemma respond_not_run json_data ticks s :
  event_is json_data "run" = false ->
  _respond_to_event json_data ticks s = _respond_to_event json_data [] s.
Proof.
  intros Hev. unfold _respond_to_event.
  destruct json_data; try reflexivity.
  unfold event_is in Hev. mcbv. rewrite Hev. reflexivity.
Qed.

Lemma respond_cut json_data before close_code after s :
  sent (effects_of
          (_respond_to_event json_data (before ++ disconnected close_code :: after) s)) =
  sent (effects_of (_respond_to_event json_data before s)).
Proof.
  destruct (event_is json_data "run") eqn:Hev.
  - rewrite !respond_run by exact Hev.
    destruct (_app_runner s) as [h|]; [|reflexivity].
    cbn [effects_of snd sent]. rewrite !sent_app, !sent_failed_to_run, !app_nil_r.
    apply dispatch_cut.
  - rewrite (respond_not_run json_data (before ++ _)), (respond_not_run json_data before)
      by exact Hev.
    reflexivity.
Qed.

(** On a live session with a runner, the handler of a [run] event
    forwards the responses in order. *)
Lemma respond_run_live json_data rs s h :
  event_is json_data "run" = true ->
  _connected s = true -> _app_runner s = Some h ->
  _respond_to_event json_data (map live rs) s =
    (Normal tt, s,
     runner_run h (run_request json_data s)
       :: flat_map (fun r => effects_of (forward (field json_data "id" JNull) r s)) rs).
Proof.
  intros Hev Hc Hr. rewrite respond_run by exact Hev. rewrite Hr.
  rewrite dispatch_live by exact Hc. simpl. rewrite app_nil_r. reflexivity.
Qed.

(** The frame the loop sends for a terminal response. *)
Lemma forward_terminal rid response frame s :
  Frames.terminal rid response = Some frame ->
  effects_of (forward rid response s) = [send frame].
Proof.
  destruct response; simpl; try discriminate; intros [= <-];
    unfold Frames.error; rewrite ?map_map; reflexivity.
Qed.

(** A [create_asset] body that raises has sent nothing and changed
    nothing. *)
Lemma create_asset_body_raised json_data rid s e :
  outcome_of (create_asset_body json_data rid s) = Raised e ->
  create_asset_body json_data rid s = (Raised e, s, []).
Proof.
  unfold create_asset_body, get_app_id, get_username.
  destruct json_data; mcbv; try (intros [= <-]; reflexivity).
  destruct (field (JObj items) "data" (JObj [])); mcbv; try (intros [= <-]; reflexivity).
  destruct (app_id s); mcbv; try (intros [= <-]; reflexivity).
  destruct (_user s) as [u|]; mcbv;
    [destruct (is_anonymous u); mcbv|];
    try (destruct (_session s) as [[]|]; mcbv);
    try (intros [= <-]; reflexivity);
    match goal with
    | |- context [create_asset ?m ?i ?g] =>
        destruct (create_asset m i g) as [e'|[a|]]; simpl;
        try (intros [= <-]; reflexivity); discriminate
    end.
Qed.

Lemma respond_create_asset_raised json_data ticks s e :
  event_is json_data "create_asset" = true ->
  outcome_of (create_asset_body json_data (field json_data "id" JNull) s) = Raised e ->
  _respond_to_event json_data ticks s =
    if is_exception e then
      (Normal tt, s,
       [logger_exception (str e);
        send (Frames.asset_failed (str e) (field json_data "id" JNull))])
    else (Raised e, s, []).
Proof.
  intros Hev Hr. apply create_asset_body_raised in Hr.
  apply event_is_dict in Hev as [[items ->] Hev]. apply eq_str_true in Hev.
  unfold _respond_to_event. mcbv. rewrite Hev.
  change (eq_str (JStr "create_asset") "run") with false.
  change (eq_str (JStr "create_asset") "create_asset") with true.
  change (eq_str (JStr "create_asset") "delete_asset") with false.
  change (eq_str (JStr "create_asset") "stop") with false.
  mcbv. rewrite Hr. destruct (is_exception e); reflexivity.
Qed.

End Handler.
End AppConsumerHandler.

(** ** Claims on [AppConsumer]: terminal responses, scenario 1, failures *)

Module AppConsumerClaims.
Import AppConsumer MonadFacts AppConsumerFacts AppConsumerHandler.

(** C2, as stated, fails: the loop has no [break] after a terminal
    response.  When the iterator gives [ERRORS] and then
    [OUTPUT_STREAM_END] for run [r2], the session sends the error frame
    and then the done frame, both with [request_id] [r2]; had the
    dispatcher stopped at the terminal response, the frames would be those
    of the run that ends with it. *)
Lemma frame_forwarded_after_terminal :
  sent (effects_of (_respond_to_event (files := Samples.files) Samples.run_r2
                      [live Samples.boom; live stream_end] Samples.web_session)) =
    [Frames.error ["boom"] (JStr "r2"); Frames.done (JStr "r2")] /\
  sent (effects_of (_respond_to_event (files := Samples.files) Samples.run_r2
                      [live Samples.boom; live stream_end] Samples.web_session)) <>
  sent (effects_of (_respond_to_event (files := Samples.files) Samples.run_r2
                      [live Samples.boom] Samples.web_session)).
Proof. split; [reflexivity | discriminate]. Qed.

(** C2 (amended): for every [run] event on a live session with a runner,
    when the engine's response sequence ends with a terminal response
    ([ERRORS] or [OUTPUT_STREAM_END]), the dispatcher forwards that
    response's frame (the error frame or the done frame, with the event's
    id as [request_id]) after the frames of the responses before it, and
    forwards nothing after it.  The dispatcher does not stop at a
    terminal response by itself. *)
Theorem terminal_frame_is_last_when_sequence_ends
    {files : AppSessionFiles} json_data responses terminal frame s h :
  event_is json_data "run" = true ->
  _connected s = true ->
  _app_runner s = Some h ->
  Frames.terminal (field json_data "id" JNull) terminal = Some frame ->
  sent (effects_of (_respond_to_event json_data (map live (responses ++ [terminal])) s)) =
  sent (effects_of (_respond_to_event json_data (map live responses) s)) ++ [frame].
Proof.
  intros Hev Hc Hr Hf.
  rewrite !(respond_run_live json_data _ s h) by assumption.
  cbn [effects_of snd sent]. rewrite flat_map_app, sent_app. simpl flat_map.
  rewrite (forward_terminal _ _ _ s Hf). reflexivity.
Qed.

Lemma terminal_frame_is_last_witness :
  sent (effects_of (_respond_to_event (files := Samples.files) Samples.run_r2
                      (map live ([Samples.chunk_h] ++ [Samples.boom])) Samples.web_session)) =
  sent (effects_of (_respond_to_event (files := Samples.files) Samples.run_r2
                      (map live [Samples.chunk_h]) Samples.web_session))
    ++ [Frames.error ["boom"] (JStr "r2")].
Proof.
  apply (terminal_frame_is_last_when_sequence_ends (files := Samples.files)
           Samples.run_r2 [Samples.chunk_h] Samples.boom
           (Frames.error ["boom"] (JStr "r2")) Samples.web_session 1);
    reflexivity.
Defined.

(** C3: on a connected Web session with a runner, for the event
    [{"event":"run","id":"r1","input":{"q":"hi"}}] and the responses
    [OUTPUT_STREAM_CHUNK{deltas:{"a":"h"}}],
    [OUTPUT_STREAM_CHUNK{deltas:{"a":"hi"}}], [OUTPUT_STREAM_END], the
    session sends exactly three frames, in this order: the two chunk
    responses serialized as they are, then
    [{"event":"done","request_id":"r1"}]. *)
Theorem scenario_1_sends_three_frames {files : AppSessionFiles} s h :
  _connected s = true ->
  _app_runner s = Some h ->
  sent (effects_of (_respond_to_event Samples.run_r1
                      [live Samples.chunk_h; live Samples.chunk_hi; live stream_end] s)) =
    [Frames.pass_through Samples.chunk_h;
     Frames.pass_through Samples.chunk_hi;
     Frames.done (JStr "r1")].
Proof.
  intros Hc Hr.
  change [live Samples.chunk_h; live Samples.chunk_hi; live stream_end]
    with (map live [Samples.chunk_h; Samples.chunk_hi; stream_end]).
  rewrite (respond_run_live Samples.run_r1 _ s h) by (reflexivity || assumption).
  reflexivity.
Qed.

Lemma scenario_1_witness :
  sent (effects_of (_respond_to_event (files := Samples.files) Samples.run_r1
                      [live Samples.chunk_h; live Samples.chunk_hi; live stream_end]
                      Samples.web_session)) =
    [Frames.pass_through Samples.chunk_h;
     Frames.pass_through Samples.chunk_hi;
     Frames.done (JStr "r1")].
Proof.
  apply (scenario_1_sends_three_frames (files := Samples.files) Samples.web_session 1);
    reflexivity.
Defined.

(** C5, as stated, fails: [except Exception] (lines 179 and 222) does not
    catch an exception that is not an [Exception].  When the task of a
    [run] event is cancelled after the first chunk, or its iterator raises
    a [KeyboardInterrupt], the exception is neither caught nor logged: it
    leaves the handler. *)
Lemma cancellation_is_not_caught :
  _respond_to_event (files := Samples.files) Samples.run_r1
    [live Samples.chunk_h; cancelled] Samples.web_session =
    (Raised CancelledError, Samples.web_session,
     [runner_run 1 (run_request Samples.run_r1 Samples.web_session);
      send (Frames.pass_through Samples.chunk_h)]) /\
  _respond_to_event (files := Samples.files) Samples.run_r1
    [live Samples.chunk_h; anext (raises (Exception "KeyboardInterrupt" ""))]
    Samples.web_session =
    (Raised (Exception "KeyboardInterrupt" ""), Samples.web_session,
     [runner_run 1 (run_request Samples.run_r1 Samples.web_session);
      send (Frames.pass_through Samples.chunk_h)]).
Proof. split; reflexivity. Qed.

(** C5 (amended): an exception of class [Exception] raised while a [run]
    event is processed (by the iterator, after any number of responses, or
    by the call of [run] on a missing runner) is caught and logged, and the
    handler sends nothing for it: its effects are those of the responses
    before the exception and the log entry.  An exception of class
    [Exception] raised while a [create_asset] event is processed is logged
    and the frame [{errors:[str(e)], reply_to, request_id,
    asset_request_id}], with the event's id in the three id fields, is
    sent. *)
Theorem run_failure_is_silent_create_asset_failure_is_reported
    {files : AppSessionFiles} json_data s :
  (event_is json_data "run" = true ->
   (forall h responses e rest,
      is_exception e = true ->
      _connected s = true -> _app_runner s = Some h ->
      _respond_to_event json_data (map live responses ++ anext (raises e) :: rest) s =
        (Normal tt, s,
         effects_of (_respond_to_event json_data (map live responses) s)
           ++ [logger_exception ("Failed to run app: " ++ str e)])) /\
   (forall ticks,
      _app_runner s = None ->
      _respond_to_event json_data ticks s =
        (Normal tt, s,
         [logger_exception
            ("Failed to run app: " ++ "'NoneType' object has no attribute 'run'")]))) /\
  (event_is json_data "create_asset" = true ->
   forall ticks e,
     is_exception e = true ->
     outcome_of (create_asset_body json_data (field json_data "id" JNull) s) = Raised e ->
     _respond_to_event json_data ticks s =
       (Normal tt, s,
        [logger_exception (str e);
         send (text_data (json_dumps (JObj [
           ("errors", JArr [JStr (str e)]);
           ("reply_to", field json_data "id" JNull);
           ("request_id", field json_data "id" JNull);
           ("asset_request_id", field json_data "id" JNull)])))])).
Proof.
  split.
  - intros Hev. split.
    + intros h responses e rest He Hc Hr.
      rewrite (respond_run_live json_data responses s h) by assumption.
      rewrite respond_run by exact Hev. rewrite Hr.
      rewrite dispatch_live_raises by exact Hc.
      cbn [outcome_of state_of effects_of fst snd after_run failed_to_run].
      rewrite He. reflexivity.
    + intros ticks Hr. rewrite respond_run by exact Hev. rewrite Hr. reflexivity.
  - intros Hev ticks e He Hb.
    rewrite (respond_create_asset_raised json_data ticks s e Hev Hb), He. reflexivity.
Qed.

Lemma run_failure_witness :
  _respond_to_event (files := Samples.files) Samples.run_r1
    (map live [Samples.chunk_h] ++ anext (raises (Exception "RuntimeError" "engine failed")) :: [])
    Samples.web_session =
    (Normal tt, Samples.web_session,
     effects_of (_respond_to_event (files := Samples.files) Samples.run_r1
                   (map live [Samples.chunk_h]) Samples.web_session)
       ++ [logger_exception "Failed to run app: engine failed"]) /\
  _respond_to_event (files := Samples.files) Samples.create_asset_a1 [] Samples.web_session =
    (Normal tt, Samples.web_session,
     [logger_exception "'AppConsumer' object has no attribute 'app_id'";
      send (Frames.asset_failed "'AppConsumer' object has no attribute 'app_id'" (JStr "a1"))]).
Proof.
  split.
  - apply (proj1 (proj1 (run_failure_is_silent_create_asset_failure_is_reported
                           (files := Samples.files) Samples.run_r1 Samples.web_session)
                    eq_refl)
             1 [Samples.chunk_h] (Exception "RuntimeError" "engine failed") []);
      reflexivity.
  - apply (proj2 (run_failure_is_silent_create_asset_failure_is_reported
                    (files := Samples.files) Samples.create_asset_a1 Samples.web_session)
             eq_refl [] (AttributeError "'AppConsumer' object has no attribute 'app_id'"));
      reflexivity.
Defined.

End AppConsumerClaims.

(** ** The runs of [PlaygroundConsumer] *)

Module PlaygroundFacts.
Import PlaygroundConsumer MonadFacts.

(** Reading the frame changes no attribute and has no effect. *)
Lemma prepare_cases json_data uuid s :
  (exists request, prepare json_data uuid s = (Normal request, s, [])) \/
  (exists e, prepare json_data uuid s = (Raised e, s, [])).
Proof.
  unfold prepare. mcbv.
  destruct json_data; try (right; eexists; reflexivity).
  destruct (field (JObj items) "input" (JObj [])); try (right; eexists; reflexivity).
  left; eexists; reflexivity.
Qed.

Lemma prepare_indep json_data uuid s s' :
  outcome_of (prepare json_data uuid s) = outcome_of (prepare json_data uuid s').
Proof.
  unfold prepare. mcbv.
  destruct json_data; try reflexivity.
  destruct (field (JObj items) "input" (JObj [])); reflexivity.
Qed.

Lemma playground_forward_eq rid response s :
  forward rid response s = (Normal tt, s, effects_of (forward rid response s)).
Proof. unfold forward. destruct (type response); reflexivity. Qed.

Lemma stopped_forward rid response s : stopped (effects_of (forward rid response s)) = [].
Proof. unfold forward. destruct (type response); reflexivity. Qed.

(** *** Liveness *)

Lemma resume_not_connected t s :
  _connected s = false ->
  sent (effects_of (resume t s)) = [] /\ _connected (state_of (resume t s)) = false.
Proof.
  intros Hs. unfold resume, await_app_runner, run, stop_app_runner.
  destruct (at_stage t) as [request|rid items|]; [| |simpl; auto];
    (destruct (cancel_requested t); [simpl; auto|]).
  - destruct (app_runner_answer t) as [e|[h|]]; mcbv; simpl; auto.
  - destruct items as [|[response|e] rest]; mcbv; rewrite ?Hs; simpl;
      try destruct (is_exception e); simpl;
      destruct (_app_runner s); simpl; auto.
Qed.

Lemma disconnect_sets_flag close_code sys :
  sent (trace (handle_event (Disconnect close_code) sys)) = sent (trace sys) /\
  _connected (session (handle_event (Disconnect close_code) sys)) = false.
Proof.
  simpl. unfold disconnect. mcbv. simpl.
  destruct (_event_response_task (session sys)), (_app_runner (session sys));
    simpl; rewrite sent_app, ?app_nil_r; auto.
Qed.

Lemma handle_event_not_connected ev sys :
  _connected (session sys) = false ->
  sent (trace (handle_event ev sys)) = sent (trace sys) /\
  _connected (session (handle_event ev sys)) = false.
Proof.
  intros Hs. destruct ev as [json_data uuid answer items|i|close_code].
  - simpl. unfold receive.
    destruct (prepare_cases json_data uuid (session sys)) as [[request ->]|[e ->]];
      simpl; rewrite sent_app, app_nil_r; auto.
  - simpl. unfold step. destruct (tasks sys !! i) as [t|]; [|auto].
    destruct (resume_not_connected t (session sys) Hs) as [H1 H2].
    destruct (resume t (session sys)) as [[o s1] w1].
    unfold state_of, effects_of in *; simpl in *.
    rewrite sent_app, H1, app_nil_r. auto.
  - apply disconnect_sets_flag.
Qed.

(** Once the flag is false no task of the session sends a frame, whatever
    happens next. *)
Lemma exec_not_connected events : forall sys,
  _connected (session sys) = false ->
  sent (trace (exec events sys)) = sent (trace sys) /\
  _connected (session (exec events sys)) = false.
Proof.
  induction events as [|ev events IH]; intros sys Hs; [auto|].
  unfold exec in *. simpl.
  destruct (handle_event_not_connected ev sys Hs) as [H1 H2].
  destruct (IH _ H2) as [H3 H4]. rewrite H3, H1. auto.
Qed.

Lemma exec_cut before close_code after sys :
  sent (trace (exec (before ++ Disconnect close_code :: after) sys)) =
  sent (trace (exec before sys)).
Proof.
  unfold exec. rewrite fold_left_app. cbn [fold_left].
  destruct (disconnect_sets_flag close_code
              (fold_left (fun sys ev => handle_event ev sys) before sys)) as [H1 H2].
  destruct (exec_not_connected after _ H2) as [H3 _].
  unfold exec in H3. rewrite H3, H1. reflexivity.
Qed.

(** *** A run on its own *)

(** The loop leaves the attributes as they are, stops no runner, and ends
    normally or by an exception of the iterator. *)
Lemma dispatch_facts rid items : forall s,
  exists o w, dispatch rid items s = (o, s, w) /\ o <> Returned /\ stopped w = [] /\
              (raises_exceptions_only items = true ->
               forall e, o = Raised e -> is_exception e = true).
Proof.
  induction items as [|[response|e] items IH]; intros s; simpl.
  - exists (Normal tt), []. repeat split; discriminate.
  - unfold bind at 1. unfold get. destruct (negb (_connected s)).
    + exists (Normal tt), []. repeat split; discriminate.
    + unfold bind. rewrite playground_forward_eq.
      destruct (IH s) as (o & w & -> & Ho & Hw & He).
      eexists _, _. split; [reflexivity|]. split; [exact Ho|]. split; [|exact He].
      simpl. rewrite stopped_app, stopped_forward, Hw. reflexivity.
  - exists (Raised e), []. repeat split; try discriminate.
    intros H e' [= <-]. apply andb_true_iff in H. apply H.
Qed.

(** The handler, run on its own with a runner [h] whose iterator raises
    no exception but of class [Exception], ends by [stop()] on [h], and
    stops nothing before. *)
Lemma respond_stops json_data uuid h items s :
  raised (outcome_of (prepare json_data uuid s)) = false ->
  raises_exceptions_only items = true ->
  exists w,
    _respond_to_event json_data uuid (inr (Some h)) items s =
      (Normal tt, set_app_runner (Some h) s, w ++ [runner_stop h]) /\
    stopped w = [].
Proof.
  intros Hp Hi. unfold _respond_to_event.
  destruct (prepare_cases json_data uuid s) as [[request Hq]|[e Hq]];
    [|rewrite Hq in Hp; discriminate].
  unfold def, bind at 1. rewrite Hq.
  unfold await_app_runner, run, stop_app_runner. mcbv. simpl.
  destruct (dispatch_facts (client_request_id request) items (set_app_runner (Some h) s))
    as (o & w & -> & Ho & Hw & He).
  destruct o as [[]|e|]; [| |congruence]; simpl.
  - exists (runner_run h request :: w). split; [reflexivity|].
    simpl. rewrite Hw. reflexivity.
  - rewrite (He Hi e eq_refl). simpl.
    exists ((runner_run h request :: w)
              ++ [logger_exception ("Failed to run app: " ++ str e)]).
    split; [reflexivity|]. simpl. rewrite stopped_app, Hw. reflexivity.
Qed.

(** When the iterator raises an exception that is not an [Exception]
    after the responses [rs], the exception leaves the handler and the
    [stop()] of line 460 is not reached: no runner is stopped. *)
Lemma respond_escapes json_data uuid h rs e rest s :
  raised (outcome_of (prepare json_data uuid s)) = false ->
  _connected s = true ->
  is_exception e = false ->
  exists w,
    _respond_to_event json_data uuid (inr (Some h)) (map yields rs ++ raises e :: rest) s =
      (Raised e, set_app_runner (Some h) s, w) /\
    stopped w = [].
Proof.
  intros Hp Hc He. unfold _respond_to_event.
  destruct (prepare_cases json_data uuid s) as [[request Hq]|[e' Hq]];
    [|rewrite Hq in Hp; discriminate].
  unfold def, bind at 1. rewrite Hq.
  unfold await_app_runner, run, stop_app_runner. mcbv. simpl.
  assert (Hd : forall s0, _connected s0 = true ->
            exists w, dispatch (client_request_id request) (map yields rs ++ raises e :: rest) s0
                      = (Raised e, s0, w) /\ stopped w = []).
  { intros s0 Hs0. induction rs as [|r rs IH]; simpl.
    - exists []. auto.
    - unfold bind at 1. unfold get. rewrite Hs0. simpl.
      unfold bind. rewrite playground_forward_eq.
      destruct IH as (w & -> & Hw). eexists. split; [reflexivity|].
      simpl. rewrite stopped_app, stopped_forward, Hw. reflexivity. }
  destruct (Hd (set_app_runner (Some h) s) Hc) as (w & -> & Hw).
  rewrite He. eexists. split; [reflexivity|]. simpl. exact Hw.
Qed.

End PlaygroundFacts.

(** ** A task that runs alone does what the handler does *)

Module PlaygroundAlone.
Import PlaygroundConsumer MonadFacts PlaygroundFacts.

Lemma exec_cons ev events sys :
  exec (ev :: events) sys = exec events (handle_event ev sys).
Proof. reflexivity. Qed.

Lemma exec_repeat_S ev n sys :
  exec (repeat ev (S n)) sys = exec (repeat ev n) (handle_event ev sys).
Proof. reflexivity. Qed.

Lemma move_finished t : at_stage t = finished -> move t finished = t.
Proof. destruct t; simpl; intros ->; reflexivity. Qed.

Lemma step_finished i sys t :
  tasks sys !! i = Some t -> at_stage t = finished -> step i sys = sys.
Proof.
  intros Ht Hf. unfold step, resume. rewrite Ht, Hf. simpl.
  rewrite (move_finished t Hf), list_insert_id, app_nil_r by exact Ht.
  destruct sys; reflexivity.
Qed.

(** A finished task takes no further step. *)
Lemma steps_finished i n : forall sys t,
  tasks sys !! i = Some t -> at_stage t = finished ->
  exec (repeat (Step i) n) sys = sys.
Proof.
  induction n as [|n IH]; intros sys t Ht Hf; [reflexivity|].
  rewrite exec_repeat_S. cbn [handle_event].
  rewrite (step_finished i sys t Ht Hf). eapply IH; eauto.
Qed.

Lemma rest_of_run_yields rid response items s :
  _connected s = true ->
  rest_of_run rid (yields response :: items) s =
    (outcome_of (rest_of_run rid items s), state_of (rest_of_run rid items s),
     effects_of (forward rid response s) ++ effects_of (rest_of_run rid items s)).
Proof.
  intros Hs. unfold rest_of_run, stop_app_runner. simpl dispatch.
  mcbv. rewrite Hs. mcbv. rewrite playground_forward_eq. mcbv.
  destruct (dispatch rid items s) as [[o s1] w1].
  destruct o as [[]|e|]; try destruct (is_exception e); destruct (_app_runner s1); simpl;
    rewrite ?app_assoc; reflexivity.
Qed.

Ltac finished_from_here :=
  erewrite steps_finished;
  [ reflexivity
  | simpl; apply list_lookup_insert_eq; eapply lookup_lt_Some; eauto
  | reflexivity ].

(** A task in its loop that takes enough steps, with no other event in
    between, does the rest of the handler. *)
Lemma steps_iterating i rid items : forall n sys t,
  tasks sys !! i = Some t -> at_stage t = iterating rid items ->
  cancel_requested t = false ->
  length items < n ->
  exec (repeat (Step i) n) sys = ended (rest_of_run rid items (session sys)) i t sys.
Proof.
  induction items as [|[response|e] items IH]; intros n sys t Ht Hs Hk Hn;
    (destruct n as [|n]; [simpl in Hn; lia|]); rewrite exec_repeat_S;
    cbn [handle_event]; unfold step at 1; rewrite Ht; unfold resume; rewrite Hs, Hk.
  - unfold rest_of_run, stop_app_runner. simpl dispatch. mcbv.
    destruct (_app_runner (session sys)) as [h|]; simpl; finished_from_here.
  - destruct (_connected (session sys)) eqn:Hc.
    + rewrite rest_of_run_yields by exact Hc.
      mcbv. rewrite Hc. mcbv. rewrite playground_forward_eq. mcbv.
      cbn [fst snd effects_of].
      erewrite IH;
        [ | simpl; apply list_lookup_insert_eq; eapply lookup_lt_Some; eauto
          | reflexivity
          | exact Hk
          | simpl in Hn; simpl; lia ].
      unfold ended, move. simpl.
      rewrite list_insert_insert_eq, app_nil_r, app_assoc. reflexivity.
    + unfold rest_of_run, stop_app_runner. simpl dispatch. mcbv. rewrite Hc. simpl.
      destruct (_app_runner (session sys)) as [h|]; simpl; finished_from_here.
  - unfold rest_of_run, stop_app_runner. simpl dispatch. mcbv.
    destruct (is_exception e);
      destruct (_app_runner (session sys)) as [h|]; simpl; finished_from_here.
Qed.

Lemma insert_last (l : list run_task) t t' :
  <[length l := t']> (l ++ [t]) = l ++ [t'].
Proof. rewrite insert_app_r_alt by lia. rewrite Nat.sub_diag. reflexivity. Qed.

Lemma lookup_last (l : list run_task) t : (l ++ [t]) !! length l = Some t.
Proof. rewrite lookup_app_r by lia. rewrite Nat.sub_diag. reflexivity. Qed.

(** A run whose task is the only one to take steps, from the frame's
    arrival to the task's end, does what [_respond_to_event] does from its
    first line to its last. *)
Lemma alone json_data uuid answer items sys :
  let i := length (tasks sys) in
  let r := _respond_to_event json_data uuid answer items
             (set_event_response_task (Some i) (session sys)) in
  exec (Receive json_data uuid answer items :: repeat (Step i) (2 + length items)) sys =
    {| session := state_of r;
       tasks := tasks sys ++ [{| app_runner_answer := answer;
                                 response_iterator := items;
                                 at_stage := finished;
                                 cancel_requested := false |}];
       trace := trace sys ++ [create_task i] ++ effects_of r |}.
Proof.
  intros i r. subst r i. rewrite exec_cons. cbn [handle_event]. unfold receive.
  unfold _respond_to_event, await_app_runner, run, stop_app_runner.
  set (i := length (tasks sys)).
  pose proof (prepare_indep json_data uuid (session sys)
                (set_event_response_task (Some i) (session sys))) as Hi.
  destruct (prepare_cases json_data uuid (session sys)) as [[request Hq]|[e Hq]];
  destruct (prepare_cases json_data uuid (set_event_response_task (Some i) (session sys)))
    as [[request' Hq']|[e' Hq']];
    rewrite Hq, Hq' in Hi; unfold outcome_of in Hi; simpl in Hi; try discriminate;
    rewrite Hq; mcbv; rewrite Hq'; mcbv.
  - injection Hi as <-.
    change (2 + length items) with (S (S (length items))).
    rewrite exec_repeat_S. cbn [handle_event]. unfold step at 1.
    cbn [tasks session trace]. subst i. rewrite lookup_last.
    unfold resume. cbn [at_stage app_runner_answer response_iterator cancel_requested].
    unfold await_app_runner.
    destruct answer as [e|[h|]].
    + mcbv. cbn [tasks session trace]. rewrite insert_last.
      erewrite steps_finished;
        [| cbn [tasks]; apply lookup_last | reflexivity].
      unfold move; simpl. rewrite !app_nil_r. reflexivity.
    + unfold run. mcbv. cbn [_app_runner set_app_runner set_event_response_task].
      cbn [tasks session trace]. rewrite insert_last.
      erewrite steps_iterating;
        [| cbn [tasks]; apply lookup_last | reflexivity | reflexivity | lia].
      unfold ended, move. cbn [tasks session trace app_runner_answer response_iterator].
      rewrite insert_last.
      unfold rest_of_run, stop_app_runner. mcbv.
      destruct (dispatch (client_request_id request) items
                  (set_app_runner (Some h)
                     (set_event_response_task (Some (length (tasks sys))) (session sys))))
        as [[o s1] w1].
      destruct o as [[]|e|]; try destruct (is_exception e);
        destruct (_app_runner s1); simpl;
        rewrite ?app_nil_r, <- ?app_assoc; simpl; rewrite <- ?app_assoc; reflexivity.
    + unfold run, stop_app_runner. mcbv.
      cbn [_app_runner set_app_runner set_event_response_task].
      rewrite is_exception_AttributeError. mcbv.
      cbn [_app_runner set_app_runner set_event_response_task].
      cbn [tasks session trace]. rewrite insert_last.
      erewrite steps_finished;
        [| cbn [tasks]; apply lookup_last | reflexivity].
      unfold move; simpl. rewrite ?app_nil_r, <- ?app_assoc. reflexivity.
  - erewrite steps_finished; [| cbn [tasks]; subst i; apply lookup_last | reflexivity].
    simpl. rewrite ?app_nil_r. reflexivity.
Qed.

End PlaygroundAlone.

(** ** Claims on liveness and on the playground's runner *)

Module LivenessClaims.
Import MonadFacts.

(** What follows a cancellation that reaches the task adds no frame to a
    run of [AppConsumer]. *)
Lemma dispatch_cut_cancelled rid before : forall s after,
  sent (effects_of (AppConsumer.dispatch rid (before ++ AppConsumer.cancelled :: after) s)) =
  sent (effects_of (AppConsumer.dispatch rid before s)).
Proof.
  induction before as [|t before IH]; intros s after; simpl; [reflexivity|].
  destruct t as [[response|e]|code|].
  - unfold bind at 1 3. unfold get.
    destruct (negb (AppConsumer._connected s)); [reflexivity|].
    unfold bind. rewrite AppConsumerFacts.app_forward_eq.
    specialize (IH s after).
    destruct (AppConsumer.dispatch rid (before ++ AppConsumer.cancelled :: after) s)
      as [[o1 s1] w1].
    destruct (AppConsumer.dispatch rid before s) as [[o2 s2] w2].
    unfold effects_of in *; simpl in *. rewrite !sent_app, IH. reflexivity.
  - reflexivity.
  - unfold bind. rewrite AppConsumerFacts.app_disconnect_eq.
    specialize (IH (AppConsumer.set_connected false s) after).
    destruct (AppConsumer.dispatch rid (before ++ AppConsumer.cancelled :: after)
                (AppConsumer.set_connected false s)) as [[o1 s1] w1].
    destruct (AppConsumer.dispatch rid before (AppConsumer.set_connected false s))
      as [[o2 s2] w2].
    unfold effects_of in *; simpl in *. rewrite !sent_app, IH. reflexivity.
  - reflexivity.
Qed.

(** C1: the claim fails on the telephony session, and its "without
    raising" fails on a cancelled run.  A [start] event whose run announces
    an output audio stream starts the relay task; the transport then calls
    [disconnect], which sets the liveness flag to false; the relay, which
    has no check of the flag (lines 613-623, where the loop of [start]
    checks it at line 559), still sends the media frame of the chunk
    [b"ab"].  And on a web session whose flag is false, a cancellation that
    reaches the task of a run is a [CancelledError] that leaves the loop
    and the handler: [asyncio.current_task().cancelled()] (line 163) is
    false in the running task, so the loop does not leave silently. *)
Theorem relay_sends_after_disconnect :
  effects_of
    (TwilioVoiceConsumer._respond_to_event (streams := spec_stream)
       (audio := Samples.audio) (resolver := Samples.resolver)
       Samples.start_frame [yields Samples.output_stream_chunk] 0
       Samples.call_with_audio) =
    [runner_run 1 {| client_request_id := JStr "MZ1"; session_id := "session";
                     input := JObj [] |};
     create_task 0] /\
  TwilioVoiceConsumer._connected
    (state_of
       (TwilioVoiceConsumer.disconnect 1000
          (state_of
             (TwilioVoiceConsumer._respond_to_event (streams := spec_stream)
                (audio := Samples.audio) (resolver := Samples.resolver)
                Samples.start_frame [yields Samples.output_stream_chunk] 0
                Samples.call_with_audio)))) = false /\
  sent
    (effects_of
       (TwilioVoiceConsumer._process_output_audio_stream (streams := spec_stream)
          (audio := Samples.audio) (resolver := Samples.resolver)
          (JStr "objref://sessionfiles/1")
          (state_of
             (TwilioVoiceConsumer.disconnect 1000
                (state_of
                   (TwilioVoiceConsumer._respond_to_event (streams := spec_stream)
                      (audio := Samples.audio) (resolver := Samples.resolver)
                      Samples.start_frame [yields Samples.output_stream_chunk] 0
                      Samples.call_with_audio)))))) =
    [RunFrames.media (audio := Samples.audio) (JStr "MZ1") (b "ab")] /\
  AppConsumer._respond_to_event (files := Samples.files) Samples.run_r1
    [AppConsumer.cancelled; AppConsumer.live Samples.chunk_h]
    (AppConsumer.set_connected false Samples.web_session) =
    (Raised CancelledError, AppConsumer.set_connected false Samples.web_session,
     [runner_run 1 (AppConsumer.run_request Samples.run_r1 Samples.web_session)]).
Proof. repeat split; vm_compute; reflexivity. Qed.

(** X21: in the dispatch loops, once the liveness flag is false no run
    sends a further frame.  In [AppConsumer] the loop, about to handle a
    response while the flag is false, leaves without sending and without
    raising, whatever the iterator still holds; the frames a handler sends
    are those it sent before [disconnect] ran or before a cancellation
    reached its task, whatever comes after; a cancellation that reaches
    the task ends the loop with a [CancelledError].  In
    [PlaygroundConsumer] the frames all tasks of a session have sent are
    those sent before [disconnect] ran, whatever the tasks and later
    events do.  In [TwilioVoiceConsumer] the loop of the [start] event,
    about to handle a response after [disconnect] ran, leaves without
    sending and without raising. *)
Theorem dispatch_loops_are_silent_once_not_connected :
  (forall client_request_id response rest s,
     AppConsumer.dispatch client_request_id
       (AppConsumer.live response :: rest) (AppConsumer.set_connected false s) =
       (Normal tt, AppConsumer.set_connected false s, [])) /\
  (forall client_request_id rest s,
     AppConsumer.dispatch client_request_id (AppConsumer.cancelled :: rest) s =
       (Raised CancelledError, s, [])) /\
  (forall (files : AppConsumer.AppSessionFiles) json_data before close_code after s,
     sent (effects_of (AppConsumer._respond_to_event json_data
                         (before ++ AppConsumer.disconnected close_code :: after) s)) =
     sent (effects_of (AppConsumer._respond_to_event json_data before s))) /\
  (forall (files : AppConsumer.AppSessionFiles) json_data before after s,
     sent (effects_of (AppConsumer._respond_to_event json_data
                         (before ++ AppConsumer.cancelled :: after) s)) =
     sent (effects_of (AppConsumer._respond_to_event json_data before s))) /\
  (forall before close_code after sys,
     sent (PlaygroundConsumer.trace
             (PlaygroundConsumer.exec
                (before ++ PlaygroundConsumer.Disconnect close_code :: after) sys)) =
     sent (PlaygroundConsumer.trace (PlaygroundConsumer.exec before sys))) /\
  (forall (storage : Type) (streams : AssetStream storage)
          (audio : TwilioVoiceConsumer.Audio) (resolver : TwilioVoiceConsumer.Resolver)
          response rest new_task close_code (s : TwilioVoiceConsumer.self storage),
     TwilioVoiceConsumer.iterate (yields response :: rest) new_task
       (state_of (TwilioVoiceConsumer.disconnect close_code s)) =
       (Normal tt, state_of (TwilioVoiceConsumer.disconnect close_code s), [])).
Proof.
  split; [|split; [|split; [|split; [|split]]]].
  - intros rid response rest s. reflexivity.
  - intros rid rest s. reflexivity.
  - intros files json_data before close_code after s.
    apply AppConsumerHandler.respond_cut.
  - intros files json_data before after s.
    destruct (event_is json_data "run") eqn:Hev.
    + rewrite !AppConsumerHandler.respond_run by exact Hev.
      destruct (AppConsumer._app_runner s) as [h|]; [|reflexivity].
      cbn [effects_of snd sent].
      rewrite !sent_app, !AppConsumerFacts.sent_failed_to_run, !app_nil_r.
      apply dispatch_cut_cancelled.
    + rewrite (AppConsumerHandler.respond_not_run json_data (before ++ _)),
        (AppConsumerHandler.respond_not_run json_data before) by exact Hev.
      reflexivity.
  - intros before close_code after sys. apply PlaygroundFacts.exec_cut.
  - intros storage streams audio resolver response rest new_task close_code s.
    unfold TwilioVoiceConsumer.disconnect. mcbv. simpl.
    destruct (TwilioVoiceConsumer._app_runner s); reflexivity.
Qed.

End LivenessClaims.

Module PlaygroundClaims.
Import PlaygroundConsumer MonadFacts PlaygroundFacts PlaygroundAlone.

(** C10: the claim fails when two runs of a session overlap: the [stop()]
    of line 460 is called on [self._app_runner], the runner the session
    holds when the loop finishes, which a later run has replaced, and not
    on the runner the run created.  Run [a] gets runner 1 and starts it;
    while its loop is suspended, run [b] gets runner 2, assigns it to
    [_app_runner] and starts it; run [a] then forwards its chunk, its loop
    ends, and it stops runner 2; run [b] ends and stops runner 2 again.
    Both tasks are finished, both runners were started, and runner 1 was
    never stopped. *)
Theorem overlapping_run_takes_the_stop :
  map at_stage
    (tasks (exec [Receive Samples.run_a "ua" (inr (Some 1)) [yields Samples.chunk_h];
                  Step 0;
                  Receive Samples.run_b "ub" (inr (Some 2)) [];
                  Step 1; Step 0; Step 0; Step 1]
              Samples.playground)) = [finished; finished] /\
  trace (exec [Receive Samples.run_a "ua" (inr (Some 1)) [yields Samples.chunk_h];
               Step 0;
               Receive Samples.run_b "ub" (inr (Some 2)) [];
               Step 1; Step 0; Step 0; Step 1]
           Samples.playground) =
    [create_task 0;
     runner_run 1 {| client_request_id := JStr "a"; session_id := "ua"; input := JObj [] |};
     create_task 1;
     runner_run 2 {| client_request_id := JStr "b"; session_id := "ub"; input := JObj [] |};
     send (Frames.pass_through Samples.chunk_h);
     runner_stop 2;
     runner_stop 2] /\
  stopped
    (trace (exec [Receive Samples.run_a "ua" (inr (Some 1)) [yields Samples.chunk_h];
                  Step 0;
                  Receive Samples.run_b "ub" (inr (Some 2)) [];
                  Step 1; Step 0; Step 0; Step 1]
              Samples.playground)) = [2; 2].
Proof. repeat split; reflexivity. Qed.

(** X22: a Playground run whose run handle is constructed and whose
    iterator raises no exception but of class [Exception], when no other
    event of the session is handled between the frame's arrival and the end
    of its task, stops its own handle: [stop()] is called on that handle
    when the dispatch loop finishes, also when the iterator raised, and on
    no handle before; the effects of the run end with [runner_stop h], and
    the session still holds [h]. *)
Theorem run_alone_stops_its_runner json_data uuid h items sys :
  raised (outcome_of (prepare json_data uuid (session sys))) = false ->
  raises_exceptions_only items = true ->
  exists w,
    trace (exec (Receive json_data uuid (inr (Some h)) items
                   :: repeat (Step (length (tasks sys))) (2 + length items)) sys) =
      trace sys ++ create_task (length (tasks sys)) :: w ++ [runner_stop h] /\
    stopped w = [] /\
    _app_runner
      (session (exec (Receive json_data uuid (inr (Some h)) items
                        :: repeat (Step (length (tasks sys))) (2 + length items)) sys)) =
      Some h.
Proof.
  intros Hp Hi.
  pose proof (alone json_data uuid (inr (Some h)) items sys) as Ha. cbv zeta in Ha.
  rewrite Ha. cbn [trace session].
  destruct (respond_stops json_data uuid h items
              (set_event_response_task (Some (length (tasks sys))) (session sys)))
    as (w & Hw & Hs); [|exact Hi|].
  { rewrite <- Hp. f_equal. apply prepare_indep. }
  rewrite Hw. exists w. split; [reflexivity | split; [exact Hs | reflexivity]].
Qed.

Lemma run_alone_witness :
  exists w,
    trace (exec (Receive Samples.run_a "ua" (inr (Some 1))
                   [yields Samples.chunk_h; raises (Exception "RuntimeError" "engine failed")]
                   :: repeat (Step (length (tasks Samples.playground))) (2 + 2))
             Samples.playground) =
      trace Samples.playground
        ++ create_task (length (tasks Samples.playground)) :: w ++ [runner_stop 1] /\
    stopped w = [] /\
    _app_runner
      (session (exec (Receive Samples.run_a "ua" (inr (Some 1))
                        [yields Samples.chunk_h;
                         raises (Exception "RuntimeError" "engine failed")]
                        :: repeat (Step (length (tasks Samples.playground))) (2 + 2))
                  Samples.playground)) = Some 1.
Proof.
  apply (run_alone_stops_its_runner Samples.run_a "ua" 1
           [yields Samples.chunk_h; raises (Exception "RuntimeError" "engine failed")]
           Samples.playground); reflexivity.
Defined.

End PlaygroundClaims.

(** ** The handler of [AssetStreamConsumer] *)

Module AssetStreamFacts.
Import AssetStreamConsumer MonadFacts.

Lemma bytes_eqb_eq x : forall y, bytes_eqb x y = true <-> x = y.
Proof.
  induction x as [|c x IH]; intros [|d y]; simpl; split; try congruence; try discriminate.
  - intros H. apply andb_true_iff in H as [H1 H2].
    apply Byte.byte_dec_bl in H1. apply IH in H2. congruence.
  - intros [= -> ->]. apply andb_true_iff. split.
    + apply Byte.byte_dec_lb. reflexivity.
    + apply IH. reflexivity.
Qed.

Lemma bytes_eqb_refl x : bytes_eqb x x = true.
Proof. apply bytes_eqb_eq. reflexivity. Qed.

Lemma bytes_eqb_neq x y : x <> y -> bytes_eqb x y = false.
Proof.
  intros H. destruct (bytes_eqb x y) eqn:E; [|reflexivity].
  apply bytes_eqb_eq in E. contradiction.
Qed.

Section AnyStorage.
Context {storage : Type} {streams : AssetStream storage}.

Lemma respond_unresolved (s : self storage) received :
  _asset s = None -> received <> [] ->
  _respond_to_event (Some received) s = (Normal tt, s, [close (Some 1008%Z)]).
Proof.
  intros Ha Hr. unfold _respond_to_event.
  destruct received as [|c rest]; [congruence|].
  mcbv. rewrite Ha. reflexivity.
Qed.

Lemma forward_chunks_prefix before e rest (s : self storage) :
  forward_chunks (map next_chunk before ++ read_raises e :: rest) s =
    (Raised e, s, map (fun chunk => send (bytes_data chunk)) before).
Proof.
  induction before as [|chunk before IH]; simpl; [reflexivity|].
  mcbv. rewrite IH. reflexivity.
Qed.

Lemma forward_chunks_facts items : forall (s : self storage),
  exists o w, forward_chunks items s = (o, s, w) /\ o <> Returned.
Proof.
  induction items as [|[chunk|e] items IH]; intros s; simpl.
  - eexists _, _; split; [reflexivity | discriminate].
  - mcbv. destruct (IH s) as (o & w & -> & Ho).
    eexists _, _; split; [reflexivity | exact Ho].
  - eexists _, _; split; [reflexivity | discriminate].
Qed.

(** No exception of class [Exception] leaves the handler, and the
    handler ends normally or by an exception. *)
Lemma respond_raises_no_exception data (s : self storage) :
  match outcome_of (_respond_to_event data s) with
  | Normal _ => True
  | Raised e => is_exception e = false
  | Returned => False
  end.
Proof.
  unfold _respond_to_event, storage_call.
  destruct data as [[|c rest]|]; try exact I.
  mcbv. destruct (_asset s) as [asset|]; [|exact I].
  destruct (bytes_eqb (first_chunk (split (c :: rest))) (b "read")).
  - destruct (forward_chunks_facts (read_async (Some asset) 0 (assets s)) s)
      as (o & w & -> & Ho).
    destruct o as [[]|e|]; [| destruct (is_exception e) eqn:E; simpl; auto | congruence].
    destruct (bytes_eqb (first_chunk (split (c :: rest))) (b "write")); [|exact I].
    destruct (bytes_eqb (c :: rest) (b "write" ++ [LF])).
    + destruct (finalize (Some asset) (assets s)) as [e|]; [|exact I].
      destruct (is_exception e) eqn:E; simpl; auto.
    + destruct (append_chunk (Some asset) (slice_from 6 (c :: rest)) (assets s)) as [e|];
        [|exact I].
      destruct (is_exception e) eqn:E; simpl; auto.
  - destruct (bytes_eqb (first_chunk (split (c :: rest))) (b "write")); [|exact I].
    destruct (bytes_eqb (c :: rest) (b "write" ++ [LF])).
    + destruct (finalize (Some asset) (assets s)) as [e|]; [|exact I].
      destruct (is_exception e) eqn:E; simpl; auto.
    + destruct (append_chunk (Some asset) (slice_from 6 (c :: rest)) (assets s)) as [e|];
        [|exact I].
      destruct (is_exception e) eqn:E; simpl; auto.
Qed.

(** What the [except] of line 290 does with an exception [e] raised after
    the effects [w]. *)
Lemma read_failure (s : self storage) asset received before e rest :
  _asset s = Some asset ->
  first_chunk (split received) = b "read" ->
  read_async (Some asset) 0 (assets s) = map next_chunk before ++ read_raises e :: rest ->
  _respond_to_event (Some received) s =
    if is_exception e then
      (Normal tt, s,
       map (fun chunk => send (bytes_data chunk)) before ++
         [logger_exception (str e); send (bytes_data []); close None])
    else (Raised e, s, map (fun chunk => send (bytes_data chunk)) before).
Proof.
  intros Ha Hev Hr. unfold _respond_to_event.
  destruct received as [|c rest']; [discriminate|].
  mcbv. rewrite Ha, Hev, Hr. change (bytes_eqb (b "read") (b "read")) with true.
  change (bytes_eqb (b "read") (b "write")) with false.
  mcbv. rewrite forward_chunks_prefix. destruct (is_exception e); simpl;
    rewrite ?app_nil_r; reflexivity.
Qed.

Lemma append_failure (s : self storage) asset received e :
  _asset s = Some asset ->
  first_chunk (split received) = b "write" ->
  received <> b "write" ++ [LF] ->
  append_chunk (Some asset) (slice_from 6 received) (assets s) = inl e ->
  _respond_to_event (Some received) s =
    if is_exception e then
      (Normal tt, s, [logger_exception (str e); send (bytes_data []); close None])
    else (Raised e, s, []).
Proof.
  intros Ha Hev Hne Hr. unfold _respond_to_event, storage_call.
  destruct received as [|c rest']; [discriminate|].
  mcbv. rewrite Ha, Hev, (bytes_eqb_neq _ _ Hne).
  change (bytes_eqb (b "write") (b "read")) with false.
  change (bytes_eqb (b "write") (b "write")) with true.
  mcbv. rewrite Hr. destruct (is_exception e); reflexivity.
Qed.

Lemma finalize_failure (s : self storage) asset e :
  _asset s = Some asset ->
  finalize (Some asset) (assets s) = inl e ->
  _respond_to_event (Some (b "write" ++ [LF])) s =
    if is_exception e then
      (Normal tt, s, [logger_exception (str e); send (bytes_data []); close None])
    else (Raised e, s, []).
Proof.
  intros Ha Hr. unfold _respond_to_event, storage_call.
  change (b "write" ++ [LF]) with (x77 :: b "rite" ++ [LF]).
  mcbv. rewrite Ha.
  change (first_chunk (split (x77 :: b "rite" ++ [LF]))) with (b "write").
  change (bytes_eqb (b "write") (b "read")) with false.
  change (bytes_eqb (b "write") (b "write")) with true.
  rewrite bytes_eqb_refl.
  mcbv. rewrite Hr. destruct (is_exception e); reflexivity.
Qed.

Lemma append_ok (s : self storage) asset payload store :
  _asset s = Some asset ->
  payload <> [] ->
  append_chunk (Some asset) payload (assets s) = inr store ->
  _respond_to_event (Some (b "write" ++ LF :: payload)) s =
    (Normal tt, set_assets store s, []).
Proof.
  intros Ha Hne Hr. unfold _respond_to_event, storage_call.
  change (b "write" ++ LF :: payload) with (x77 :: b "rite" ++ LF :: payload).
  mcbv. rewrite Ha.
  change (first_chunk (split (x77 :: b "rite" ++ LF :: payload))) with (b "write").
  change (bytes_eqb (b "write") (b "read")) with false.
  change (bytes_eqb (b "write") (b "write")) with true.
  mcbv.
  rewrite (bytes_eqb_neq (x77 :: b "rite" ++ LF :: payload)).
  2:{ intros E. apply Hne.
      change (x77 :: b "rite" ++ LF :: payload) with ((b "write" ++ [LF]) ++ payload) in E.
      rewrite <- (app_nil_r (b "write" ++ [LF])) in E at 2.
      apply app_inv_head in E. exact E. }
  change (slice_from 6 (x77 :: b "rite" ++ LF :: payload)) with payload.
  mcbv. rewrite Hr. reflexivity.
Qed.

Lemma finalize_ok (s : self storage) asset store :
  _asset s = Some asset ->
  finalize (Some asset) (assets s) = inr store ->
  _respond_to_event (Some (b "write" ++ [LF])) s =
    (Normal tt, set_assets store s, [close None]).
Proof.
  intros Ha Hr. unfold _respond_to_event, storage_call.
  change (b "write" ++ [LF]) with (x77 :: b "rite" ++ [LF]).
  mcbv. rewrite Ha.
  change (first_chunk (split (x77 :: b "rite" ++ [LF]))) with (b "write").
  change (bytes_eqb (b "write") (b "read")) with false.
  change (bytes_eqb (b "write") (b "write")) with true.
  rewrite bytes_eqb_refl.
  mcbv. rewrite Hr. reflexivity.
Qed.

End AnyStorage.
End AssetStreamFacts.

(** ** Claims on [AssetStreamConsumer] *)

Module AssetStreamClaims.
Import AssetStreamConsumer MonadFacts AssetStreamFacts.

(** C4, as stated, fails: [receive] (line 296) starts the handler of each
    frame with [run_coro_in_new_loop] and does not wait for it, so nothing
    in the code makes the handlers run in the order the frames arrived.
    For the frames [b"write\nAAAA"], [b"write\nBB"], [b"write\n"] on a
    fresh asset: when the handler of the second frame runs before the
    handler of the first, the content is [b"BBAAAA"]; when the handler of
    the third frame runs first, the stream is finalized while it is empty,
    both appends fail, and the connection is closed three times. *)
Lemma handlers_need_not_run_in_arrival_order :
  content Samples.the_asset
    (assets (fst (handlers_run (streams := spec_stream) [1; 0; 2]
                    [Some Samples.write_AAAA; Some Samples.write_BB; Some Samples.write_end]
                    Samples.asset_connection))) = b "BBAAAA" /\
  content Samples.the_asset
    (assets (fst (handlers_run (streams := spec_stream) [2; 0; 1]
                    [Some Samples.write_AAAA; Some Samples.write_BB; Some Samples.write_end]
                    Samples.asset_connection))) = [] /\
  closes (snd (handlers_run (streams := spec_stream) [2; 0; 1]
                 [Some Samples.write_AAAA; Some Samples.write_BB; Some Samples.write_end]
                 Samples.asset_connection)) = [None; None; None].
Proof. repeat split; vm_compute; reflexivity. Qed.

(** C4 (amended): on a connection whose asset resolved, over the modelled
    storage, a frame [b"write\n"] followed by a non-empty payload appends
    exactly that payload as one chunk to a stream that is open (nothing is
    sent, nothing is closed); the frame [b"write\n"] finalizes the stream
    and then closes the connection; and when the handlers of the frames
    [b"write\nAAAA"], [b"write\nBB"], [b"write\n"] run one after the other
    in the order the frames arrived, on a fresh asset, they leave the
    content [b"AAAABB"], finalized, with no close after the first two
    handlers and one close after the third. *)
Theorem write_appends_and_empty_write_finalizes
    (s : self (gmap string stream_state)) asset :
  _asset s = Some asset ->
  (forall payload,
     payload <> [] -> finalized (stream_of asset (assets s)) = false ->
     _respond_to_event (streams := spec_stream) (Some (b "write" ++ LF :: payload)) s =
       (Normal tt,
        set_assets
          (<[objref asset := {| chunks := chunks (stream_of asset (assets s)) ++ [payload];
                                finalized := false |}]> (assets s)) s,
        [])) /\
  _respond_to_event (streams := spec_stream) (Some (b "write" ++ [LF])) s =
    (Normal tt,
     set_assets
       (<[objref asset := {| chunks := chunks (stream_of asset (assets s));
                             finalized := true |}]> (assets s)) s,
     [close None]) /\
  (assets s !! objref asset = None ->
   snd (handlers_run (streams := spec_stream) [0; 1]
          [Some Samples.write_AAAA; Some Samples.write_BB; Some Samples.write_end] s) = [] /\
   snd (handlers_run (streams := spec_stream) [0; 1; 2]
          [Some Samples.write_AAAA; Some Samples.write_BB; Some Samples.write_end] s) =
     [close None] /\
   content asset
     (assets (fst (handlers_run (streams := spec_stream) [0; 1; 2]
                     [Some Samples.write_AAAA; Some Samples.write_BB;
                      Some Samples.write_end] s))) = b "AAAABB" /\
   finalized
     (stream_of asset
        (assets (fst (handlers_run (streams := spec_stream) [0; 1; 2]
                        [Some Samples.write_AAAA; Some Samples.write_BB;
                         Some Samples.write_end] s)))) = true).
Proof.
  intros Ha. split; [|split].
  - intros payload Hne Hopen. eapply append_ok; [exact Ha | exact Hne |].
    simpl. unfold spec_append_chunk. rewrite Hopen. reflexivity.
  - eapply finalize_ok; [exact Ha | reflexivity].
  - intros Hfresh.
    set (store1 := <[objref asset := {| chunks := [b "AAAA"]; finalized := false |}]>
                     (assets s)).
    set (store2 := <[objref asset := {| chunks := [b "AAAA"; b "BB"]; finalized := false |}]>
                     store1).
    set (store3 := <[objref asset := {| chunks := [b "AAAA"; b "BB"]; finalized := true |}]>
                     store2).
    assert (H1 : _respond_to_event (streams := spec_stream) (Some Samples.write_AAAA) s =
                   (Normal tt, set_assets store1 s, [])).
    { eapply append_ok; [exact Ha | discriminate |].
      simpl. unfold spec_append_chunk, stream_of. rewrite Hfresh. reflexivity. }
    assert (H2 : _respond_to_event (streams := spec_stream) (Some Samples.write_BB)
                   (set_assets store1 s) =
                   (Normal tt, set_assets store2 (set_assets store1 s), [])).
    { eapply append_ok; [exact Ha | discriminate |].
      simpl. unfold spec_append_chunk, stream_of. subst store1.
      rewrite lookup_insert_eq. reflexivity. }
    assert (H3 : _respond_to_event (streams := spec_stream) (Some Samples.write_end)
                   (set_assets store2 (set_assets store1 s)) =
                   (Normal tt,
                    set_assets store3 (set_assets store2 (set_assets store1 s)),
                    [close None])).
    { eapply finalize_ok; [exact Ha |].
      simpl. unfold spec_finalize, stream_of. subst store2.
      rewrite lookup_insert_eq. reflexivity. }
    cbn [handlers_run lookup list_lookup]. rewrite H1, H2, H3. cbn [fst snd app].
    repeat split.
    + unfold content, stream_of. simpl. subst store3.
      rewrite lookup_insert_eq. reflexivity.
    + unfold stream_of. simpl. subst store3. rewrite lookup_insert_eq. reflexivity.
Qed.

Lemma write_scenario_witness :
  snd (handlers_run (streams := spec_stream) [0; 1; 2]
         [Some Samples.write_AAAA; Some Samples.write_BB; Some Samples.write_end]
         Samples.asset_connection) = [close None] /\
  content Samples.the_asset
    (assets (fst (handlers_run (streams := spec_stream) [0; 1; 2]
                    [Some Samples.write_AAAA; Some Samples.write_BB;
                     Some Samples.write_end] Samples.asset_connection))) = b "AAAABB".
Proof.
  destruct (proj2 (proj2 (write_appends_and_empty_write_finalizes
                            Samples.asset_connection Samples.the_asset eq_refl)) eq_refl)
    as (_ & H2 & H3 & _).
  split; [exact H2 | exact H3].
Defined.

(** C8: on a connection whose asset did not resolve ([_asset] is [None]),
    every received event, that is every binary frame that is not empty,
    [read] and [write] frames alike, closes the connection with code 1008
    and does nothing else: the storage is as it was, whatever the storage
    is, and no chunk is sent. *)
Theorem unresolved_asset_closes_with_1008
    {storage : Type} {streams : AssetStream storage} (s : self storage) received :
  _asset s = None ->
  received <> [] ->
  _respond_to_event (Some received) s = (Normal tt, s, [close (Some 1008%Z)]).
Proof. apply respond_unresolved. Qed.

Lemma unresolved_asset_witness :
  _respond_to_event (streams := spec_stream) (Some Samples.write_AAAA)
    Samples.unresolved_connection =
    (Normal tt, Samples.unresolved_connection, [close (Some 1008%Z)]).
Proof.
  apply (unresolved_asset_closes_with_1008 (streams := spec_stream)
           Samples.unresolved_connection Samples.write_AAAA);
    [reflexivity | discriminate].
Defined.

(** C9, as stated, fails: [except Exception] (line 290) does not catch
    an exception that is not an [Exception].  When the read is interrupted
    after one chunk ([KeyboardInterrupt]), or the append or the finalize
    ends by a [CancelledError], nothing is logged, no empty frame is sent,
    the connection is not closed, and the exception leaves the handler. *)
Lemma interruption_leaves_the_handler :
  _respond_to_event (streams := Samples.interrupted_stream) (Some (b "read"))
    Samples.broken_connection =
    (Raised (Exception "KeyboardInterrupt" ""), Samples.broken_connection,
     [send (bytes_data (b "x"))]) /\
  _respond_to_event (streams := Samples.interrupted_stream) (Some Samples.write_AAAA)
    Samples.broken_connection =
    (Raised CancelledError, Samples.broken_connection, []) /\
  _respond_to_event (streams := Samples.interrupted_stream) (Some Samples.write_end)
    Samples.broken_connection =
    (Raised CancelledError, Samples.broken_connection, []).
Proof. repeat split; reflexivity. Qed.

(** C9 (amended): on a connection whose asset resolved, over any storage,
    an exception of class [Exception] raised by the read (after any number
    of chunks), by the append or by the finalize is caught and logged, then
    an empty binary frame is sent, then the connection is closed; and
    whatever the frame and the storage do, no exception of class
    [Exception] leaves the handler. *)
Theorem storage_failure_is_logged_signalled_and_closed
    {storage : Type} {streams : AssetStream storage} (s : self storage) asset :
  _asset s = Some asset ->
  (forall received before e rest,
     is_exception e = true ->
     first_chunk (split received) = b "read" ->
     read_async (Some asset) 0 (assets s) = map next_chunk before ++ read_raises e :: rest ->
     _respond_to_event (Some received) s =
       (Normal tt, s,
        map (fun chunk => send (bytes_data chunk)) before ++
          [logger_exception (str e); send (bytes_data []); close None])) /\
  (forall received e,
     is_exception e = true ->
     first_chunk (split received) = b "write" ->
     received <> b "write" ++ [LF] ->
     append_chunk (Some asset) (slice_from 6 received) (assets s) = inl e ->
     _respond_to_event (Some received) s =
       (Normal tt, s, [logger_exception (str e); send (bytes_data []); close None])) /\
  (forall e,
     is_exception e = true ->
     finalize (Some asset) (assets s) = inl e ->
     _respond_to_event (Some (b "write" ++ [LF])) s =
       (Normal tt, s, [logger_exception (str e); send (bytes_data []); close None])) /\
  (forall data e,
     outcome_of (_respond_to_event data s) = Raised e -> is_exception e = false).
Proof.
  intros Ha. repeat split.
  - intros received before e rest He Hev Hr.
    rewrite (read_failure s asset received before e rest Ha Hev Hr), He. reflexivity.
  - intros received e He Hev Hne Hr.
    rewrite (append_failure s asset received e Ha Hev Hne Hr), He. reflexivity.
  - intros e He Hr. rewrite (finalize_failure s asset e Ha Hr), He. reflexivity.
  - intros data e Ho. pose proof (respond_raises_no_exception data s) as H.
    rewrite Ho in H. exact H.
Qed.

Lemma storage_failure_witness :
  _respond_to_event (streams := Samples.broken_stream) (Some (b "read"))
    Samples.broken_connection =
    (Normal tt, Samples.broken_connection,
     [send (bytes_data (b "x")); logger_exception "read failed";
      send (bytes_data []); close None]) /\
  _respond_to_event (streams := Samples.broken_stream) (Some Samples.write_AAAA)
    Samples.broken_connection =
    (Normal tt, Samples.broken_connection,
     [logger_exception "append failed"; send (bytes_data []); close None]) /\
  _respond_to_event (streams := Samples.broken_stream) (Some Samples.write_end)
    Samples.broken_connection =
    (Normal tt, Samples.broken_connection,
     [logger_exception "finalize failed"; send (bytes_data []); close None]).
Proof.
  destruct (storage_failure_is_logged_signalled_and_closed
              (streams := Samples.broken_stream)
              Samples.broken_connection Samples.the_asset eq_refl)
    as (Hread & Happend & Hfinalize & _).
  split; [|split].
  - apply (Hread (b "read") [b "x"] (Exception "OSError" "read failed") []); reflexivity.
  - apply (Happend Samples.write_AAAA (Exception "OSError" "append failed"));
      [reflexivity | reflexivity | discriminate | reflexivity].
  - apply (Hfinalize (Exception "OSError" "finalize failed")); reflexivity.
Defined.

End AssetStreamClaims.

(** ** Claim on [ConnectionConsumer]: the terminate input *)

Module ConnectionClaims.
Import ConnectionConsumer MonadFacts.

(** On a session with an actor, the terminate input is handed to the
    actor and nothing else happens: [disconnect(1000)] is called without
    [await], so the actor is not stopped, the activation task is not
    cancelled and nothing is closed. *)
Lemma terminate_only_delivers s new_task :
  connection_activation_actor s = true ->
  receive Samples.terminate_frame new_task s =
    (Normal tt, s, [actor_input (JStr "terminate")]).
Proof.
  intros Hs. unfold receive, Samples.terminate_frame, actor_call.
  mcbv. simpl. rewrite Hs. reflexivity.
Qed.

(** C6 (the code at the failing input): the client sends
    [{"event":"activate"}], the actor gives an output, the client sends
    [{"event":"input","input":"terminate"}], and the actor then gives an
    active connection.  The terminate input reaches the actor, but the
    session does not disconnect: nothing is closed, the task is not
    cancelled and still iterates, and the frame [{"event":"success"}] is
    sent after the terminate input was accepted. *)
Theorem terminate_does_not_disconnect :
  exec [Receive Samples.activate_frame 1;
        Activation (actor_yields (activation_output (JStr "open the consent page")));
        Receive Samples.terminate_frame 2;
        Activation (actor_yields (connection_object {| status := ACTIVE; fields := JNull |}))]
    Samples.activation_session =
    ({| user_is_anonymous := false;
        _activation_task := Some {| task := 1; state := pending |};
        connection_activation_actor := true |},
     [create_task 1;
      actor_activate;
      send (text_data (json_dumps (JObj [
        ("event", JStr "output"); ("output", JStr "open the consent page")])));
      actor_input (JStr "terminate");
      actor_set_connection (inl {| status := ACTIVE; fields := JNull |});
      send (text_data (json_dumps (JObj [("event", JStr "success")])));
      actor_stop]) /\
  closes (snd (exec [Receive Samples.activate_frame 1;
                     Receive Samples.terminate_frame 2]
                 Samples.activation_session)) = [].
Proof. split; reflexivity. Qed.

End ConnectionClaims.

(** ** Claim on [TwilioVoiceConsumer]: the media event *)

Module TwilioClaims.
Import TwilioVoiceConsumer MonadFacts.

Section Media.
Context {storage : Type} {streams : AssetStream storage}
        {audio : Audio} {resolver : Resolver}.

(** A [media] event runs the [media] branch and nothing else. *)
Lemma respond_media (s : self storage) json_data items new_task :
  event_is json_data "media" = true ->
  _respond_to_event json_data items new_task s = def (media json_data) s.
Proof.
  intros Hev. unfold event_is in Hev. destruct json_data; try discriminate.
  apply eq_str_true in Hev.
  unfold _respond_to_event. mcbv. rewrite Hev.
  change (eq_str (JStr "media") "start") with false.
  change (eq_str (JStr "media") "stop") with false.
  change (eq_str (JStr "media") "media") with true.
  mcbv. destruct (media (JObj items0) s) as [[o s1] w]. destruct o; reflexivity.
Qed.

End Media.

(** C7, as stated, fails on two kinds of [media] events.  A [media]
    event whose [media] field is not an object (a string, here) makes
    [json_data.get("media", {}).get("payload", "")] (line 583) raise an
    [AttributeError], which is outside the [try] and leaves the handler:
    the frame is not silently dropped.  And a payload that is not empty but
    that [b64decode] refuses (a number, here), on a session with an input
    audio stream, is not appended: the exception is logged and the stream
    is as it was. *)
Lemma media_event_raises_or_is_not_appended :
  _respond_to_event (streams := spec_stream) (audio := Samples.audio)
    (resolver := Samples.resolver)
    (JObj [("event", JStr "media"); ("media", JStr "x")]) [] 0 Samples.call_session =
    (Raised (AttributeError "'str' object has no attribute 'get'"),
     Samples.call_session, []) /\
  _respond_to_event (streams := spec_stream) (audio := Samples.audio)
    (resolver := Samples.resolver)
    (JObj [("event", JStr "media"); ("media", JObj [("payload", JNum 5)])]) [] 0
    Samples.call_session =
    (Normal tt, Samples.call_session,
     [logger_exception
        "Error converting audio format: argument should be a bytes-like object or ASCII string"]).
Proof. split; reflexivity. Qed.

(** C7 (amended): for every telephony [media] event whose [media] field is
    absent or an object: when the payload is not empty and an input audio
    stream is attached, the payload is base64-decoded, the result converted
    from u-law to 16-bit linear PCM ([ulaw2lin] with width 2), the result
    resampled from 8000 Hz to 24000 Hz ([ratecv] with width 2, one channel,
    no state), and the resampled bytes appended to the input audio stream
    as one chunk: the session holds the storage that append gave, every
    other attribute is as it was, and no frame is sent; when one of these
    calls raises an exception of class [Exception], it is logged and the
    session is as it was; when the payload is empty or no input audio
    stream is attached, the event is dropped: the session is as it was,
    nothing is sent and no exception leaves the handler.  A [media] event
    whose [media] field is any other value ends the handler with the
    [AttributeError] of line 583, with nothing appended or sent. *)
Theorem media_is_transcoded_or_dropped
    {storage : Type} {streams : AssetStream storage} {audio : Audio} {resolver : Resolver}
    (s : self storage) json_data items new_task :
  event_is json_data "media" = true ->
  (forall m,
     field json_data "media" (JObj []) = JObj m ->
     (forall input_audio_stream pcm_upsampled store,
        truthy (field (JObj m) "payload" (JStr "")) = true ->
        _input_audio_stream s = Some input_audio_stream ->
        upsampled (field (JObj m) "payload" (JStr "")) = inr pcm_upsampled ->
        append_chunk input_audio_stream pcm_upsampled (assets s) = inr store ->
        _respond_to_event json_data items new_task s =
          (Normal tt,
           {| _session_id := _session_id s;
              _stream_sid := _stream_sid s;
              _input_audio_stream := Some input_audio_stream;
              _output_audio_task := _output_audio_task s;
              _app_runner := _app_runner s;
              _connected := _connected s;
              assets := store |},
           [])) /\
     (forall input_audio_stream e,
        truthy (field (JObj m) "payload" (JStr "")) = true ->
        _input_audio_stream s = Some input_audio_stream ->
        upsampled (field (JObj m) "payload" (JStr "")) = inl e \/
        (exists pcm_upsampled,
           upsampled (field (JObj m) "payload" (JStr "")) = inr pcm_upsampled /\
           append_chunk input_audio_stream pcm_upsampled (assets s) = inl e) ->
        is_exception e = true ->
        _respond_to_event json_data items new_task s =
          (Normal tt, s,
           [logger_exception ("Error converting audio format: " ++ str e)])) /\
     (truthy (field (JObj m) "payload" (JStr "")) = false \/ _input_audio_stream s = None ->
      _respond_to_event json_data items new_task s = (Normal tt, s, []))) /\
  ((forall m, field json_data "media" (JObj []) <> JObj m) ->
   _respond_to_event json_data items new_task s =
     (Raised (AttributeError
                ("'" ++ type_name (field json_data "media" (JObj []))
                     ++ "' object has no attribute 'get'")),
      s, [])).
Proof.
  intros Hev. rewrite respond_media by exact Hev.
  destruct json_data as [| | | | |top]; try discriminate.
  unfold media, call. split.
  - intros m Hm. set (payload := field (JObj m) "payload" (JStr "")).
    split; [|split].
    + intros stream up store Ht Hs Hu Ha. unfold upsampled in Hu.
      mcbv. rewrite Hm. mcbv. fold payload. rewrite Ht, Hs. mcbv.
      destruct (b64decode payload) as [|ulaw]; [discriminate|]. mcbv.
      destruct (ulaw2lin ulaw 2) as [|pcm]; [discriminate|]. mcbv.
      destruct (ratecv pcm 2 1 8000 24000 None) as [|[up' st]]; [discriminate|].
      injection Hu as <-. mcbv. cbn [fst]. rewrite Ha. mcbv.
      unfold set_assets. rewrite Hs. reflexivity.
    + intros stream e Ht Hs Hf He. unfold upsampled in Hf.
      mcbv. rewrite Hm. mcbv. fold payload. rewrite Ht, Hs. mcbv.
      destruct (b64decode payload) as [e1|ulaw].
      { destruct Hf as [[= ->]|(up & [=] & _)]. rewrite He. reflexivity. }
      mcbv. destruct (ulaw2lin ulaw 2) as [e2|pcm].
      { destruct Hf as [[= ->]|(up & [=] & _)]. rewrite He. reflexivity. }
      mcbv. destruct (ratecv pcm 2 1 8000 24000 None) as [e3|[up' st]].
      { destruct Hf as [[= ->]|(up & [=] & _)]. rewrite He. reflexivity. }
      destruct Hf as [[=]|(up & [= <-] & Ha)].
      mcbv. cbn [fst]. rewrite Ha, He. reflexivity.
    + intros [Ht|Hs]; mcbv; rewrite Hm; mcbv; fold payload.
      * rewrite Ht. reflexivity.
      * rewrite Hs. destruct (truthy payload); reflexivity.
  - intros Hno. mcbv.
    destruct (field (JObj top) "media" (JObj [])) as [| | | | |m]; try reflexivity.
    exfalso. exact (Hno m eq_refl).
Qed.

Lemma media_witness :
  _respond_to_event (streams := spec_stream) (audio := Samples.audio)
    (resolver := Samples.resolver) Samples.media_frame [] 0 Samples.call_session =
    (Normal tt,
     {| _session_id := "session";
        _stream_sid := Some (JStr "MZ1");
        _input_audio_stream := Some (Some Samples.the_asset);
        _output_audio_task := None;
        _app_runner := Some 1;
        _connected := true;
        assets := <[objref Samples.the_asset :=
                      {| chunks := [b "/v8="]; finalized := false |}]> ∅ |},
     []) /\
  _respond_to_event (streams := spec_stream) (audio := Samples.audio)
    (resolver := Samples.resolver) Samples.media_frame [] 0
    (set_input_audio_stream None Samples.call_session) =
    (Normal tt, set_input_audio_stream None Samples.call_session, []).
Proof.
  split.
  - apply (proj1 (proj1 (media_is_transcoded_or_dropped
                           (streams := spec_stream) (audio := Samples.audio)
                           (resolver := Samples.resolver)
                           Samples.call_session Samples.media_frame [] 0 eq_refl)
                    [("payload", JStr "/v8=")] eq_refl)
             (Some Samples.the_asset) (b "/v8=")
             (<[objref Samples.the_asset :=
                  {| chunks := [b "/v8="]; finalized := false |}]> ∅));
      reflexivity.
  - apply (proj2 (proj2 (proj1 (media_is_transcoded_or_dropped
                                  (streams := spec_stream) (audio := Samples.audio)
                                  (resolver := Samples.resolver)
                                  (set_input_audio_stream None Samples.call_session)
                                  Samples.media_frame [] 0 eq_refl)
                           [("payload", JStr "/v8=")] eq_refl))).
    right. reflexivity.
Defined.

End TwilioClaims.

(** ** [AppConsumer]: the other events *)

(** ** More on [AppConsumer] *)

Module AppConsumerMore.
Import AppConsumer MonadFacts AppConsumerFacts AppConsumerHandler.

Section Handler.
Context {files : AppSessionFiles}.

(** What the handler does on a [stop] event. *)
Lemma respond_stop json_data ticks s :
  event_is json_data "stop" = true ->
  _respond_to_event json_data ticks s =
    (Normal tt, set_connected false s,
     match _event_response_task s with
     | Some t => [task_cancel t]
     | None => []
     end ++ [close None]).
Proof.
  intros Hev. apply event_is_dict in Hev as [[items ->] Hev]. apply eq_str_true in Hev.
  unfold _respond_to_event, stop. mcbv. rewrite Hev.
  change (eq_str (JStr "stop") "run") with false.
  change (eq_str (JStr "stop") "create_asset") with false.
  change (eq_str (JStr "stop") "delete_asset") with false.
  change (eq_str (JStr "stop") "stop") with true.
  mcbv. simpl. destruct (_event_response_task s); reflexivity.
Qed.

(** The three ways the body of [create_asset] ends. *)
Lemma create_asset_body_cases json_data rid s :
  (exists e, create_asset_body json_data rid s = (Raised e, s, [])) \/
  create_asset_body json_data rid s =
    (Returned, s, [send (Frames.asset_failed "Failed to create asset" rid)]) \/
  (exists objref,
     create_asset_body json_data rid s =
       (Normal tt, s,
        [send (text_data (json_dumps (JObj [
           ("asset", JStr objref); ("reply_to", rid);
           ("request_id", rid); ("asset_request_id", rid)])))])).
Proof.
  unfold create_asset_body, get_app_id, get_username.
  destruct json_data; mcbv; try (left; eexists; reflexivity).
  destruct (field (JObj items) "data" (JObj [])); mcbv; try (left; eexists; reflexivity).
  destruct (app_id s); mcbv; try (left; eexists; reflexivity).
  destruct (_user s) as [u|]; mcbv;
    [destruct (is_anonymous u); mcbv|];
    try (destruct (_session s) as [[]|]; mcbv);
    try (left; eexists; reflexivity);
    match goal with
    | |- context [create_asset ?m ?i ?g] =>
        destruct (create_asset m i g) as [e'|[a|]]; simpl;
        [ left; eexists; reflexivity
        | right; right; eexists; reflexivity
        | right; left; reflexivity ]
    end.
Qed.

(** What the handler does on a [create_asset] event, by the way the body
    ends. *)
Lemma respond_create_asset json_data ticks s :
  event_is json_data "create_asset" = true ->
  _respond_to_event json_data ticks s =
    match create_asset_body json_data (field json_data "id" JNull) s with
    | (Raised e, s1, w1) =>
        if is_exception e then
          (Normal tt, s1,
           w1 ++ [logger_exception (str e);
                  send (Frames.asset_failed (str e) (field json_data "id" JNull))])
        else (Raised e, s1, w1)
    | (_, s1, w1) => (Normal tt, s1, w1)
    end.
Proof.
  intros Hev. apply event_is_dict in Hev as [[items ->] Hev]. apply eq_str_true in Hev.
  unfold _respond_to_event. mcbv. rewrite Hev.
  change (eq_str (JStr "create_asset") "run") with false.
  change (eq_str (JStr "create_asset") "create_asset") with true.
  change (eq_str (JStr "create_asset") "delete_asset") with false.
  change (eq_str (JStr "create_asset") "stop") with false.
  mcbv.
  destruct (create_asset_body (JObj items) (field (JObj items) "id" JNull) s)
    as [[o s1] w1].
  destruct o as [[]|e|]; try destruct (is_exception e); simpl; rewrite ?app_nil_r;
    reflexivity.
Qed.

(** An exception of the body that is not an [Exception] comes from
    [AppSessionFiles.create_asset], which is called only on a session
    that has an [app_id]. *)
Lemma create_asset_body_exception json_data rid s e :
  create_asset_body json_data rid s = (Raised e, s, []) ->
  is_exception e = true \/
  (app_id s <> None /\ exists m i g, create_asset m i g = inl e).
Proof.
  unfold create_asset_body, get_app_id, get_username.
  destruct json_data; mcbv; try (intros [= <-]; left; reflexivity).
  destruct (field (JObj items) "data" (JObj [])); mcbv;
    try (intros [= <-]; left; reflexivity).
  destruct (app_id s) as [v|]; mcbv; try (intros [= <-]; left; reflexivity).
  destruct (_user s) as [u|]; mcbv;
    [destruct (is_anonymous u); mcbv|];
    try (destruct (_session s) as [[]|]; mcbv);
    try (intros [= <-]; left; reflexivity);
    match goal with
    | |- context [create_asset ?m ?i ?g] =>
        destruct (create_asset m i g) as [e'|[a|]] eqn:E; simpl;
        try discriminate;
        intros [= <-]; right; split; [discriminate | eauto]
    end.
Qed.

End Handler.

(** X1: a [stop] event sets the liveness flag to false, cancels the task
    the session holds, if any, and closes the connection, whatever the
    session was; and on the session it leaves, no [run] event sends a
    frame, whatever its iterator gives. *)
Theorem stop_event_closes_and_silences
    {files : AppSessionFiles} json_data ticks s :
  event_is json_data "stop" = true ->
  _respond_to_event json_data ticks s =
    (Normal tt, set_connected false s,
     match _event_response_task s with
     | Some t => [task_cancel t]
     | None => []
     end ++ [close None]) /\
  (forall run_event run_ticks,
     event_is run_event "run" = true ->
     sent (effects_of (_respond_to_event run_event run_ticks (set_connected false s))) = []).
Proof.
  intros Hev. split; [apply respond_stop; exact Hev|].
  intros run_event run_ticks Hrun. rewrite respond_run by exact Hrun.
  destruct (_app_runner (set_connected false s)) as [h|]; [|reflexivity].
  cbn [effects_of snd sent]. rewrite sent_app, sent_failed_to_run, app_nil_r.
  apply dispatch_not_connected. reflexivity.
Qed.

Lemma stop_event_witness :
  _respond_to_event (files := Samples.files) (JObj [("event", JStr "stop")]) []
    Samples.web_session =
    (Normal tt, set_connected false Samples.web_session, [close None]) /\
  sent (effects_of (_respond_to_event (files := Samples.files) Samples.run_r1
                      [live Samples.chunk_h; live stream_end]
                      (set_connected false Samples.web_session))) = [].
Proof.
  destruct (stop_event_closes_and_silences (files := Samples.files)
              (JObj [("event", JStr "stop")]) [] Samples.web_session eq_refl)
    as [H1 H2].
  split; [exact H1 | apply H2; reflexivity].
Defined.

(** X2: a frame that is a JSON object whose event is none of [run],
    [create_asset] and [stop] (an unknown event, no event at all, or
    [delete_asset]) is accepted and does nothing: no effect, the session as
    it was, no exception.  A frame that is not a JSON object raises, out
    of the handler and before anything is done, the [AttributeError] of
    [json_data.get], whose message names the type of the value:
    ['list' object has no attribute 'get'] for a JSON array. *)
Theorem other_events_do_nothing {files : AppSessionFiles} json_data ticks s :
  ((exists items, json_data = JObj items) ->
   event_is json_data "run" = false ->
   event_is json_data "create_asset" = false ->
   event_is json_data "stop" = false ->
   _respond_to_event json_data ticks s = (Normal tt, s, [])) /\
  ((forall items, json_data <> JObj items) ->
   _respond_to_event json_data ticks s =
     (Raised (AttributeError
                ("'" ++ type_name json_data ++ "' object has no attribute 'get'")),
      s, [])).
Proof.
  split.
  - intros [items ->] Hrun Hcreate Hstop. unfold event_is in *.
    unfold _respond_to_event. mcbv. rewrite Hrun, Hcreate, Hstop.
    destruct (eq_str (field (JObj items) "event" JNull) "delete_asset"); mcbv;
      [destruct (String.eqb (_session_id s) "")|]; reflexivity.
  - intros Hno. destruct json_data; try reflexivity.
    exfalso. eapply Hno. reflexivity.
Qed.

Lemma other_events_witness :
  _respond_to_event (files := Samples.files)
    (JObj [("event", JStr "delete_asset"); ("id", JStr "d1")]) [] Samples.web_session =
    (Normal tt, Samples.web_session, []) /\
  _respond_to_event (files := Samples.files) (JArr []) [] Samples.web_session =
    (Raised (AttributeError "'list' object has no attribute 'get'"),
     Samples.web_session, []).
Proof.
  split.
  - apply (proj1 (other_events_do_nothing (files := Samples.files)
                    (JObj [("event", JStr "delete_asset"); ("id", JStr "d1")]) []
                    Samples.web_session));
      [eexists; reflexivity | reflexivity | reflexivity | reflexivity].
  - apply (proj2 (other_events_do_nothing (files := Samples.files) (JArr []) []
                    Samples.web_session)).
    intros items. discriminate.
Defined.

(** X3: a [create_asset] event is answered by exactly one frame, which
    carries the event's id as [reply_to], [request_id] and
    [asset_request_id] and whose first field is the created asset's
    reference ([asset]) or a list with one message ([errors]); the
    session's attributes are as they were and no exception leaves the
    handler.  This holds on every session without an [app_id] attribute
    (no method of the class assigns it), whatever
    [AppSessionFiles.create_asset] would do, and on every session when
    [AppSessionFiles.create_asset] raises nothing but exceptions of class
    [Exception].  When the body ends by an exception that is not an
    [Exception] (a cancellation at the [await] of line 197), [except
    Exception] does not catch it: it leaves the handler, and nothing is
    logged or sent. *)
Theorem create_asset_answers_once {files : AppSessionFiles} json_data ticks s :
  event_is json_data "create_asset" = true ->
  (app_id s = None \/
   (forall m i g e, create_asset m i g = inl e -> is_exception e = true) ->
   exists key value,
     (key = "asset" /\ (exists objref, value = JStr objref) \/
      key = "errors" /\ (exists msg, value = JArr [JStr msg])) /\
     sent (effects_of (_respond_to_event json_data ticks s)) =
       [text_data (json_dumps (JObj [
          (key, value);
          ("reply_to", field json_data "id" JNull);
          ("request_id", field json_data "id" JNull);
          ("asset_request_id", field json_data "id" JNull)]))] /\
     state_of (_respond_to_event json_data ticks s) = s /\
     outcome_of (_respond_to_event json_data ticks s) = Normal tt) /\
  (forall e,
     outcome_of (create_asset_body json_data (field json_data "id" JNull) s) = Raised e ->
     is_exception e = false ->
     _respond_to_event json_data ticks s = (Raised e, s, [])).
Proof.
  intros Hev. split.
  - intros Hfiles. rewrite respond_create_asset by exact Hev.
    destruct (create_asset_body_cases json_data (field json_data "id" JNull) s)
      as [[e He]|[->|[objref ->]]].
    + assert (Hx : is_exception e = true).
      { destruct (create_asset_body_exception _ _ _ _ He) as [H|[Hid (m & i & g & Hc)]];
          [exact H|].
        destruct Hfiles as [Hnone|Hall]; [contradiction | eapply Hall; exact Hc]. }
      rewrite He, Hx.
      exists "errors", (JArr [JStr (str e)]). split; [right; eauto|]. repeat split.
    + exists "errors", (JArr [JStr "Failed to create asset"]). split; [right; eauto|].
      repeat split.
    + exists "asset", (JStr objref). split; [left; eauto|]. repeat split.
  - intros e He Hx.
    rewrite (respond_create_asset_raised json_data ticks s e Hev He), Hx. reflexivity.
Qed.

Lemma create_asset_witness :
  exists key value,
    (key = "asset" /\ (exists objref, value = JStr objref) \/
     key = "errors" /\ (exists msg, value = JArr [JStr msg])) /\
    sent (effects_of (_respond_to_event (files := Samples.files) Samples.create_asset_a1 []
                        Samples.web_session)) =
      [text_data (json_dumps (JObj [
         (key, value);
         ("reply_to", field Samples.create_asset_a1 "id" JNull);
         ("request_id", field Samples.create_asset_a1 "id" JNull);
         ("asset_request_id", field Samples.create_asset_a1 "id" JNull)]))] /\
    state_of (_respond_to_event (files := Samples.files) Samples.create_asset_a1 []
                Samples.web_session) = Samples.web_session /\
    outcome_of (_respond_to_event (files := Samples.files) Samples.create_asset_a1 []
                  Samples.web_session) = Normal tt.
Proof.
  apply (proj1 (create_asset_answers_once (files := Samples.files) Samples.create_asset_a1 []
                  Samples.web_session eq_refl)).
  left. reflexivity.
Defined.

Lemma web_frames rid response s :
  sent (effects_of (forward rid response s)) = RunFrames.web rid response.
Proof.
  destruct response; simpl; unfold Frames.error; rewrite ?map_map; reflexivity.
Qed.

(** X4: on a live session with a runner, a [run] event whose iterator
    gives the responses [rs] sends, in the engine's order, the chunk as it
    is for a stream chunk, the error frame for [ERRORS], the done frame for
    [OUTPUT_STREAM_END], and nothing for a complete [OUTPUT] or any other
    variant; so the frames of a sequence are the frames of its first part
    followed by the frames of the rest. *)
Theorem run_forwards_in_order {files : AppSessionFiles} json_data rs s h :
  event_is json_data "run" = true ->
  _connected s = true ->
  _app_runner s = Some h ->
  sent (effects_of (_respond_to_event json_data (map live rs) s)) =
    flat_map (RunFrames.web (field json_data "id" JNull)) rs /\
  (forall rs1 rs2,
     rs = rs1 ++ rs2 ->
     sent (effects_of (_respond_to_event json_data (map live rs) s)) =
       sent (effects_of (_respond_to_event json_data (map live rs1) s)) ++
       sent (effects_of (_respond_to_event json_data (map live rs2) s))).
Proof.
  intros Hev Hc Hr.
  assert (H : forall l, sent (effects_of (_respond_to_event json_data (map live l) s)) =
                        flat_map (RunFrames.web (field json_data "id" JNull)) l).
  { intros l. rewrite (respond_run_live json_data l s h) by assumption.
    cbn [effects_of snd sent].
    induction l as [|r l IH]; [reflexivity|].
    simpl. rewrite sent_app, IH, web_frames. reflexivity. }
  split; [apply H|].
  intros rs1 rs2 ->. rewrite !H. apply flat_map_app.
Qed.

Lemma run_forwards_witness :
  sent (effects_of (_respond_to_event (files := Samples.files) Samples.run_r1
                      (map live [Samples.chunk_h; output (JStr "whole"); Samples.boom])
                      Samples.web_session)) =
    flat_map (RunFrames.web (field Samples.run_r1 "id" JNull))
      [Samples.chunk_h; output (JStr "whole"); Samples.boom].
Proof.
  apply (proj1 (run_forwards_in_order (files := Samples.files) Samples.run_r1
                  [Samples.chunk_h; output (JStr "whole"); Samples.boom]
                  Samples.web_session 1 eq_refl eq_refl eq_refl)).
Defined.

End AppConsumerMore.

(** ** [AssetStreamConsumer]: reading, and frames without an event *)

(** ** More on [AssetStreamConsumer] *)

Module AssetStreamMore.
Import AssetStreamConsumer MonadFacts AssetStreamFacts.

Lemma split_from_no_newline tag : forall cur rest,
  ~ In LF tag ->
  first_chunk (split_from cur (tag ++ LF :: rest)) = rev cur ++ tag /\
  first_chunk (split_from cur tag) = rev cur ++ tag.
Proof.
  induction tag as [|c tag IH]; intros cur rest Hno; simpl.
  - rewrite app_nil_r. split; reflexivity.
  - destruct (Byte.eqb c LF) eqn:E.
    + apply Byte.byte_dec_bl in E. exfalso. apply Hno. left. exact E.
    + destruct (IH (c :: cur) rest) as [H1 H2].
      { intros Hin. apply Hno. right. exact Hin. }
      rewrite H1, H2. simpl. rewrite <- !app_assoc. split; reflexivity.
Qed.

Section AnyStorage.
Context {storage : Type} {streams : AssetStream storage}.

Lemma forward_chunks_all cs (s : self storage) :
  forward_chunks (map next_chunk cs) s =
    (Normal tt, s, map (fun chunk => send (bytes_data chunk)) cs).
Proof.
  induction cs as [|chunk cs IH]; simpl; [reflexivity|].
  mcbv. rewrite IH. reflexivity.
Qed.

End AnyStorage.

(** X5: on a connection whose asset resolved, over any storage, a frame
    whose first line is [read] sends every chunk the stream gives, one
    binary frame per chunk, in the stream's order; when the stream ends
    without an exception nothing else happens: the connection is not
    closed and the storage is as it was. *)
Theorem read_forwards_every_chunk
    {storage : Type} {streams : AssetStream storage} (s : self storage)
    asset received cs :
  _asset s = Some asset ->
  first_chunk (split received) = b "read" ->
  read_async (Some asset) 0 (assets s) = map next_chunk cs ->
  _respond_to_event (Some received) s =
    (Normal tt, s, map (fun chunk => send (bytes_data chunk)) cs).
Proof.
  intros Ha Hev Hr. unfold _respond_to_event.
  destruct received as [|c rest]; [discriminate|].
  mcbv. rewrite Ha, Hev, Hr.
  change (bytes_eqb (b "read") (b "read")) with true.
  change (bytes_eqb (b "read") (b "write")) with false.
  mcbv. rewrite forward_chunks_all. simpl. rewrite !app_nil_r. reflexivity.
Qed.

Lemma read_forwards_witness :
  _respond_to_event (streams := spec_stream) (Some (b "read"))
    (set_assets (<[objref Samples.the_asset :=
                     {| chunks := [b "AAAA"; b "BB"]; finalized := true |}]> ∅)
       Samples.asset_connection) =
    (Normal tt,
     set_assets (<[objref Samples.the_asset :=
                     {| chunks := [b "AAAA"; b "BB"]; finalized := true |}]> ∅)
       Samples.asset_connection,
     map (fun chunk => send (bytes_data chunk)) [b "AAAA"; b "BB"]).
Proof.
  apply (read_forwards_every_chunk (streams := spec_stream) _ Samples.the_asset
           (b "read") [b "AAAA"; b "BB"]); reflexivity.
Defined.

(** X6: a frame with no binary part, an empty binary frame, and, on a
    connection whose asset resolved, a frame whose first line is neither
    [read] nor [write], do nothing: nothing is sent, nothing is closed, the
    storage is as it was. *)
Theorem frames_without_event_do_nothing
    {storage : Type} {streams : AssetStream storage} (s : self storage) :
  _respond_to_event None s = (Normal tt, s, []) /\
  _respond_to_event (Some []) s = (Normal tt, s, []) /\
  (forall asset received,
     _asset s = Some asset ->
     received <> [] ->
     first_chunk (split received) <> b "read" ->
     first_chunk (split received) <> b "write" ->
     _respond_to_event (Some received) s = (Normal tt, s, [])).
Proof.
  split; [reflexivity | split; [reflexivity|]].
  intros asset received Ha Hne Hr Hw. unfold _respond_to_event.
  destruct received as [|c rest]; [congruence|].
  mcbv. rewrite Ha, (bytes_eqb_neq _ _ Hr), (bytes_eqb_neq _ _ Hw). reflexivity.
Qed.

Lemma frames_without_event_witness :
  _respond_to_event (streams := spec_stream) (Some (b "delete" ++ LF :: b "x"))
    Samples.asset_connection = (Normal tt, Samples.asset_connection, []).
Proof.
  apply (proj2 (proj2 (frames_without_event_do_nothing (streams := spec_stream)
                         Samples.asset_connection))
           Samples.the_asset (b "delete" ++ LF :: b "x"));
    [reflexivity | discriminate | discriminate | discriminate].
Defined.

(** X7: the event of a binary frame is what stands before its first
    newline byte, and the whole frame when it has none: for a [tag] without
    a newline byte, the frames [tag], [tag + b"\n"] and [tag + b"\n" + rest]
    all have the event [tag], whatever [rest] is (other newline bytes
    included). *)
Theorem event_is_first_line tag :
  ~ In LF tag ->
  first_chunk (split tag) = tag /\
  (forall rest, first_chunk (split (tag ++ LF :: rest)) = tag).
Proof.
  intros Hno. split.
  - apply (split_from_no_newline tag [] [] Hno).
  - intros rest. apply (split_from_no_newline tag [] rest Hno).
Qed.

Lemma event_is_first_line_witness :
  first_chunk (split (b "write")) = b "write" /\
  first_chunk (split (b "write" ++ LF :: b "a" ++ LF :: b "b")) = b "write".
Proof.
  assert (Hno : ~ In LF (b "write")).
  { simpl. intros [H|[H|[H|[H|[H|[]]]]]]; discriminate. }
  split.
  - apply (proj1 (event_is_first_line (b "write") Hno)).
  - apply (proj2 (event_is_first_line (b "write") Hno) (b "a" ++ LF :: b "b")).
Defined.

End AssetStreamMore.

(** ** [ConnectionConsumer]: [connect], [disconnect] and the activation task *)

(** ** More on [ConnectionConsumer] *)

Module ConnectionMore.
Import ConnectionConsumer ConnectionLifecycle MonadFacts.

Lemma actor_calls_app (w1 w2 : list effect) :
  actor_calls (w1 ++ w2) = actor_calls w1 ++ actor_calls w2.
Proof.
  induction w1 as [|e w1 IH]; simpl; [reflexivity|].
  destruct e; simpl; rewrite ?IH; reflexivity.
Qed.

Lemma closes_app (w1 w2 : list effect) : closes (w1 ++ w2) = closes w1 ++ closes w2.
Proof.
  induction w1 as [|e w1 IH]; simpl; [reflexivity|].
  destruct e; simpl; rewrite ?IH; reflexivity.
Qed.

(** Without an actor, a handler sends nothing, calls no actor, and leaves
    the session without an actor. *)
Lemma handle_event_without_actor ev s :
  no_actor s ->
  sent (effects_of (handle_event ev s)) = [] /\
  actor_calls (effects_of (handle_event ev s)) = [] /\
  no_actor (state_of (handle_event ev s)).
Proof.
  intros [Hs Hp]. unfold no_actor.
  destruct ev as [json_data new_task|step|close_code]; cbn [handle_event].
  - unfold receive, actor_call. destruct json_data; mcbv; auto.
    repeat (match goal with
            | |- context [if ?c then _ else _] => destruct c eqn:?
            end; mcbv; cbn [app]);
      repeat split; cbn [sent actor_calls app connection_activation_actor
                         _activation_task set_activation_task];
      auto; try congruence;
      try (cbn [connection_activation_actor set_activation_task] in *; congruence).
  - unfold _activate_connection_step, iterate, set_task_state, actor_call. mcbv.
    destruct (_activation_task s) as [[t st]|] eqn:Ht;
      [| cbn [fst snd app sent actor_calls]; repeat split; auto; rewrite Ht; congruence].
    cbn [state ConnectionConsumer.task].
    destruct st; [| exfalso; apply (Hp t); reflexivity | |];
      repeat (first [ rewrite Hs | rewrite Ht | progress mcbv
                    | progress cbn [connection_activation_actor _activation_task
                                    set_activation_task state ConnectionConsumer.task] ]);
      cbn [sent actor_calls app fst snd];
      repeat split; auto; try congruence;
      try (rewrite Ht; congruence).
  - unfold disconnect, actor_call. mcbv. rewrite Hs. mcbv. cbn [fst snd]. auto.
Qed.
Lemma exec_without_actor events : forall s,
  no_actor s ->
  sent (snd (exec events s)) = [] /\ actor_calls (snd (exec events s)) = [].
Proof.
  induction events as [|ev events IH]; intros s Hs; [split; reflexivity|].
  cbn [exec].
  destruct (handle_event_without_actor ev s Hs) as (H1 & H2 & H3).
  destruct (handle_event ev s) as [[o s1] w1].
  unfold effects_of, state_of in *; cbn [fst snd] in *.
  destruct (IH s1 H3) as [H4 H5].
  destruct (exec events s1) as [s2 w2]. cbn [fst snd] in *.
  rewrite sent_app, actor_calls_app, H1, H2, H4, H5. split; reflexivity.
Qed.

(** X8: [connect] for an anonymous user closes the connection without
    accepting it and starts no actor; on the session it leaves, whatever
    frames are received, whatever the activation task and the transport do,
    no frame is ever sent and no call reaches an actor. *)
Theorem anonymous_connection_is_refused events :
  snd (fst (connect true)) = [close None] /\
  snd (connect true) = false /\
  sent (snd (exec events (fst (fst (connect true))))) = [] /\
  actor_calls (snd (exec events (fst (fst (connect true))))) = [].
Proof.
  split; [reflexivity | split; [reflexivity|]].
  apply exec_without_actor. split; [reflexivity | intros t; discriminate].
Qed.

Lemma quiet_steps steps : forall s,
  quiet s -> exec (map Activation steps) s = (s, []).
Proof.
  induction steps as [|step steps IH]; intros s Hq; [reflexivity|].
  cbn [map exec handle_event]. unfold _activate_connection_step. mcbv.
  destruct (_activation_task s) as [[t st]|] eqn:Ht.
  - destruct st; cbn [state];
      try (exfalso; destruct (Hq t) as [H1 H2]; congruence);
      rewrite (IH s Hq); reflexivity.
  - rewrite (IH s Hq). reflexivity.
Qed.

Lemma disconnect_eq close_code s :
  connection_activation_actor s = true ->
  exists s1 w1,
    disconnect close_code s = (Normal tt, s1, actor_stop :: w1) /\
    quiet s1 /\ sent w1 = [] /\ closes w1 = [] /\ actor_calls w1 = [].
Proof.
  intros Hs. unfold disconnect, actor_call. mcbv. rewrite Hs. mcbv.
  destruct (_activation_task s) as [[t st]|] eqn:Ht.
  - destruct st; cbn [state ConnectionConsumer.task]; mcbv; cbn [app];
      eexists _, _; (split; [reflexivity|]);
      repeat split; cbn [_activation_task set_activation_task]; try rewrite Ht; congruence.
  - eexists _, _. split; [reflexivity|]. repeat split; try rewrite Ht; congruence.
Qed.

(** X9: when [disconnect] runs on a session with an actor, it stops the
    actor and requests the cancellation of an activation task that is not
    yet done; it closes nothing; and after it, whatever the actor's
    sequence still gives, the task sends no frame and makes no further call
    on the actor. *)
Theorem disconnect_stops_actor_and_silences_task s close_code steps :
  connection_activation_actor s = true ->
  sent (snd (exec (Disconnect close_code :: map Activation steps) s)) = [] /\
  closes (snd (exec (Disconnect close_code :: map Activation steps) s)) = [] /\
  actor_calls (snd (exec (Disconnect close_code :: map Activation steps) s)) = [actor_stop].
Proof.
  intros Hs. cbn [exec handle_event].
  destruct (disconnect_eq close_code s Hs) as (s1 & w1 & -> & Hq & H1 & H2 & H3).
  rewrite (quiet_steps steps s1 Hq). cbn [fst snd].
  rewrite app_nil_r. cbn [sent closes actor_calls]. rewrite H1, H2, H3. auto.
Qed.

Lemma disconnect_witness :
  sent (snd (exec (Disconnect 1001
                     :: map Activation [actor_yields (activation_output (JStr "late"))])
               (fst (exec [Receive Samples.activate_frame 1;
                           Activation (actor_yields (activation_output (JStr "first")))]
                       Samples.activation_session)))) = [] /\
  closes (snd (exec (Disconnect 1001
                       :: map Activation [actor_yields (activation_output (JStr "late"))])
                 (fst (exec [Receive Samples.activate_frame 1;
                             Activation (actor_yields (activation_output (JStr "first")))]
                         Samples.activation_session)))) = [] /\
  actor_calls
    (snd (exec (Disconnect 1001
                  :: map Activation [actor_yields (activation_output (JStr "late"))])
            (fst (exec [Receive Samples.activate_frame 1;
                        Activation (actor_yields (activation_output (JStr "first")))]
                    Samples.activation_session)))) = [actor_stop].
Proof.
  apply (disconnect_stops_actor_and_silences_task
           (fst (exec [Receive Samples.activate_frame 1;
                       Activation (actor_yields (activation_output (JStr "first")))]
                   Samples.activation_session))
           1001 [actor_yields (activation_output (JStr "late"))]).
  reflexivity.
Defined.

(** X10: when the actor's sequence raises while the activation task is in
    its loop.  An exception of class [Exception] is logged and the actor is
    stopped, no frame is sent, and the task is done.  An exception that is
    not an [Exception] (a [CancelledError], say) is not caught by [except
    Exception] (line 351): nothing is logged, the actor is not stopped, no
    frame is sent, and the task ends with it (cancelled for a
    [CancelledError], done otherwise).  Either way nothing the sequence
    would give afterwards has any effect. *)
Theorem actor_failure_ends_the_activation s t e steps :
  connection_activation_actor s = true ->
  _activation_task s = Some {| task := t; state := pending |} ->
  exec (Activation (actor_raises e) :: map Activation steps) s =
    if is_exception e then
      (set_activation_task (Some {| task := t; state := task_done |}) s,
       [logger_exception (str e); actor_stop])
    else
      (set_activation_task (Some {| task := t; state := ended_by e |}) s, []).
Proof.
  intros Hs Ht. cbn [exec handle_event].
  unfold _activate_connection_step, iterate, set_task_state, actor_call.
  mcbv. rewrite Ht. cbn [state ConnectionConsumer.task].
  destruct (is_exception e) eqn:He; mcbv; rewrite ?He, ?Ht; mcbv; rewrite ?He, ?Ht; mcbv.
  - cbn [connection_activation_actor set_activation_task ConnectionConsumer.task].
    rewrite Hs. mcbv.
    rewrite quiet_steps; [reflexivity|].
    intros t'. cbn [_activation_task set_activation_task]. split; congruence.
  - cbn [ConnectionConsumer.task].
    rewrite quiet_steps; [reflexivity|].
    intros t'. cbn [_activation_task set_activation_task]. unfold ended_by.
    destruct (String.eqb (exn_class e) "CancelledError"); split; congruence.
Qed.

Lemma actor_failure_witness :
  exec (Activation (actor_raises (Exception "RuntimeError" "provider unreachable"))
          :: map Activation [actor_yields (activation_output (JStr "late"))])
    (set_activation_task (Some {| task := 1; state := pending |}) Samples.activation_session) =
    (set_activation_task (Some {| task := 1; state := task_done |})
       (set_activation_task (Some {| task := 1; state := pending |})
          Samples.activation_session),
     [logger_exception "provider unreachable"; actor_stop]) /\
  exec (Activation (actor_raises CancelledError)
          :: map Activation [actor_yields (activation_output (JStr "late"))])
    (set_activation_task (Some {| task := 1; state := pending |}) Samples.activation_session) =
    (set_activation_task (Some {| task := 1; state := task_cancelled |})
       (set_activation_task (Some {| task := 1; state := pending |})
          Samples.activation_session),
     []).
Proof.
  split.
  - exact (actor_failure_ends_the_activation
             (set_activation_task (Some {| task := 1; state := pending |})
                Samples.activation_session)
             1 (Exception "RuntimeError" "provider unreachable")
             [actor_yields (activation_output (JStr "late"))] eq_refl eq_refl).
  - exact (actor_failure_ends_the_activation
             (set_activation_task (Some {| task := 1; state := pending |})
                Samples.activation_session)
             1 CancelledError
             [actor_yields (activation_output (JStr "late"))] eq_refl eq_refl).
Defined.

(** X11: while the activation task is in its loop, the outputs the actor
    gives are forwarded as [{"event": "output", "output": data}] frames, one
    per output, in the actor's order, with no call on the actor; an output
    is not terminal: the session and its task are as they were. *)
Theorem activation_outputs_are_forwarded_in_order s t datas :
  _activation_task s = Some {| task := t; state := pending |} ->
  exec (map (fun data => Activation (actor_yields (activation_output data))) datas) s =
    (s, map (fun data => send (output_frame data)) datas).
Proof.
  intros Ht. induction datas as [|data datas IH]; [reflexivity|].
  cbn [map exec handle_event].
  unfold _activate_connection_step, iterate, on_activation_event.
  mcbv. rewrite Ht. cbn [state]. mcbv. rewrite IH. reflexivity.
Qed.

Lemma activation_outputs_witness :
  exec (map (fun data => Activation (actor_yields (activation_output data)))
          [JStr "one"; JStr "two"])
    (set_activation_task (Some {| task := 1; state := pending |}) Samples.activation_session) =
    (set_activation_task (Some {| task := 1; state := pending |}) Samples.activation_session,
     map (fun data => send (output_frame data)) [JStr "one"; JStr "two"]).
Proof.
  apply (activation_outputs_are_forwarded_in_order _ 1 [JStr "one"; JStr "two"]).
  reflexivity.
Defined.

End ConnectionMore.

(** ** [ConnectionConsumer]: what [receive] delivers *)

Module ConnectionReceive.
Import ConnectionConsumer ConnectionLifecycle MonadFacts.

(** X12: [receive] delivers no input to the actor but [terminate]: the
    only call it ever makes on the actor is [input("terminate")], for a
    frame whose event is [input]; any other input frame is dropped
    ([_handle_input] is never called).  [receive] itself sends no frame,
    closes nothing and cancels no task. *)
Theorem receive_delivers_only_terminate json_data new_task s :
  sent (effects_of (receive json_data new_task s)) = [] /\
  closes (effects_of (receive json_data new_task s)) = [] /\
  (actor_calls (effects_of (receive json_data new_task s)) = [] \/
   event_is json_data "input" = true /\
   field json_data "input" (JObj []) = JStr "terminate" /\
   actor_calls (effects_of (receive json_data new_task s)) =
     [actor_input (JStr "terminate")]) /\
  (forall t, ~ In (task_cancel t) (effects_of (receive json_data new_task s))).
Proof.
  unfold receive, disconnect, actor_call. mcbv.
  destruct json_data as [| | | | |kv]; try solve [cbn; intuition].
  cbn [event_is].
  destruct (eq_str (field (JObj kv) "event" JNull) "activate");
    destruct (eq_str (field (JObj kv) "event" JNull) "input") eqn:Ei;
    cbn [andb];
    try solve [cbn; intuition congruence].
  all: destruct (eq_str (field (JObj kv) "input" (JObj [])) "terminate") eqn:Et;
    try solve [cbn; intuition congruence].
  all: apply eq_str_true in Et; rewrite Et.
  all: destruct (connection_activation_actor s) eqn:Ea;
    cbn [set_activation_task connection_activation_actor]; rewrite ?Ea;
    cbn; rewrite ?Ei; intuition congruence.
Qed.

End ConnectionReceive.

(** ** [PlaygroundConsumer]: the frames of a run, and the runner factory *)

Module PlaygroundMore.
Import PlaygroundConsumer MonadFacts PlaygroundFacts.

Lemma prepare_ok json_data kv input_kv uuid s :
  json_data = JObj kv ->
  field json_data "input" (JObj []) = JObj input_kv ->
  prepare json_data uuid s =
    (Normal {| client_request_id := field json_data "id" JNull;
               session_id := uuid;
               input := field (JObj input_kv) "input" (JObj []) |}, s, []).
Proof.
  intros -> Hin. unfold prepare. mcbv. rewrite Hin. reflexivity.
Qed.






(** X14: when the runner factory fails.  If [get_app_runner_async] raises,
    the handler ends with that exception, before the [try]: nothing is
    logged or sent, no runner is stopped and the session keeps the runner
    it had.  If it returns [None], the failure of [run] is logged, the
    [stop()] after the [try] then raises an [AttributeError] that leaves
    the handler, and nothing is sent. *)
Theorem runner_factory_failure json_data kv input_kv uuid items s :
  json_data = JObj kv ->
  field json_data "input" (JObj []) = JObj input_kv ->
  (forall e, _respond_to_event json_data uuid (inl e) items s = (Raised e, s, [])) /\
  _respond_to_event json_data uuid (inr None) items s =
    (Raised (AttributeError "'NoneType' object has no attribute 'stop'"),
     set_app_runner None s,
     [logger_exception "Failed to run app: 'NoneType' object has no attribute 'run'"]).
Proof.
  intros Hj Hin. split; [intros e|]; unfold _respond_to_event;
    unfold def, bind at 1; rewrite (prepare_ok json_data kv input_kv uuid s Hj Hin);
    unfold await_app_runner, run, stop_app_runner; mcbv; reflexivity.
Qed.

Lemma runner_factory_failure_witness :
  _respond_to_event Samples.run_a "u" (inr None) [yields Samples.chunk_h]
    (session Samples.playground) =
    (Raised (AttributeError "'NoneType' object has no attribute 'stop'"),
     set_app_runner None (session Samples.playground),
     [logger_exception "Failed to run app: 'NoneType' object has no attribute 'run'"]).
Proof.
  apply (proj2 (runner_factory_failure Samples.run_a _ [] "u" [yields Samples.chunk_h]
                  (session Samples.playground) eq_refl eq_refl)).
Defined.

End PlaygroundMore.

(** ** [PlaygroundConsumer]: a task that [disconnect] cancels *)

Module PlaygroundCancel.
Import PlaygroundConsumer MonadFacts PlaygroundFacts PlaygroundAlone.

(** The system after [disconnect] and the steps of the task it
    cancelled. *)
Lemma disconnect_then_steps sys (i : nat) t h close_code n :
  _event_response_task (session sys) = Some i ->
  tasks sys !! i = Some t ->
  at_stage t <> finished ->
  _app_runner (session sys) = Some h ->
  exec (Disconnect close_code :: repeat (Step i) (S n)) sys =
    {| session := set_connected false (session sys);
       tasks := <[i := move (request_cancel t) finished]>
                  (alter request_cancel i (tasks sys));
       trace := trace sys ++ [task_cancel i; runner_stop h] |}.
Proof.
  intros Hi Ht Hf Hr. rewrite exec_cons. cbn [handle_event].
  unfold disconnect. mcbv. cbn [_event_response_task _app_runner set_connected].
  rewrite Hi, Hr. mcbv. cbn [app].
  rewrite exec_repeat_S. cbn [handle_event]. unfold step.
  cbn [tasks session trace]. unfold cancel_held. rewrite Hi.
  rewrite list_lookup_alter_eq, Ht. cbn [fmap option_fmap option_map].
  unfold resume. cbn [at_stage request_cancel cancel_requested].
  assert (Hlen : i < length (alter request_cancel i (tasks sys))).
  { rewrite length_alter. eapply lookup_lt_Some; eauto. }
  destruct (at_stage t) as [request|rid items|] eqn:Hst; [| |congruence]; mcbv;
    (erewrite steps_finished;
     [ rewrite app_nil_r; reflexivity
     | cbn [tasks]; apply list_lookup_insert_eq; exact Hlen
     | reflexivity ]).
Qed.

(** X23: [disconnect] on a session that holds a runner [h] and a task that
    has not finished sets the liveness flag to false, calls [cancel()] on
    the task and stops [h]; the task then ends at the [await] it was
    suspended at, by a [CancelledError] that [except Exception] does not
    catch: it sends nothing, logs nothing, and does not reach the [stop()]
    of line 460, so the runner is stopped once. *)
Theorem disconnect_ends_the_held_task sys (i : nat) t h close_code n :
  _event_response_task (session sys) = Some i ->
  tasks sys !! i = Some t ->
  at_stage t <> finished ->
  _app_runner (session sys) = Some h ->
  trace (exec (Disconnect close_code :: repeat (Step i) (S n)) sys) =
    trace sys ++ [task_cancel i; runner_stop h] /\
  at_stage <$> tasks (exec (Disconnect close_code :: repeat (Step i) (S n)) sys) !! i =
    Some finished /\
  _connected (session (exec (Disconnect close_code :: repeat (Step i) (S n)) sys)) = false.
Proof.
  intros Hi Ht Hf Hr.
  rewrite (disconnect_then_steps sys i t h close_code n Hi Ht Hf Hr).
  cbn [trace tasks session]. split; [reflexivity|]. split; [|reflexivity].
  rewrite list_lookup_insert_eq; [reflexivity|].
  rewrite length_alter. eapply lookup_lt_Some; eauto.
Qed.

Lemma disconnect_ends_witness :
  trace (exec (Disconnect 1001 :: repeat (Step 0) 2)
           (exec [Receive Samples.run_a "ua" (inr (Some 1))
                    [yields Samples.chunk_h; yields Samples.chunk_hi];
                  Step 0; Step 0] Samples.playground)) =
    trace (exec [Receive Samples.run_a "ua" (inr (Some 1))
                   [yields Samples.chunk_h; yields Samples.chunk_hi];
                 Step 0; Step 0] Samples.playground)
      ++ [task_cancel 0; runner_stop 1].
Proof.
  apply (proj1 (disconnect_ends_the_held_task
                  (exec [Receive Samples.run_a "ua" (inr (Some 1))
                           [yields Samples.chunk_h; yields Samples.chunk_hi];
                         Step 0; Step 0] Samples.playground)
                  0 _ 1 1001 1 eq_refl eq_refl ltac:(discriminate) eq_refl)).
Defined.

End PlaygroundCancel.

(** ** [TwilioVoiceConsumer]: [start], [stop] and the output-audio relay *)

Module TwilioMore.
Import TwilioVoiceConsumer MonadFacts.

Section Call.
Context {storage : Type} {streams : AssetStream storage} {audio : Audio} {resolver : Resolver}.




Lemma relay_facts chunks (s : self storage) :
  Forall (fun chunk => chunk <> []) chunks ->
  (forall rest,
     relay (map next_chunk chunks ++ next_chunk [] :: rest) s =
       (Normal tt, s,
        map (fun chunk => send (RunFrames.media (default JNull (_stream_sid s)) chunk)) chunks)) /\
  relay (map next_chunk chunks) s =
    (Normal tt, s,
     map (fun chunk => send (RunFrames.media (default JNull (_stream_sid s)) chunk)) chunks) /\
  (forall e rest,
     relay (map next_chunk chunks ++ read_raises e :: rest) s =
       (Raised e, s,
        map (fun chunk => send (RunFrames.media (default JNull (_stream_sid s)) chunk)) chunks)).
Proof.
  induction 1 as [|chunk chunks Hne _ (IH1 & IH2 & IH3)].
  - repeat split; reflexivity.
  - destruct chunk as [|c chunk]; [congruence|].
    repeat split; intros; cbn [map app relay]; mcbv;
      rewrite ?IH1, ?IH2, ?IH3; reflexivity.
Qed.

(** X16: the output-audio relay.  When the asset resolves, the relay sends
    one media frame per chunk read from index 0, in order, with the
    base64 of the chunk and the session's stream id, until the stream ends
    or gives an empty chunk; what the stream holds after an empty chunk is
    not sent.  It does so whether or not the session is still connected.
    When the resolution raises, the relay ends with that exception and
    sends nothing. *)
Theorem relay_sends_chunks_until_an_empty_one audio_stream chunks (s : self storage) :
  Forall (fun chunk => chunk <> []) chunks ->
  (forall asset rest,
     get_asset_by_objref audio_stream (_session_id s) = inr asset ->
     read_async asset 0 (assets s) = map next_chunk chunks ++ next_chunk [] :: rest \/
     read_async asset 0 (assets s) = map next_chunk chunks ->
     _process_output_audio_stream audio_stream s =
       (Normal tt, s,
        map (fun chunk => send (RunFrames.media (default JNull (_stream_sid s)) chunk))
          chunks)) /\
  (forall e,
     get_asset_by_objref audio_stream (_session_id s) = inl e ->
     _process_output_audio_stream audio_stream s = (Raised e, s, [])).
Proof.
  intros Hne. destruct (relay_facts chunks s Hne) as (H1 & H2 & _).
  split.
  - intros asset rest Ha Hr. unfold _process_output_audio_stream, call. mcbv.
    rewrite Ha. destruct Hr as [-> | ->]; rewrite ?H1, ?H2; reflexivity.
  - intros e Ha. unfold _process_output_audio_stream, call. mcbv.
    rewrite Ha. reflexivity.
Qed.

(** X17: a [stop] event on a session with a runner [h] stops [h] and
    forgets it.  After that a further [stop] or a [start] event ends with
    an exception, sending nothing and stopping nothing, and [disconnect]
    only closes the connection: the runner is stopped once. *)
Theorem stop_event_releases_the_runner json_data items new_task h (s : self storage) :
  event_is json_data "stop" = true ->
  _app_runner s = Some h ->
  _respond_to_event json_data items new_task s =
    (Normal tt, set_app_runner None s, [runner_stop h]) /\
  (forall next next_items next_task,
     event_is next "stop" = true \/ event_is next "start" = true ->
     raised (outcome_of (_respond_to_event next next_items next_task
                           (set_app_runner None s))) = true /\
     effects_of (_respond_to_event next next_items next_task (set_app_runner None s)) = []) /\
  (forall close_code,
     disconnect close_code (set_app_runner None s) =
       (Normal tt, set_connected false (set_app_runner None s), [close (Some close_code)])).
Proof.
  intros Hev Hr. destruct (event_is_dict _ _ Hev) as [[kv ->] He].
  apply eq_str_true in He. split; [|split].
  - unfold _respond_to_event. mcbv. rewrite He.
    change (eq_str (JStr "stop") "start") with false.
    change (eq_str (JStr "stop") "stop") with true.
    cbv beta iota. rewrite Hr. reflexivity.
  - intros next next_items next_task [Hn|Hn];
      destruct (event_is_dict _ _ Hn) as [[kv' ->] He']; apply eq_str_true in He';
      unfold _respond_to_event; mcbv; rewrite He'.
    + change (eq_str (JStr "stop") "start") with false.
      change (eq_str (JStr "stop") "stop") with true.
      cbv beta iota. cbn [_app_runner set_app_runner]. auto.
    + change (eq_str (JStr "start") "start") with true.
      cbv beta iota.
      destruct (field (JObj kv') "start" (JObj [])); cbn; auto.
  - intros close_code. unfold disconnect. mcbv. reflexivity.
Qed.

End Call.


Lemma relay_witness :
  _process_output_audio_stream (streams := spec_stream) (audio := Samples.audio)
    (resolver := Samples.resolver) (JStr "objref://sessionfiles/1")
    (set_assets (<[objref Samples.the_asset :=
                     {| chunks := [b "ab"; b "c"; []; b "d"]; finalized := false |}]> ∅)
       Samples.call_session) =
    (Normal tt,
     set_assets (<[objref Samples.the_asset :=
                     {| chunks := [b "ab"; b "c"; []; b "d"]; finalized := false |}]> ∅)
       Samples.call_session,
     [send (RunFrames.media (audio := Samples.audio) (JStr "MZ1") (b "ab"));
      send (RunFrames.media (audio := Samples.audio) (JStr "MZ1") (b "c"))]).
Proof.
  apply (proj1 (relay_sends_chunks_until_an_empty_one (streams := spec_stream)
                  (audio := Samples.audio) (resolver := Samples.resolver)
                  (JStr "objref://sessionfiles/1") [b "ab"; b "c"]
                  (set_assets (<[objref Samples.the_asset :=
                       {| chunks := [b "ab"; b "c"; []; b "d"]; finalized := false |}]> ∅)
                     Samples.call_session)
                  ltac:(repeat constructor; discriminate))
           (Some Samples.the_asset) [next_chunk (b "d")] eq_refl).
  left. vm_compute. reflexivity.
Defined.

Lemma stop_event_releases_witness :
  _respond_to_event (streams := spec_stream) (audio := Samples.audio)
    (resolver := Samples.resolver) (JObj [("event", JStr "stop")]) [] 0 Samples.call_session =
    (Normal tt, set_app_runner None Samples.call_session, [runner_stop 1]).
Proof.
  apply (proj1 (stop_event_releases_the_runner (streams := spec_stream)
                  (audio := Samples.audio) (resolver := Samples.resolver)
                  (JObj [("event", JStr "stop")]) [] 0 1 Samples.call_session
                  eq_refl eq_refl)).
Defined.

End TwilioMore.

(** ** The request metadata *)

Module RequestFacts.
Import Str Connect Requests AssetStreamFacts.

(** *** [split] *)

Lemma split_from_first sep entry : forall cur,
  ~ In sep entry ->
  first (split_from sep cur entry) = rev cur ++ entry /\
  (forall rest, first (split_from sep cur (entry ++ sep :: rest)) = rev cur ++ entry).
Proof.
  induction entry as [|c entry IH]; intros cur Hn.
  - cbn [split_from app first]. rewrite N.eqb_refl, app_nil_r. auto.
  - assert (Hc : N.eqb c sep = false).
    { apply N.eqb_neq. intros ->. apply Hn. left. reflexivity. }
    assert (Hn' : ~ In sep entry) by (intros H; apply Hn; right; exact H).
    destruct (IH (c :: cur) Hn') as [H1 H2].
    cbn [split_from app]. rewrite Hc. cbn [rev] in H1, H2.
    rewrite <- !app_assoc in H1. split; [exact H1|].
    intros rest. rewrite H2, <- app_assoc. reflexivity.
Qed.

Lemma first_split_from_no_sep sep s : forall cur,
  ~ In sep cur -> ~ In sep (first (split_from sep cur s)).
Proof.
  induction s as [|c s IH]; intros cur Hn; cbn [split_from].
  - cbn [first]. rewrite <- in_rev. exact Hn.
  - destruct (N.eqb c sep) eqn:E.
    + cbn [first]. rewrite <- in_rev. exact Hn.
    + apply IH. intros [->|H]; [|exact (Hn H)].
      rewrite N.eqb_refl in E. discriminate.
Qed.

(** *** [strip] *)

Lemma lstrip_head s c rest : lstrip s = c :: rest -> isspace c = false.
Proof.
  induction s as [|d s IH]; cbn [lstrip]; [discriminate|].
  destruct (isspace d) eqn:E; [exact IH|].
  intros H. injection H as -> _. exact E.
Qed.

Lemma lstrip_fixed s :
  (forall c rest, s = c :: rest -> isspace c = false) -> lstrip s = s.
Proof.
  destruct s as [|c s]; [reflexivity|]. intros H. cbn [lstrip].
  rewrite (H c s eq_refl). reflexivity.
Qed.

Lemma lstrip_idem s : lstrip (lstrip s) = lstrip s.
Proof. apply lstrip_fixed. intros c rest. apply lstrip_head. Qed.

Lemma lstrip_In c s : In c (lstrip s) -> In c s.
Proof.
  induction s as [|d s IH]; cbn [lstrip]; [auto|].
  destruct (isspace d); [|auto]. intros H. right. auto.
Qed.

(** [lstrip] of a string that ends with a character that is no space
    still ends with it. *)
Lemma lstrip_keeps_last front c :
  isspace c = false -> exists front', lstrip (front ++ [c]) = front' ++ [c].
Proof.
  intros Hc. induction front as [|d front IH]; cbn [app lstrip].
  - rewrite Hc. exists []. reflexivity.
  - destruct (isspace d); [exact IH|]. exists (d :: front). reflexivity.
Qed.

Lemma rstrip_last s c front : rstrip s = front ++ [c] -> isspace c = false.
Proof.
  unfold rstrip. intros H. apply (f_equal (@rev N)) in H.
  rewrite rev_involutive, rev_app_distr in H. cbn [rev app] in H.
  exact (lstrip_head _ _ _ H).
Qed.

Lemma rstrip_In c s : In c (rstrip s) -> In c s.
Proof.
  unfold rstrip. rewrite <- in_rev. intros H. apply lstrip_In in H.
  rewrite <- in_rev in H. exact H.
Qed.

Lemma rstrip_head s c rest :
  isspace c = false -> s = c :: rest -> exists rest', rstrip s = c :: rest'.
Proof.
  intros Hc ->. unfold rstrip. cbn [rev].
  destruct (lstrip_keeps_last (rev rest) c Hc) as [front' ->].
  rewrite rev_app_distr. cbn [rev app]. eexists. reflexivity.
Qed.

Lemma rstrip_idem s : rstrip (rstrip s) = rstrip s.
Proof. unfold rstrip. rewrite rev_involutive, lstrip_idem. reflexivity. Qed.

Lemma strip_head s c rest : strip s = c :: rest -> isspace c = false.
Proof.
  unfold strip. destruct (lstrip s) as [|d t] eqn:E.
  - cbn. discriminate.
  - pose proof (lstrip_head _ _ _ E) as Hd.
    destruct (rstrip_head (d :: t) d t Hd eq_refl) as [rest' ->].
    intros H. injection H as <- _. exact Hd.
Qed.

Lemma strip_last s c front : strip s = front ++ [c] -> isspace c = false.
Proof. unfold strip. apply rstrip_last. Qed.

Lemma strip_In c s : In c (strip s) -> In c s.
Proof. unfold strip. intros H. apply lstrip_In, rstrip_In. exact H. Qed.

Lemma strip_idem s : strip (strip s) = strip s.
Proof.
  unfold strip at 1.
  rewrite (lstrip_fixed (strip s)) by (intros c rest; apply strip_head).
  unfold strip. apply rstrip_idem.
Qed.

(** X18: [value.split(",")[0].strip()], the address both [connect] and
    [_build_request_from_input] take from a forwarding header, holds no
    comma and neither starts nor ends with white space, and taking it
    again from the result changes nothing. *)
Theorem first_entry_is_one_trimmed_token value :
  ~ In comma (first_entry value) /\
  (forall c rest, first_entry value = c :: rest -> isspace c = false) /\
  (forall c front, first_entry value = front ++ [c] -> isspace c = false) /\
  first_entry (first_entry value) = first_entry value.
Proof.
  assert (Hn : ~ In comma (first_entry value)).
  { unfold first_entry. intros H. apply strip_In in H.
    exact (first_split_from_no_sep comma value [] (fun F => F) H). }
  split; [exact Hn|]. split; [|split].
  - intros c rest. apply strip_head.
  - intros c front. apply strip_last.
  - unfold first_entry at 1. unfold split.
    rewrite (proj1 (split_from_first comma (first_entry value) [] Hn)).
    cbn [rev app]. unfold first_entry. apply strip_idem.
Qed.

(** X19: the [request_ip] of [connect].  When [X-Forwarded-For] is there,
    the address is its first entry (up to the first comma) without the
    white space around it, whatever follows the comma and whatever the
    client's host is; when that entry is blank, it is [X-Real-IP] as it
    is, or the empty string.  The default of the first lookup is evaluated
    in any case, so a scope whose [client] is [None] makes [connect] end
    with a [TypeError] also when the header is there. *)
Theorem request_ip_is_first_forwarded_entry entry rest c real_ip :
  ~ In comma entry ->
  request_ip (Some (entry ++ comma :: rest)) c real_ip = request_ip (Some entry) c real_ip /\
  request_ip (Some entry) c real_ip =
    match c with
    | null_client => inl (Exception "TypeError" "'NoneType' object is not subscriptable")
    | _ => inr (or_else (strip entry) (default [] real_ip))
    end.
Proof.
  intros Hn. destruct (split_from_first comma entry [] Hn) as [H1 H2].
  unfold request_ip, first_entry, split.
  destruct c; cbn [client_host from_option id]; rewrite ?H1, ?H2; auto.
Qed.

Lemma request_ip_witness :
  request_ip (Some (lit " 203.0.113.7 , 10.0.0.1")) (client_of (Some (lit "10.0.0.9")))
    (Some (lit "198.51.100.2")) = inr (lit "203.0.113.7").
Proof.
  exact (eq_trans
           (proj1 (request_ip_is_first_forwarded_entry (lit " 203.0.113.7 ") (lit " 10.0.0.1")
                     (client_of (Some (lit "10.0.0.9"))) (Some (lit "198.51.100.2"))
                     ltac:(vm_compute; intuition discriminate)))
           eq_refl).
Defined.

(** *** The headers of a scope *)

Lemma get_last_app key pairs1 : forall pairs2 default,
  get_last key (pairs1 ++ pairs2) default = get_last key pairs2 (get_last key pairs1 default).
Proof.
  induction pairs1 as [|[k v] pairs1 IH]; intros pairs2 default; [reflexivity|].
  cbn [app get_last]. apply IH.
Qed.

Lemma get_last_absent key pairs : forall default,
  (forall k v, In (k, v) pairs -> k <> key) -> get_last key pairs default = default.
Proof.
  induction pairs as [|[k v] pairs IH]; intros default H; [reflexivity|].
  cbn [get_last]. rewrite (bytes_eqb_neq k key) by (apply (H k v); left; reflexivity).
  apply IH. intros k' v' Hin. apply (H k' v'). right. exact Hin.
Qed.

Section BuiltRequest.
Context {codec : Codec}.

(** X20: the [REMOTE_ADDR] of the request [_build_request_from_input]
    builds.  Of several [x-forwarded-for] headers of the scope the last one
    counts: the address is the first entry of its decoded value, trimmed.
    With no such header (and an empty byte string decoding to the empty
    string) the address is empty. *)
Theorem remote_addr_is_first_entry_of_last_header post_data scope request :
  _build_request_from_input post_data scope = inr request ->
  (forall before value after forwarded_for,
     scope_headers scope = before ++ (b "x-forwarded-for", value) :: after ->
     (forall k v, In (k, v) after -> k <> b "x-forwarded-for") ->
     decode value = inr forwarded_for ->
     REMOTE_ADDR request = first_entry forwarded_for) /\
  ((forall k v, In (k, v) (scope_headers scope) -> k <> b "x-forwarded-for") ->
   decode [] = inr [] ->
   REMOTE_ADDR request = []).
Proof.
  unfold _build_request_from_input. intros Hb.
  destruct (decode (get_last (b "content-type") (scope_headers scope) (b "application/json")));
    [discriminate|].
  destruct (decode (default [] (scope_query_string scope))); [discriminate|].
  destruct (decode (get_last (b "user-agent") (scope_headers scope) [])); [discriminate|].
  destruct (decode (get_last (b "x-forwarded-for") (scope_headers scope) [])) as [|fwd] eqn:E;
    [discriminate|].
  injection Hb as <-. cbn [REMOTE_ADDR]. split.
  - intros before value after forwarded_for Hh Ha Hd.
    rewrite Hh, get_last_app in E. cbn [get_last] in E.
    rewrite bytes_eqb_refl, (get_last_absent _ _ _ Ha), Hd in E. congruence.
  - intros Ha Hd. rewrite (get_last_absent _ _ _ Ha), Hd in E.
    injection E as <-. reflexivity.
Qed.

End BuiltRequest.

Lemma remote_addr_witness :
  exists request,
    _build_request_from_input (codec := ascii_codec) (JObj []) forwarded_twice = inr request /\
    REMOTE_ADDR request = lit "203.0.113.7".
Proof.
  eexists. split; [reflexivity|].
  apply (proj1 (remote_addr_is_first_entry_of_last_header (codec := ascii_codec)
                  (JObj []) forwarded_twice _ eq_refl)
           [(b "x-forwarded-for", b "192.0.2.1"); (b "user-agent", b "curl")]
           (b " 203.0.113.7 , 10.0.0.1") [] (lit " 203.0.113.7 , 10.0.0.1") eq_refl).
  - intros k v [].
  - reflexivity.
Defined.

End RequestFacts.
